(** * Task and employee correlators of git-jira-bot

    A shallow embedding of [cluster_knowledge.py] and [cluster_employee.py],
    and the properties of the clusters they build.

    Conventions of the embedding.
    - A Python [str] is a [string]; every character is one code point below
      256 (the Latin-1 repertoire), which fixes the character classes of the
      regular expressions and of [str.lower].
    - A JSON object read with [d["k"]] is a record field; a field read with
      [d.get("k")] is an [option], [None] standing for an absent or null
      value.
    - A [dict] (and [defaultdict]) is an association list in insertion order.
    - An exception is a [Raise] in the [result] monad. *)

From Stdlib Require Import String Ascii List ZArith NArith Bool Lia Arith.
From Stdlib Require Import Permutation Sorting.Sorted.
Import ListNotations.
Open Scope string_scope.
Open Scope list_scope.

Set Implicit Arguments.

(* ================================================================== *)
(** ** Exceptions *)

Inductive exn : Type :=
| ValueError   (* datetime.fromisoformat on a malformed string *)
| TypeError.   (* ordering an offset-naive against an offset-aware datetime *)

Inductive result (A : Type) : Type :=
| Ok (a : A)
| Raise (e : exn).

Arguments Ok {A} a.
Arguments Raise {A} e.

Definition bind {A B : Type} (m : result A) (k : A -> result B) : result B :=
  match m with
  | Ok a => k a
  | Raise e => Raise e
  end.

Notation "x <- m ;; k" := (bind m (fun x => k))
  (at level 61, m at next level, right associativity).

(** A [for] loop whose body may raise, threading the loop state. *)
Fixpoint foldM {S A : Type} (body : A -> S -> result S) (l : list A) (s : S)
  : result S :=
  match l with
  | [] => Ok s
  | a :: r => s' <- body a s ;; foldM body r s'
  end.

(** A loop over a sequence whose body rewrites each element in place. *)
Fixpoint mapM {A B : Type} (body : A -> result B) (l : list A)
  : result (list B) :=
  match l with
  | [] => Ok []
  | a :: r => b <- body a ;; bs <- mapM body r ;; Ok (b :: bs)
  end.

(* ================================================================== *)
(** ** Strings and character classes *)

Definition code (c : ascii) : N := N_of_ascii c.

(** [\d] on text: the decimal digits. Below 256 these are [0]..[9]. *)
Definition is_digit (c : ascii) : bool :=
  (48 <=? code c)%N && (code c <=? 57)%N.

(** [[0-9a-f]] *)
Definition is_hex (c : ascii) : bool :=
  is_digit c || ((97 <=? code c)%N && (code c <=? 102)%N).

(** [\w] on text: alphanumeric code points and the underscore. Below 256
    the alphanumerics are the ASCII letters and digits, the ordinal
    indicators, the micro sign, the superscript digits, the vulgar
    fractions and the accented letters. *)
Definition is_word (c : ascii) : bool :=
  let n := code c in
  is_digit c
  || ((65 <=? n)%N && (n <=? 90)%N)
  || ((97 <=? n)%N && (n <=? 122)%N)
  || (n =? 95)%N
  || (n =? 170)%N || (n =? 178)%N || (n =? 179)%N || (n =? 181)%N
  || (n =? 185)%N || (n =? 186)%N
  || ((188 <=? n)%N && (n <=? 190)%N)
  || ((192 <=? n)%N && (n <=? 214)%N)
  || ((216 <=? n)%N && (n <=? 246)%N)
  || ((248 <=? n)%N && (n <=? 255)%N).

(** [str.lower], one character. *)
Definition lower_char (c : ascii) : ascii :=
  let n := code c in
  if ((65 <=? n)%N && (n <=? 90)%N)
     || ((192 <=? n)%N && (n <=? 214)%N)
     || ((216 <=? n)%N && (n <=? 222)%N)
  then ascii_of_N (n + 32) else c.

Fixpoint lower (s : string) : string :=
  match s with
  | EmptyString => EmptyString
  | String c r => String (lower_char c) (lower r)
  end.

(** [needle in hay] on strings. *)
Fixpoint contains (needle hay : string) : bool :=
  prefix needle hay ||
  match hay with
  | EmptyString => false
  | String _ r => contains needle r
  end.

(** [if x:] on an optional string: [None] and the empty string are false;
    a true [x] is handed to the branch. *)
Definition truthy (o : option string) : option string :=
  match o with
  | Some s => if s =? EmptyString then None else Some s
  | None => None
  end.

Fixpoint drop (n : nat) (s : string) : string :=
  match n, s with
  | O, _ => s
  | S _, EmptyString => EmptyString
  | S m, String _ r => drop m r
  end.

(** The longest prefix of [s] made of characters of class [p]. *)
Fixpoint take_while (p : ascii -> bool) (s : string) : string :=
  match s with
  | EmptyString => EmptyString
  | String c r => if p c then String c (take_while p r) else EmptyString
  end.

(* ================================================================== *)
(** ** Regular expressions of the correlators *)

(** [PROJ-\d+] anchored at the start of [s]: the matched text, the digits
    taken greedily. *)
Definition match_task_id (s : string) : option string :=
  if prefix "PROJ-" s then
    match take_while is_digit (drop 5 s) with
    | EmptyString => None
    | ds => Some ("PROJ-" ++ ds)%string
    end
  else None.

(** A run of exactly [n] characters of class [p] at the start of [s]; the
    rest of [s] after it. *)
Fixpoint run (p : ascii -> bool) (n : nat) (s : string) : option string :=
  match n, s with
  | O, _ => Some s
  | S m, String c r => if p c then run p m r else None
  | S _, EmptyString => None
  end.

Definition dash (s : string) : option string :=
  match s with
  | String c r => if (code c =? 45)%N then Some r else None
  | EmptyString => None
  end.

Definition opt_bind {A B : Type} (o : option A) (k : A -> option B)
  : option B :=
  match o with
  | Some a => k a
  | None => None
  end.

(** [[0-9a-f]{8}-[0-9a-f]{4}-[0-9a-f]{4}-[0-9a-f]{4}-[0-9a-f]{12}] anchored
    at the start of [s]. *)
Definition match_uuid (s : string) : option string :=
  opt_bind (run is_hex 8 s) (fun s1 =>
  opt_bind (dash s1) (fun s2 =>
  opt_bind (run is_hex 4 s2) (fun s3 =>
  opt_bind (dash s3) (fun s4 =>
  opt_bind (run is_hex 4 s4) (fun s5 =>
  opt_bind (dash s5) (fun s6 =>
  opt_bind (run is_hex 4 s6) (fun s7 =>
  opt_bind (dash s7) (fun s8 =>
  opt_bind (run is_hex 12 s8) (fun _ =>
  Some (substring 0 36 s)))))))))).

(** [re.findall]: the matches from left to right, not overlapping. The scan
    steps one character at a time; [skip] counts the characters still
    covered by the last match. *)
Fixpoint findall_from (m : string -> option string) (skip : nat) (s : string)
  : list string :=
  match s with
  | EmptyString => []
  | String _ r =>
      match skip with
      | S k => findall_from m k r
      | O =>
          match m s with
          | Some t => t :: findall_from m (String.length t - 1) r
          | None => findall_from m 0 r
          end
      end
  end.

Definition findall (m : string -> option string) (s : string) : list string :=
  findall_from m 0 s.

Definition findall_task_id : string -> list string := findall match_task_id.
Definition findall_uuid : string -> list string := findall match_uuid.

(** [re.search(r"Resolved by (\w+)", s)] followed by [group(1)]. *)
Definition match_resolver (s : string) : option string :=
  if prefix "Resolved by " s then
    match take_while is_word (drop 12 s) with
    | EmptyString => None
    | w => Some w
    end
  else None.

Fixpoint search_resolver (s : string) : option string :=
  match match_resolver s with
  | Some w => Some w
  | None =>
      match s with
      | EmptyString => None
      | String _ r => search_resolver r
      end
  end.

(* ================================================================== *)
(** ** Date-times *)

(** A [datetime]: whether it carries a UTC offset, and its position on the
    time line (of local time when naive, of UTC when aware). Two date-times
    are ordered only when both are naive or both are aware. *)
Record datetime : Type := {
  aware : bool;
  instant : Z
}.

Definition datetime_eqb (a b : datetime) : bool :=
  Bool.eqb (aware a) (aware b) && (instant a =? instant b)%Z.

(** [a <= b] holds without raising: both of one kind, and in order. *)
Definition datetime_le (a b : datetime) : Prop :=
  aware a = aware b /\ (instant a <= instant b)%Z.

(** A parser of the basic extended format [YYYY-MM-DDTHH:MM:SS], naive. It
    instantiates [datetime.fromisoformat] in the examples; the position it
    computes is a rank that grows with the date, not a number of seconds. *)
Definition digit_val (c : ascii) : option Z :=
  if is_digit c then Some (Z.of_N (code c) - 48)%Z else None.

Fixpoint number (n : nat) (acc : Z) (s : string) : option (Z * string) :=
  match n, s with
  | O, _ => Some (acc, s)
  | S m, String c r =>
      opt_bind (digit_val c) (fun d => number m (10 * acc + d)%Z r)
  | S _, EmptyString => None
  end.

Definition sep (ch : N) (s : string) : option string :=
  match s with
  | String c r => if (code c =? ch)%N then Some r else None
  | EmptyString => None
  end.

Definition iso_basic (s : string) : option datetime :=
  opt_bind (number 4 0%Z s) (fun '(y, s) =>
  opt_bind (sep 45 s) (fun s =>
  opt_bind (number 2 0%Z s) (fun '(mo, s) =>
  opt_bind (sep 45 s) (fun s =>
  opt_bind (number 2 0%Z s) (fun '(d, s) =>
  opt_bind (sep 84 s) (fun s =>
  opt_bind (number 2 0%Z s) (fun '(h, s) =>
  opt_bind (sep 58 s) (fun s =>
  opt_bind (number 2 0%Z s) (fun '(mi, s) =>
  opt_bind (sep 58 s) (fun s =>
  opt_bind (number 2 0%Z s) (fun '(se, s) =>
  match s with
  | EmptyString =>
      if ((1 <=? mo) && (mo <=? 12) && (1 <=? d) && (d <=? 31)
          && (h <? 24) && (mi <? 60) && (se <? 60))%Z
      then Some {| aware := false;
                   instant := (((((y * 12 + mo) * 31 + d) * 24 + h) * 60 + mi)
                               * 60 + se)%Z |}
      else None
  | _ => None
  end))))))))))).

(* ================================================================== *)
(** ** Sorting and sets *)

(** [list.sort(key=...)] is stable; on comparable keys its result is the one
    an insertion sort gives, as it is for any stable sort
    ([stable_sort_unique]). *)
Fixpoint insert_by {A : Type} (key : A -> Z) (x : A) (l : list A) : list A :=
  match l with
  | [] => [x]
  | y :: r => if (key x <=? key y)%Z then x :: y :: r
              else y :: insert_by key x r
  end.

Definition sort_by {A : Type} (key : A -> Z) (l : list A) : list A :=
  fold_right (insert_by key) [] l.

(** [list.sort(key=..., reverse=True)]: descending, equal keys still in
    their original order. *)
Definition sort_by_desc {A : Type} (key : A -> Z) (l : list A) : list A :=
  sort_by (fun x => (- key x)%Z) l.

(** [sorted(...)] and [list.sort] on date-time keys: ordering a naive key
    against an aware one raises, and a sort of two or more keys of both
    kinds cannot end without ordering such a pair. *)
Definition comparable (ks : list datetime) : bool :=
  forallb aware ks || forallb (fun k => negb (aware k)) ks.

Definition sort_by_datetime {A : Type} (key : A -> datetime) (l : list A)
  : result (list A) :=
  if comparable (map key l) then Ok (sort_by (fun x => instant (key x)) l)
  else Raise TypeError.

(** The order a sort by [key] puts its elements in. *)
Definition key_le {A : Type} (key : A -> Z) (a b : A) : Prop :=
  (key a <= key b)%Z.

Definition mem (x : string) (l : list string) : bool :=
  existsb (String.eqb x) l.

(** [set(l)], kept in order of first occurrence. Python walks a set in an
    order fixed by the hashes of its members. The loop over the task
    identifiers of an email gives the same result in any order
    ([direct_loop_order]), and the symmetry of the collaboration graph is
    proved from what a single pair of increments does. *)
Fixpoint py_set_from (seen l : list string) : list string :=
  match l with
  | [] => []
  | x :: r => if mem x seen then py_set_from seen r
              else x :: py_set_from (x :: seen) r
  end.

Definition py_set (l : list string) : list string := py_set_from [] l.

(** [s.add(x)] *)
Definition set_add (x : string) (s : list string) : list string :=
  if mem x s then s else s ++ [x].

(* ================================================================== *)
(** ** Dictionaries *)

Definition dict (V : Type) : Type := list (string * V).

Fixpoint dict_get {V : Type} (k : string) (d : dict V) : option V :=
  match d with
  | [] => None
  | (k', v) :: r => if k =? k' then Some v else dict_get k r
  end.

(** [k in d] *)
Definition dict_mem {V : Type} (k : string) (d : dict V) : bool :=
  match dict_get k d with
  | Some _ => true
  | None => false
  end.

(** [d[k]] on a [defaultdict] followed by a mutation [f] of the value: a
    missing key is first inserted, at the end, with the default value. *)
Fixpoint dict_update {V : Type} (dflt : V) (k : string) (f : V -> V)
  (d : dict V) : dict V :=
  match d with
  | [] => [(k, f dflt)]
  | (k', v) :: r =>
      if k =? k' then (k', f v) :: r
      else (k', v) :: dict_update dflt k f r
  end.

(** [d[k] = v] on a plain [dict]. *)
Fixpoint dict_set {V : Type} (k : string) (v : V) (d : dict V) : dict V :=
  match d with
  | [] => [(k, v)]
  | (k', v') :: r =>
      if k =? k' then (k', v) :: r else (k', v') :: dict_set k v r
  end.

(** [for k, v in d.items()] with a body that mutates the object [v] and may
    raise. *)
Definition dict_mapM {V : Type} (body : V -> result V) (d : dict V)
  : result (dict V) :=
  mapM (fun kv => v <- body (snd kv) ;; Ok (fst kv, v)) d.

(** A property of every entry. *)
Definition dict_all {V : Type} (P : string -> V -> Prop) (d : dict V) : Prop :=
  forall k v, In (k, v) d -> P k v.

(** The value a [defaultdict] shows under [k]. *)
Definition dict_view {V : Type} (dflt : V) (d : dict V) (k : string) : V :=
  match dict_get k d with
  | Some v => v
  | None => dflt
  end.

(* ================================================================== *)
(** ** Input records *)

Module Ticket.
Record ticket : Type := {
  id : string;
  summary : string;
  status : string;
  assignee : option string;
  created_at : string;
  updated_at : string;
  resolution : option string
}.
End Ticket.
Abbreviation ticket := Ticket.ticket.

Module Commit.
Record commit : Type := {
  commit_id : string;
  author : option string;
  ticket : option string;
  message : string;                (* empty when absent *)
  timestamp : string
}.
End Commit.
Abbreviation commit := Commit.commit.

Module Email.
Record email : Type := {
  thread_id : string;
  sender : option string;
  recipients : list string;        (* [] when absent *)
  subject : string;
  body : string;
  timestamp : string
}.
End Email.
Abbreviation email := Email.email.

Definition option_eqb {A : Type} (eqb : A -> A -> bool) (a b : option A)
  : bool :=
  match a, b with
  | Some x, Some y => eqb x y
  | None, None => true
  | _, _ => false
  end.

Fixpoint list_eqb {A : Type} (eqb : A -> A -> bool) (a b : list A) : bool :=
  match a, b with
  | [], [] => true
  | x :: a', y :: b' => eqb x y && list_eqb eqb a' b'
  | _, _ => false
  end.

(** [==] on two email objects: field by field. *)
Definition email_eqb (a b : email) : bool :=
  (Email.thread_id a =? Email.thread_id b)
  && option_eqb String.eqb (Email.sender a) (Email.sender b)
  && list_eqb String.eqb (Email.recipients a) (Email.recipients b)
  && (Email.subject a =? Email.subject b)
  && (Email.body a =? Email.body b)
  && (Email.timestamp a =? Email.timestamp b).

(** How many times [e] stands in a list of emails. *)
Definition occurrences (e : email) (l : list email) : nat :=
  length (filter (email_eqb e) l).

(** [e in l] and [e not in l] on a list of emails. *)
Definition email_in (e : email) (l : list email) : bool :=
  existsb (email_eqb e) l.

(** The record a timeline event points at. *)
Inductive record_ref : Type :=
| OfTicket (t : ticket)
| OfCommit (c : commit)
| OfEmail (e : email).

Module Event.
Record event : Type := {
  type : string;
  id : string;
  timestamp : datetime;
  data : record_ref
}.
End Event.
Abbreviation event := Event.event.

(** A timestamp string that parses, with [parser], to a naive date-time;
    a timeline whose events all carry naive timestamps. *)
Definition naive_stamp (parser : string -> option datetime) (s : string)
  : Prop :=
  exists dt, parser s = Some dt /\ aware dt = false.

Definition naive_timeline (tl : list event) : Prop :=
  Forall (fun ev => aware (Event.timestamp ev) = false) tl.

(** The events of a timeline of one type. *)
Definition of_type (ty : string) (e : event) : bool :=
  Event.type e =? ty.

(** The events of a timeline that carry the timestamp [t]. *)
Definition event_at (t : datetime) (e : event) : bool :=
  datetime_eqb (Event.timestamp e) t.

(** [tl'] is [tl] in chronological order: each event no later than the next,
    the same events, and those of equal timestamp in the order of [tl]. *)
Definition chronological (tl tl' : list event) : Prop :=
  (forall i e1 e2,
      nth_error tl' i = Some e1 -> nth_error tl' (S i) = Some e2 ->
      datetime_le (Event.timestamp e1) (Event.timestamp e2))
  /\ Permutation tl' tl
  /\ (forall t, filter (event_at t) tl' = filter (event_at t) tl).

(* ================================================================== *)
(** ** cluster_knowledge.py *)

Module ClusterKnowledge.

(** A value of the [task_clusters] dictionary. *)
Record cluster : Type := {
  jira : option ticket;
  git_commits : list commit;
  emails : list email;
  timeline : list event
}.

(** An element of [final_clusters]. *)
Module Final.
Record cluster : Type := {
  task_id : string;
  summary : string;
  status : string;
  assignee : option string;
  created_at : string;
  git_commits : list commit;
  emails : list email;
  timeline : list event
}.
End Final.

(** The default value of the [defaultdict]. *)
Definition fresh : cluster :=
  {| jira := None; git_commits := []; emails := []; timeline := [] |}.

Definition task_clusters : Type := dict cluster.

Section WithParser.

(** [datetime.fromisoformat]; [None] when it raises [ValueError]. *)
Variable fromisoformat : string -> option datetime.

Definition parse (s : string) : result datetime :=
  match fromisoformat s with
  | Some d => Ok d
  | None => Raise ValueError
  end.

(** Step 2: what one ticket does to the cluster of its identifier. *)
Definition seed (t : ticket) (ts : datetime) (cl : cluster) : cluster :=
  {| jira := Some t;
     git_commits := git_commits cl;
     emails := emails cl;
     timeline := timeline cl ++
       [ {| Event.type := "jira";
            Event.id := Ticket.id t;
            Event.timestamp := ts;
            Event.data := OfTicket t |} ] |}.

(** Step 2, the body of the loop over [jira_data]. *)
Definition add_ticket (t : ticket) (d : task_clusters)
  : result task_clusters :=
  ts <- parse (Ticket.created_at t) ;;
  Ok (dict_update fresh (Ticket.id t) (seed t ts) d).

(** Step 3: what one commit does to the cluster of its ticket. *)
Definition push_commit (c : commit) (ts : datetime) (cl : cluster) : cluster :=
  {| jira := jira cl;
     git_commits := git_commits cl ++ [c];
     emails := emails cl;
     timeline := timeline cl ++
       [ {| Event.type := "git";
            Event.id := Commit.commit_id c;
            Event.timestamp := ts;
            Event.data := OfCommit c |} ] |}.

(** Step 3, the body of the loop over [git_data]. *)
Definition add_commit (c : commit) (d : task_clusters)
  : result task_clusters :=
  match truthy (Commit.ticket c) with
  | Some task_id =>
      ts <- parse (Commit.timestamp c) ;;
      Ok (dict_update fresh task_id (push_commit c ts) d)
  | None => Ok d
  end.

(** Appending an email and its timeline event to a cluster. *)
Definition attach (e : email) (ts : datetime) (cl : cluster) : cluster :=
  {| jira := jira cl;
     git_commits := git_commits cl;
     emails := emails cl ++ [e];
     timeline := timeline cl ++
       [ {| Event.type := "email";
            Event.id := Email.thread_id e;
            Event.timestamp := ts;
            Event.data := OfEmail e |} ] |}.

(** When an email may be appended to the cluster [cl] of key [k]: its text
    names [k], or it names no task and [cl], which does not hold the email
    yet, holds a commit whose identifier the body shows. *)
Definition attachable (e : email) (k : string) (cl : cluster) : Prop :=
  In k (findall_task_id (Email.subject e ++ Email.body e)%string)
  \/ (findall_task_id (Email.subject e ++ Email.body e)%string = []
      /\ ~ In e (emails cl)
      /\ exists c, In c (git_commits cl)
                   /\ In (Commit.commit_id c) (findall_uuid (Email.body e))).

(** Step 4, the body of [for task_id in task_ids]. *)
Definition direct_attach (e : email) (task_id : string)
  (d : task_clusters) : result task_clusters :=
  if dict_mem task_id d then
    ts <- parse (Email.timestamp e) ;;
    Ok (dict_update fresh task_id (attach e ts) d)
  else Ok d.

(** Step 4, the body of [for task_id, cluster in task_clusters.items()]
    for one [commit_id]. *)
Definition fallback_cluster (e : email) (cid : string) (cl : cluster)
  : result cluster :=
  if existsb (fun c => Commit.commit_id c =? cid) (git_commits cl) then
    if negb (email_in e (emails cl)) then
      ts <- parse (Email.timestamp e) ;;
      Ok (attach e ts cl)
    else Ok cl
  else Ok cl.

(** Step 4, the body of [for commit_id in commit_ids]. *)
Definition fallback (e : email) (cid : string) (d : task_clusters)
  : result task_clusters :=
  dict_mapM (fallback_cluster e cid) d.

(** Step 4, the body of the loop over [email_data]. *)
Definition add_email (e : email) (d : task_clusters)
  : result task_clusters :=
  let task_ids :=
    py_set (findall_task_id (Email.subject e ++ Email.body e)%string) in
  let commit_ids := findall_uuid (Email.body e) in
  d1 <- foldM (direct_attach e) task_ids d ;;
  match task_ids with
  | [] => foldM (fallback e) commit_ids d1
  | _ :: _ => Ok d1
  end.

(** The input tickets filed under one identifier. *)
Definition tickets_of (task_id : string) (jira_data : list ticket)
  : list ticket :=
  filter (fun t => Ticket.id t =? task_id) jira_data.

(** Steps 1 to 4: the dictionary before the timelines are sorted. *)
Definition correlate (jira_data : list ticket) (git_data : list commit)
  (email_data : list email) : result task_clusters :=
  d2 <- foldM add_ticket jira_data [] ;;
  d3 <- foldM add_commit git_data d2 ;;
  foldM add_email email_data d3.

(** Step 5. *)
Definition sort_timeline (cl : cluster) : result cluster :=
  tl <- sort_by_datetime Event.timestamp (timeline cl) ;;
  Ok {| jira := jira cl;
        git_commits := git_commits cl;
        emails := emails cl;
        timeline := tl |}.

Definition sort_timelines (d : task_clusters) : result task_clusters :=
  dict_mapM sort_timeline d.

(** Step 6, the element built for a cluster that has its ticket. *)
Definition final_cluster (task_id : string) (t : ticket) (cl : cluster)
  : Final.cluster :=
  {| Final.task_id := task_id;
     Final.summary := Ticket.summary t;
     Final.status := Ticket.status t;
     Final.assignee := Ticket.assignee t;
     Final.created_at := Ticket.created_at t;
     Final.git_commits := git_commits cl;
     Final.emails := emails cl;
     Final.timeline := timeline cl |}.

(** Step 6. *)
Fixpoint finalize (d : task_clusters) : list Final.cluster :=
  match d with
  | [] => []
  | (task_id, cl) :: r =>
      match jira cl with
      | None => finalize r
      | Some t => final_cluster task_id t cl :: finalize r
      end
  end.

Definition cluster_task_data (jira_data : list ticket)
  (git_data : list commit) (email_data : list email)
  : result (list Final.cluster) :=
  d4 <- correlate jira_data git_data email_data ;;
  d5 <- sort_timelines d4 ;;
  Ok (finalize d5).

End WithParser.

End ClusterKnowledge.

(* ================================================================== *)
(** ** cluster_employee.py *)

Module ClusterEmployee.

(** A value of the [employee_clusters] dictionary. *)
Record cluster : Type := {
  jira_assigned : list ticket;
  jira_resolved : list ticket;
  git_commits : list commit;
  emails_sent : list email;
  emails_received : list email;
  timeline : list event
}.

Module Summary.
Record activity_summary : Type := {
  jira_tickets_assigned : nat;
  jira_tickets_resolved : nat;
  git_commits : nat;
  emails_sent : nat;
  emails_received : nat;
  total_activity_count : nat
}.
End Summary.

(** An element of [final_clusters]. *)
Module Final.
Record cluster : Type := {
  employee : string;
  activity_summary : Summary.activity_summary;
  jira_assigned : list ticket;
  jira_resolved : list ticket;
  git_commits : list commit;
  emails_sent : list email;
  emails_received : list email;
  timeline : list event
}.
End Final.

Definition fresh : cluster :=
  {| jira_assigned := []; jira_resolved := []; git_commits := [];
     emails_sent := []; emails_received := []; timeline := [] |}.

Definition employee_clusters : Type := dict cluster.

Definition mk_event (ty i : string) (ts : datetime) (r : record_ref) : event :=
  {| Event.type := ty; Event.id := i; Event.timestamp := ts;
     Event.data := r |}.

Definition assign (t : ticket) (ts : datetime) (cl : cluster) : cluster :=
  {| jira_assigned := jira_assigned cl ++ [t];
     jira_resolved := jira_resolved cl;
     git_commits := git_commits cl;
     emails_sent := emails_sent cl;
     emails_received := emails_received cl;
     timeline := timeline cl ++
       [mk_event "jira_assigned" (Ticket.id t) ts (OfTicket t)] |}.

Definition resolve (t : ticket) (ts : datetime) (cl : cluster) : cluster :=
  {| jira_assigned := jira_assigned cl;
     jira_resolved := jira_resolved cl ++ [t];
     git_commits := git_commits cl;
     emails_sent := emails_sent cl;
     emails_received := emails_received cl;
     timeline := timeline cl ++
       [mk_event "jira_resolved" (Ticket.id t) ts (OfTicket t)] |}.

Definition authored (c : commit) (ts : datetime) (cl : cluster) : cluster :=
  {| jira_assigned := jira_assigned cl;
     jira_resolved := jira_resolved cl;
     git_commits := git_commits cl ++ [c];
     emails_sent := emails_sent cl;
     emails_received := emails_received cl;
     timeline := timeline cl ++
       [mk_event "git_commit" (Commit.commit_id c) ts (OfCommit c)] |}.

Definition sent (e : email) (ts : datetime) (cl : cluster) : cluster :=
  {| jira_assigned := jira_assigned cl;
     jira_resolved := jira_resolved cl;
     git_commits := git_commits cl;
     emails_sent := emails_sent cl ++ [e];
     emails_received := emails_received cl;
     timeline := timeline cl ++
       [mk_event "email_sent" (Email.thread_id e) ts (OfEmail e)] |}.

Definition received (e : email) (ts : datetime) (cl : cluster) : cluster :=
  {| jira_assigned := jira_assigned cl;
     jira_resolved := jira_resolved cl;
     git_commits := git_commits cl;
     emails_sent := emails_sent cl;
     emails_received := emails_received cl ++ [e];
     timeline := timeline cl ++
       [mk_event "email_received" (Email.thread_id e) ts (OfEmail e)] |}.

Section WithParser.

Variable fromisoformat : string -> option datetime.

Definition parse (s : string) : result datetime :=
  match fromisoformat s with
  | Some d => Ok d
  | None => Raise ValueError
  end.

(** One record filed under one person: the timestamp is parsed, then the
    person's cluster (created on first use) is extended. *)
Definition file_under (person : string) (when : string)
  (f : datetime -> cluster -> cluster) (d : employee_clusters)
  : result employee_clusters :=
  ts <- parse when ;;
  Ok (dict_update fresh person (f ts) d).

(** Step 2, the body of the loop over [jira_data]. *)
Definition add_ticket (t : ticket) (d : employee_clusters)
  : result employee_clusters :=
  d1 <- match truthy (Ticket.assignee t) with
        | Some assignee => file_under assignee (Ticket.created_at t) (assign t) d
        | None => Ok d
        end ;;
  match truthy (Ticket.resolution t) with
  | Some resolution =>
      match search_resolver resolution with
      | Some resolver =>
          file_under resolver (Ticket.updated_at t) (resolve t) d1
      | None => Ok d1
      end
  | None => Ok d1
  end.

(** Step 3, the body of the loop over [git_data]. *)
Definition add_commit (c : commit) (d : employee_clusters)
  : result employee_clusters :=
  match truthy (Commit.author c) with
  | Some author => file_under author (Commit.timestamp c) (authored c) d
  | None => Ok d
  end.

(** Step 4, the body of the loop over [email_data]. *)
Definition add_email (e : email) (d : employee_clusters)
  : result employee_clusters :=
  d1 <- match truthy (Email.sender e) with
        | Some sender => file_under sender (Email.timestamp e) (sent e) d
        | None => Ok d
        end ;;
  foldM (fun recipient => file_under recipient (Email.timestamp e) (received e))
        (Email.recipients e) d1.

(** Steps 1 to 4: the dictionary before the timelines are sorted. *)
Definition correlate (jira_data : list ticket) (git_data : list commit)
  (email_data : list email) : result employee_clusters :=
  d2 <- foldM add_ticket jira_data [] ;;
  d3 <- foldM add_commit git_data d2 ;;
  foldM add_email email_data d3.

(** Step 5. *)
Definition sort_timeline (cl : cluster) : result cluster :=
  tl <- sort_by_datetime Event.timestamp (timeline cl) ;;
  Ok {| jira_assigned := jira_assigned cl;
        jira_resolved := jira_resolved cl;
        git_commits := git_commits cl;
        emails_sent := emails_sent cl;
        emails_received := emails_received cl;
        timeline := tl |}.

Definition sort_timelines (d : employee_clusters) : result employee_clusters :=
  dict_mapM sort_timeline d.

(** [not (a or b or c or d or e)] on the five lists. *)
Definition no_activity (cl : cluster) : bool :=
  match jira_assigned cl, jira_resolved cl, git_commits cl,
        emails_sent cl, emails_received cl with
  | [], [], [], [], [] => true
  | _, _, _, _, _ => false
  end.

(** The dictionary after the records of some persons have been filed: its
    keys are those persons in the order they were first met, and each of
    its clusters has some record. *)
Definition filed (d : employee_clusters) (people : list string) : Prop :=
  map fst d = py_set people
  /\ dict_all (fun _ cl => no_activity cl = false) d.

Definition final_cluster (employee : string) (cl : cluster) : Final.cluster :=
  let total_jira := length (jira_assigned cl) + length (jira_resolved cl) in
  let total_commits := length (git_commits cl) in
  let total_emails := length (emails_sent cl) + length (emails_received cl) in
  {| Final.employee := employee;
     Final.activity_summary :=
       {| Summary.jira_tickets_assigned := length (jira_assigned cl);
          Summary.jira_tickets_resolved := length (jira_resolved cl);
          Summary.git_commits := total_commits;
          Summary.emails_sent := length (emails_sent cl);
          Summary.emails_received := length (emails_received cl);
          Summary.total_activity_count :=
            total_jira + total_commits + total_emails |};
     Final.jira_assigned := jira_assigned cl;
     Final.jira_resolved := jira_resolved cl;
     Final.git_commits := git_commits cl;
     Final.emails_sent := emails_sent cl;
     Final.emails_received := emails_received cl;
     Final.timeline := timeline cl |}.

(** Step 6, before the final sort: one element for each person with some
    activity, in the order the dictionary met them. *)
Fixpoint finalize (d : employee_clusters) : list Final.cluster :=
  match d with
  | [] => []
  | (employee, cl) :: r =>
      if no_activity cl then finalize r
      else final_cluster employee cl :: finalize r
  end.

Definition total (c : Final.cluster) : Z :=
  Z.of_nat (Summary.total_activity_count (Final.activity_summary c)).

(** The persons each record is filed under, in the order the loop bodies
    reach them; [encounters] lists them for a whole snapshot. *)
Definition ticket_people (t : ticket) : list string :=
  match truthy (Ticket.assignee t) with
  | Some assignee => [assignee]
  | None => []
  end ++
  match truthy (Ticket.resolution t) with
  | Some resolution =>
      match search_resolver resolution with
      | Some resolver => [resolver]
      | None => []
      end
  | None => []
  end.

Definition commit_people (c : commit) : list string :=
  match truthy (Commit.author c) with
  | Some author => [author]
  | None => []
  end.

Definition email_people (e : email) : list string :=
  match truthy (Email.sender e) with
  | Some sender => [sender]
  | None => []
  end ++ Email.recipients e.

Definition encounters (jira_data : list ticket) (git_data : list commit)
  (email_data : list email) : list string :=
  flat_map ticket_people jira_data ++ flat_map commit_people git_data
  ++ flat_map email_people email_data.

Definition cluster_employee_data (jira_data : list ticket)
  (git_data : list commit) (email_data : list email)
  : result (list Final.cluster) :=
  d4 <- correlate jira_data git_data email_data ;;
  d5 <- sort_timelines d4 ;;
  Ok (sort_by_desc total (finalize d5)).

End WithParser.

(** *** analyze_employee_clusters *)

Module Stats.
Record stats : Type := {
  total_employees : nat;
  total_jira_tickets_assigned : nat;
  total_jira_tickets_resolved : nat;
  total_git_commits : nat;
  total_emails_sent : nat;
  total_emails_received : nat;
  potential_developers : list string;
  potential_managers : list string;
  potential_communicators : list string;
  top_code_contributors : list string;
  top_issue_resolvers : list string
}.
End Stats.

(** The three lists the categorisation loop appends to. *)
Record categories : Type := {
  developers : list string;
  managers : list string;
  communicators : list string
}.

(** The body of [for employee in employee_clusters]. *)
Definition categorize (employee : Final.cluster) (cs : categories)
  : categories :=
  let summary := Final.activity_summary employee in
  if (Summary.emails_sent summary + Summary.emails_received summary
      <? Summary.git_commits summary)%nat
  then {| developers := developers cs ++ [Final.employee employee];
          managers := managers cs;
          communicators := communicators cs |}
  else if (Summary.git_commits summary * 2
           <? Summary.emails_sent summary)%nat
  then {| developers := developers cs;
          managers :=
            if ((0 <? Summary.jira_tickets_assigned summary)
                && (Summary.git_commits summary =? 0))%nat
            then managers cs ++ [Final.employee employee]
            else managers cs;
          communicators := communicators cs ++ [Final.employee employee] |}
  else cs.

(** The three rules as the specification words them, each on its own. *)
Definition developer_rule (e : Final.cluster) : bool :=
  let s := Final.activity_summary e in
  (Summary.emails_sent s + Summary.emails_received s
   <? Summary.git_commits s)%nat.

Definition communicator_rule (e : Final.cluster) : bool :=
  let s := Final.activity_summary e in
  (Summary.git_commits s * 2 <? Summary.emails_sent s)%nat.

Definition manager_rule (e : Final.cluster) : bool :=
  let s := Final.activity_summary e in
  communicator_rule e
  && ((0 <? Summary.jira_tickets_assigned s)
      && (Summary.git_commits s =? 0))%nat.

Definition sum_of (f : Summary.activity_summary -> nat)
  (l : list Final.cluster) : nat :=
  fold_right (fun e acc => f (Final.activity_summary e) + acc) 0 l.

Definition analyze_employee_clusters (employee_clusters : list Final.cluster)
  : Stats.stats :=
  let cs := fold_left (fun cs e => categorize e cs) employee_clusters
              {| developers := []; managers := []; communicators := [] |} in
  let top_by_commits :=
    firstn 3 (sort_by_desc
                (fun e => Z.of_nat (Summary.git_commits
                                      (Final.activity_summary e)))
                employee_clusters) in
  let top_by_jira :=
    firstn 3 (sort_by_desc
                (fun e => Z.of_nat (Summary.jira_tickets_resolved
                                      (Final.activity_summary e)))
                employee_clusters) in
  {| Stats.total_employees := length employee_clusters;
     Stats.total_jira_tickets_assigned :=
       sum_of Summary.jira_tickets_assigned employee_clusters;
     Stats.total_jira_tickets_resolved :=
       sum_of Summary.jira_tickets_resolved employee_clusters;
     Stats.total_git_commits := sum_of Summary.git_commits employee_clusters;
     Stats.total_emails_sent := sum_of Summary.emails_sent employee_clusters;
     Stats.total_emails_received :=
       sum_of Summary.emails_received employee_clusters;
     Stats.potential_developers := developers cs;
     Stats.potential_managers := managers cs;
     Stats.potential_communicators := communicators cs;
     Stats.top_code_contributors := map Final.employee top_by_commits;
     Stats.top_issue_resolvers := map Final.employee top_by_jira |}.

(** *** identify_collaboration_networks *)

(** [collaboration_graph]: a [defaultdict] of [defaultdict(int)]. *)
Definition graph : Type := dict (dict nat).

(** [collaboration_graph[a][b] += 1] *)
Definition bump (a b : string) (g : graph) : graph :=
  dict_update ([] : dict nat) a (dict_update 0 b S) g.

(** Both increments of one collaboration. *)
Definition link (a b : string) (g : graph) : graph :=
  bump b a (bump a b g).

(** [collaboration_graph[a][b]], without inserting anything. *)
Definition weight (g : graph) (a b : string) : nat :=
  dict_view 0 (dict_view ([] : dict nat) g a) b.

(** The keys of the graph, and of each of its rows, are distinct. *)
Definition well_keyed (g : graph) : Prop :=
  NoDup (map fst g) /\ dict_all (fun _ row => NoDup (map fst row)) g.

Definition symmetric (g : graph) : Prop :=
  forall a b, weight g a b = weight g b a.

(** Step 2, the body of [for recipient in recipients]. *)
Definition add_recipient (sender : option string) (recipient : string)
  (g : graph) : graph :=
  match truthy sender, truthy (Some recipient) with
  | Some s, Some r => if s =? r then g else link s r g
  | _, _ => g
  end.

Definition add_exchange (e : email) (g : graph) : graph :=
  fold_left (fun g recipient => add_recipient (Email.sender e) recipient g)
            (Email.recipients e) g.

(** Step 3, the first loop: the authors of the commits of each ticket. *)
Definition add_contributor (c : commit) (tc : dict (list string))
  : dict (list string) :=
  match truthy (Commit.ticket c), truthy (Commit.author c) with
  | Some t, Some a => dict_update [] t (set_add a) tc
  | _, _ => tc
  end.

Definition ticket_contributors (git_data : list commit) : dict (list string) :=
  fold_left (fun tc c => add_contributor c tc) git_data [].

(** Step 3, the loops over [i] and [j > i]. *)
Fixpoint link_pairs (contributors_list : list string) (g : graph) : graph :=
  match contributors_list with
  | [] => g
  | a :: r => link_pairs r (fold_left (fun g b => link a b g) r g)
  end.

Definition add_ticket_pairs (contributors : list string) (g : graph) : graph :=
  if (1 <? length contributors)%nat then link_pairs contributors g else g.

(** Steps 1 to 3: [collaboration_graph] before it is formatted. The
    [jira_assignees] dictionary of step 1 is built and never read. *)
Definition collaboration_graph (git_data : list commit)
  (email_data : list email) : graph :=
  let g2 := fold_left (fun g e => add_exchange e g) email_data [] in
  fold_left (fun g tc => add_ticket_pairs (snd tc) g)
            (ticket_contributors git_data) g2.

Module Network.
Record collaborator : Type := {
  colleague : string;
  strength : nat
}.
Record network : Type := {
  employee : string;
  total_collaborations : nat;
  collaborators : list collaborator
}.
End Network.

(** Step 4, the body of [for employee in collaboration_graph]. *)
Definition network_of (entry : string * dict nat) : Network.network :=
  let collaborators :=
    map (fun cs => {| Network.colleague := fst cs;
                      Network.strength := snd cs |}) (snd entry) in
  {| Network.employee := fst entry;
     Network.total_collaborations :=
       fold_right (fun cs acc => snd cs + acc) 0 (snd entry);
     Network.collaborators :=
       sort_by_desc (fun c => Z.of_nat (Network.strength c)) collaborators |}.

Definition identify_collaboration_networks
  (employee_clusters : list Final.cluster) (jira_data : list ticket)
  (git_data : list commit) (email_data : list email)
  : list Network.network :=
  sort_by_desc (fun n => Z.of_nat (Network.total_collaborations n))
               (map network_of (collaboration_graph git_data email_data)).

(** The weight the returned networks give to the edge from [a] to [b];
    zero when they list no such edge. *)
Definition edge_weight (nets : list Network.network) (a b : string) : nat :=
  match find (fun n => Network.employee n =? a) nets with
  | Some n =>
      match find (fun c => Network.colleague c =? b)
                 (Network.collaborators n) with
      | Some c => Network.strength c
      | None => 0
      end
  | None => 0
  end.

(** *** extract_skills_from_activity *)

Definition technologies : list string :=
  ["python"; "javascript"; "react"; "node"; "api"; "database";
   "sql"; "aws"; "docker"; "kubernetes"; "frontend"; "backend"].

Definition actions : list string :=
  ["fix"; "implement"; "refactor"; "optimize"; "test"; "deploy"].

(** [for term in vocabulary: if term in text: skills[term] += 1] *)
Definition scan (vocabulary : list string) (text : string) (skills : dict nat)
  : dict nat :=
  fold_left (fun skills term =>
               if contains term text then dict_update 0 term S skills
               else skills)
            vocabulary skills.

Definition scan_commit (c : commit) (skills : dict nat) : dict nat :=
  let message := lower (Commit.message c) in
  scan actions message (scan technologies message skills).

Definition scan_ticket (t : ticket) (skills : dict nat) : dict nat :=
  let summary := lower (Ticket.summary t) in
  scan technologies summary skills.

Module Skill.
Record entry : Type := {
  skill : string;
  mentions : nat
}.
End Skill.

(** The [skills] counter of one employee after both loops. *)
Definition skill_counts (employee_data : Final.cluster) : dict nat :=
  let after_commits :=
    fold_left (fun skills c => scan_commit c skills)
              (Final.git_commits employee_data) [] in
  fold_left (fun skills t => scan_ticket t skills)
            (Final.jira_assigned employee_data
             ++ Final.jira_resolved employee_data)
            after_commits.

Definition skills_of (employee_data : Final.cluster) : list Skill.entry :=
  sort_by_desc (fun x => Z.of_nat (Skill.mentions x))
    (map (fun sc => {| Skill.skill := fst sc; Skill.mentions := snd sc |})
         (skill_counts employee_data)).

Definition extract_skills_from_activity
  (employee_clusters : list Final.cluster) : dict (list Skill.entry) :=
  fold_left (fun employee_skills employee_data =>
               dict_set (Final.employee employee_data)
                        (skills_of employee_data) employee_skills)
            employee_clusters [].

(** The count the returned list gives to a term; zero when the term is not
    listed. *)
Definition mentions_of (skills : list Skill.entry) (term : string) : nat :=
  match find (fun x => Skill.skill x =? term) skills with
  | Some x => Skill.mentions x
  | None => 0
  end.

(** How many words of a vocabulary are [term] and stand in [text]. *)
Definition hits (vocabulary : list string) (text term : string) : nat :=
  length (filter (fun v => (v =? term) && contains v text) vocabulary).

(** How many of the texts hold [term]. *)
Definition texts_with (term : string) (texts : list string) : nat :=
  length (filter (contains term) texts).

Definition commit_texts (employee_data : Final.cluster) : list string :=
  map (fun c => lower (Commit.message c)) (Final.git_commits employee_data).

Definition ticket_texts (employee_data : Final.cluster) : list string :=
  map (fun t => lower (Ticket.summary t))
      (Final.jira_assigned employee_data
       ++ Final.jira_resolved employee_data).

(** The count as the specification words it: one for each place where the
    term stands, in the commit messages and in the ticket summaries, for a
    term of either vocabulary. *)
Fixpoint spec_occurrences (term text : string) : nat :=
  (if prefix term text then 1 else 0) +
  match text with
  | EmptyString => 0
  | String _ r => spec_occurrences term r
  end.

Definition spec_mentions (employee_data : Final.cluster) (term : string)
  : nat :=
  list_sum (map (spec_occurrences term)
                (commit_texts employee_data ++ ticket_texts employee_data)).

End ClusterEmployee.

(* ================================================================== *)
(** ** A small snapshot *)

Module Sample.

Definition proj1 : ticket :=
  {| Ticket.id := "PROJ-1";
     Ticket.summary := "Fix API timeout";
     Ticket.status := "Done";
     Ticket.assignee := Some "alice";
     Ticket.created_at := "2024-03-01T09:00:00";
     Ticket.updated_at := "2024-03-05T17:30:00";
     Ticket.resolution := Some "Resolved by bob" |}.

Definition proj2 : ticket :=
  {| Ticket.id := "PROJ-2";
     Ticket.summary := "Deploy database migration";
     Ticket.status := "Open";
     Ticket.assignee := Some "carol";
     Ticket.created_at := "2024-03-02T08:00:00";
     Ticket.updated_at := "2024-03-02T08:00:00";
     Ticket.resolution := None |}.

Definition fix_commit : commit :=
  {| Commit.commit_id := "0a1b2c3d-4e5f-6071-8293-a4b5c6d7e8f9";
     Commit.author := Some "alice";
     Commit.ticket := Some "PROJ-1";
     Commit.message := "Fix API timeout, fix retry";
     Commit.timestamp := "2024-03-02T10:15:00" |}.

(** A commit for a ticket no one filed. *)
Definition stray_commit : commit :=
  {| Commit.commit_id := "11111111-2222-3333-4444-555555555555";
     Commit.author := Some "dave";
     Commit.ticket := Some "PROJ-99";
     Commit.message := "Refactor tests";
     Commit.timestamp := "2024-03-02T12:00:00" |}.

(** A commit with no ticket. *)
Definition loose_commit : commit :=
  {| Commit.commit_id := "66666666-7777-8888-9999-aaaaaaaaaaaa";
     Commit.author := Some "bob";
     Commit.ticket := None;
     Commit.message := "Update docker image";
     Commit.timestamp := "2024-03-02T10:15:00" |}.

Definition direct_email : email :=
  {| Email.thread_id := "thread-1";
     Email.sender := Some "alice";
     Email.recipients := ["bob"];
     Email.subject := "PROJ-1 fix";
     Email.body := EmptyString;
     Email.timestamp := "2024-03-03T11:00:00" |}.

Definition uuid_email : email :=
  {| Email.thread_id := "thread-2";
     Email.sender := Some "bob";
     Email.recipients := ["alice"; "carol"];
     Email.subject := "Review please";
     Email.body :=
       "Commit 0a1b2c3d-4e5f-6071-8293-a4b5c6d7e8f9 needs a second look.";
     Email.timestamp := "2024-03-02T10:15:00" |}.

(** A ticket and a commit that share the empty identifier. *)
Definition unnamed_ticket : ticket :=
  {| Ticket.id := EmptyString;
     Ticket.summary := "Untitled";
     Ticket.status := "Open";
     Ticket.assignee := None;
     Ticket.created_at := "2024-03-04T09:00:00";
     Ticket.updated_at := "2024-03-04T09:00:00";
     Ticket.resolution := None |}.

Definition unnamed_commit : commit :=
  {| Commit.commit_id := "bbbbbbbb-cccc-dddd-eeee-ffffffffffff";
     Commit.author := Some "erin";
     Commit.ticket := Some EmptyString;
     Commit.message := "Implement backend";
     Commit.timestamp := "2024-03-04T10:00:00" |}.

(** The identifier of [proj1], filed a second time. *)
Definition proj1_refiled : ticket :=
  {| Ticket.id := "PROJ-1";
     Ticket.summary := "Fix API timeout (again)";
     Ticket.status := "Open";
     Ticket.assignee := Some "bob";
     Ticket.created_at := "2024-03-06T09:00:00";
     Ticket.updated_at := "2024-03-06T09:00:00";
     Ticket.resolution := None |}.

Definition proj12 : ticket :=
  {| Ticket.id := "PROJ-12";
     Ticket.summary := "Optimize SQL queries";
     Ticket.status := "Open";
     Ticket.assignee := Some "dave";
     Ticket.created_at := "2024-03-02T09:00:00";
     Ticket.updated_at := "2024-03-02T09:00:00";
     Ticket.resolution := None |}.

(** A subject that ends in a task identifier, a body that starts with a
    digit. *)
Definition red_build_email : email :=
  {| Email.thread_id := "thread-3";
     Email.sender := Some "carol";
     Email.recipients := ["alice"];
     Email.subject := "Build failed on PROJ-1";
     Email.body := "2 tests are red";
     Email.timestamp := "2024-03-03T12:00:00" |}.

Definition jira_data : list ticket := [proj1; proj2].
Definition git_data : list commit := [fix_commit; stray_commit; loose_commit].
Definition email_data : list email := [direct_email; uuid_email].

Definition task_clusters : list ClusterKnowledge.Final.cluster :=
  match ClusterKnowledge.cluster_task_data iso_basic
          jira_data git_data email_data with
  | Ok out => out
  | Raise _ => []
  end.

Definition employee_clusters : list ClusterEmployee.Final.cluster :=
  match ClusterEmployee.cluster_employee_data iso_basic
          jira_data git_data email_data with
  | Ok out => out
  | Raise _ => []
  end.

(** An employee cluster that holds nothing but the given counts. *)
Definition person (name : string) (assigned commits sent received : nat)
  : ClusterEmployee.Final.cluster :=
  {| ClusterEmployee.Final.employee := name;
     ClusterEmployee.Final.activity_summary :=
       {| ClusterEmployee.Summary.jira_tickets_assigned := assigned;
          ClusterEmployee.Summary.jira_tickets_resolved := 0;
          ClusterEmployee.Summary.git_commits := commits;
          ClusterEmployee.Summary.emails_sent := sent;
          ClusterEmployee.Summary.emails_received := received;
          ClusterEmployee.Summary.total_activity_count :=
            assigned + commits + sent + received |};
     ClusterEmployee.Final.jira_assigned := [];
     ClusterEmployee.Final.jira_resolved := [];
     ClusterEmployee.Final.git_commits := [];
     ClusterEmployee.Final.emails_sent := [];
     ClusterEmployee.Final.emails_received := [];
     ClusterEmployee.Final.timeline := [] |}.

Definition team : list ClusterEmployee.Final.cluster :=
  [person "quiet" 1 1 1 1; person "coder" 0 5 1 1;
   person "writer" 0 1 4 0; person "lead" 2 0 3 6].

(** An employee with one commit, whose message shows a word twice. *)
Definition coder : ClusterEmployee.Final.cluster :=
  {| ClusterEmployee.Final.employee := "alice";
     ClusterEmployee.Final.activity_summary :=
       {| ClusterEmployee.Summary.jira_tickets_assigned := 0;
          ClusterEmployee.Summary.jira_tickets_resolved := 0;
          ClusterEmployee.Summary.git_commits := 1;
          ClusterEmployee.Summary.emails_sent := 0;
          ClusterEmployee.Summary.emails_received := 0;
          ClusterEmployee.Summary.total_activity_count := 1 |};
     ClusterEmployee.Final.jira_assigned := [];
     ClusterEmployee.Final.jira_resolved := [];
     ClusterEmployee.Final.git_commits := [fix_commit];
     ClusterEmployee.Final.emails_sent := [];
     ClusterEmployee.Final.emails_received := [];
     ClusterEmployee.Final.timeline := [] |}.

(** An employee with one assigned ticket and no commit. *)
Definition filer : ClusterEmployee.Final.cluster :=
  {| ClusterEmployee.Final.employee := "bob";
     ClusterEmployee.Final.activity_summary :=
       {| ClusterEmployee.Summary.jira_tickets_assigned := 1;
          ClusterEmployee.Summary.jira_tickets_resolved := 0;
          ClusterEmployee.Summary.git_commits := 0;
          ClusterEmployee.Summary.emails_sent := 0;
          ClusterEmployee.Summary.emails_received := 0;
          ClusterEmployee.Summary.total_activity_count := 1 |};
     ClusterEmployee.Final.jira_assigned := [proj1];
     ClusterEmployee.Final.jira_resolved := [];
     ClusterEmployee.Final.git_commits := [];
     ClusterEmployee.Final.emails_sent := [];
     ClusterEmployee.Final.emails_received := [];
     ClusterEmployee.Final.timeline := [] |}.

End Sample.

(* ================================================================== *)
(** ** The task clusters, one key at a time *)

(** What the loops of [cluster_task_data] leave under one key can be read
    off the three input lists alone. The definitions below say how; the
    properties further down show that the dictionary agrees with them. *)
Module TaskView.

Definition jira_event (t : ticket) (ts : datetime) : event :=
  {| Event.type := "jira"; Event.id := Ticket.id t;
     Event.timestamp := ts; Event.data := OfTicket t |}.

Definition git_event (c : commit) (ts : datetime) : event :=
  {| Event.type := "git"; Event.id := Commit.commit_id c;
     Event.timestamp := ts; Event.data := OfCommit c |}.

Definition email_event (e : email) (ts : datetime) : event :=
  {| Event.type := "email"; Event.id := Email.thread_id e;
     Event.timestamp := ts; Event.data := OfEmail e |}.

(** The timeline event of a record, when its timestamp parses. *)
Definition stamped (parser : string -> option datetime) (r : record_ref)
  : option event :=
  match r with
  | OfTicket t => option_map (jira_event t) (parser (Ticket.created_at t))
  | OfCommit c => option_map (git_event c) (parser (Commit.timestamp c))
  | OfEmail e => option_map (email_event e) (parser (Email.timestamp e))
  end.

(** The commits whose ticket field is the key. *)
Definition for_task (task_id : string) (c : commit) : bool :=
  match truthy (Commit.ticket c) with
  | Some k => k =? task_id
  | None => false
  end.

Definition commits_of (task_id : string) (git_data : list commit)
  : list commit :=
  filter (for_task task_id) git_data.

(** The body of the email shows the identifier of one of the commits. *)
Definition shows_commit_of (commits : list commit) (e : email) : bool :=
  existsb (fun cid => existsb (fun c => Commit.commit_id c =? cid) commits)
          (findall_uuid (Email.body e)).

(** Whether an email is appended to a cluster that has these commits and
    already lists these emails. *)
Definition joins (task_id : string) (commits : list commit)
  (listed : list email) (e : email) : bool :=
  match findall_task_id (Email.subject e ++ Email.body e)%string with
  | [] => shows_commit_of commits e && negb (email_in e listed)
  | ids => mem task_id ids
  end.

Definition emails_of (task_id : string) (commits : list commit)
  (email_data : list email) : list email :=
  fold_left (fun listed e =>
               if joins task_id commits listed e then listed ++ [e]
               else listed)
            email_data [].

(** The last input ticket filed under the key. *)
Definition last_ticket (task_id : string) (jira_data : list ticket)
  : option ticket :=
  last (map Some (ClusterKnowledge.tickets_of task_id jira_data)) None.

(** The records of a cluster in the order their events are appended. *)
Definition records (task_id : string) (jira_data : list ticket)
  (git_data : list commit) (email_data : list email) : list record_ref :=
  map OfTicket (ClusterKnowledge.tickets_of task_id jira_data)
  ++ map OfCommit (commits_of task_id git_data)
  ++ map OfEmail (emails_of task_id (commits_of task_id git_data) email_data).

(** The cluster agrees with the input lists. *)
Definition shaped (parser : string -> option datetime) (task_id : string)
  (jira_data : list ticket) (git_data : list commit)
  (email_data : list email) (cl : ClusterKnowledge.cluster) : Prop :=
  ClusterKnowledge.jira cl = last_ticket task_id jira_data
  /\ ClusterKnowledge.git_commits cl = commits_of task_id git_data
  /\ ClusterKnowledge.emails cl
     = emails_of task_id (commits_of task_id git_data) email_data
  /\ map Some (ClusterKnowledge.timeline cl)
     = map (stamped parser) (records task_id jira_data git_data email_data).

Definition has_jira (kc : string * ClusterKnowledge.cluster) : bool :=
  match ClusterKnowledge.jira (snd kc) with
  | Some _ => true
  | None => false
  end.

End TaskView.

(** A parser for the examples that also reads a UTC offset: the basic
    format alone gives a naive date-time, followed by [+00:00] an aware
    one. *)
Definition iso_utc (s : string) : option datetime :=
  match iso_basic s with
  | Some dt => Some dt
  | None =>
      if (String.length s =? 25)%nat && (substring 19 6 s =? "+00:00")
      then option_map (fun dt => {| aware := true; instant := instant dt |})
                      (iso_basic (substring 0 19 s))
      else None
  end.

(* ================================================================== *)
(** ** The employee clusters, one person at a time *)

Module EmployeeView.

Definition assigned_to (person : string) (t : ticket) : bool :=
  match truthy (Ticket.assignee t) with
  | Some assignee => assignee =? person
  | None => false
  end.

(** The resolver step 2 reads out of a ticket. *)
Definition resolver_of (t : ticket) : option string :=
  match truthy (Ticket.resolution t) with
  | Some resolution => search_resolver resolution
  | None => None
  end.

Definition resolved_by (person : string) (t : ticket) : bool :=
  match resolver_of t with
  | Some resolver => resolver =? person
  | None => false
  end.

Definition authored_by (person : string) (c : commit) : bool :=
  match truthy (Commit.author c) with
  | Some author => author =? person
  | None => false
  end.

Definition sent_by (person : string) (e : email) : bool :=
  match truthy (Email.sender e) with
  | Some sender => sender =? person
  | None => false
  end.

(** The email, once for each time the person stands among its
    recipients. *)
Definition received_by (person : string) (e : email) : list email :=
  map (fun _ => e) (filter (fun r => r =? person) (Email.recipients e)).

(** The events the loops append for one record to the person's timeline;
    [None] stands for a timestamp that does not parse. *)
Definition ticket_events (parser : string -> option datetime)
  (person : string) (t : ticket) : list (option event) :=
  (if assigned_to person t
   then [option_map (fun ts => ClusterEmployee.mk_event "jira_assigned"
                                 (Ticket.id t) ts (OfTicket t))
                    (parser (Ticket.created_at t))]
   else [])
  ++ (if resolved_by person t
      then [option_map (fun ts => ClusterEmployee.mk_event "jira_resolved"
                                    (Ticket.id t) ts (OfTicket t))
                       (parser (Ticket.updated_at t))]
      else []).

Definition commit_events (parser : string -> option datetime)
  (person : string) (c : commit) : list (option event) :=
  if authored_by person c
  then [option_map (fun ts => ClusterEmployee.mk_event "git_commit"
                                (Commit.commit_id c) ts (OfCommit c))
                   (parser (Commit.timestamp c))]
  else [].

Definition email_events (parser : string -> option datetime)
  (person : string) (e : email) : list (option event) :=
  (if sent_by person e
   then [option_map (fun ts => ClusterEmployee.mk_event "email_sent"
                                 (Email.thread_id e) ts (OfEmail e))
                    (parser (Email.timestamp e))]
   else [])
  ++ map (fun e' =>
            option_map (fun ts => ClusterEmployee.mk_event "email_received"
                                    (Email.thread_id e') ts (OfEmail e'))
                       (parser (Email.timestamp e')))
         (received_by person e).

Definition events (parser : string -> option datetime) (person : string)
  (jira_data : list ticket) (git_data : list commit)
  (email_data : list email) : list (option event) :=
  flat_map (ticket_events parser person) jira_data
  ++ flat_map (commit_events parser person) git_data
  ++ flat_map (email_events parser person) email_data.

(** The cluster agrees with the input lists. *)
Definition shaped (parser : string -> option datetime) (person : string)
  (jira_data : list ticket) (git_data : list commit)
  (email_data : list email) (cl : ClusterEmployee.cluster) : Prop :=
  ClusterEmployee.jira_assigned cl = filter (assigned_to person) jira_data
  /\ ClusterEmployee.jira_resolved cl = filter (resolved_by person) jira_data
  /\ ClusterEmployee.git_commits cl = filter (authored_by person) git_data
  /\ ClusterEmployee.emails_sent cl = filter (sent_by person) email_data
  /\ ClusterEmployee.emails_received cl
     = flat_map (received_by person) email_data
  /\ map Some (ClusterEmployee.timeline cl)
     = events parser person jira_data git_data email_data.

End EmployeeView.

(* ================================================================== *)
(** ** process_all_employee_data *)

Module Report.
Record report : Type := {
  employee_clusters : list ClusterEmployee.Final.cluster;
  analysis : ClusterEmployee.Stats.stats;
  collaboration_networks : list ClusterEmployee.Network.network;
  employee_skills : dict (list ClusterEmployee.Skill.entry)
}.
End Report.

(** The four steps in a row; an exception of the first one leaves the
    function. *)
Definition process_all_employee_data (fromisoformat : string -> option datetime)
  (jira_data : list ticket) (git_data : list commit)
  (email_data : list email) : result Report.report :=
  employee_clusters <-
    ClusterEmployee.cluster_employee_data fromisoformat
      jira_data git_data email_data ;;
  let analysis := ClusterEmployee.analyze_employee_clusters employee_clusters in
  let collaboration :=
    ClusterEmployee.identify_collaboration_networks
      employee_clusters jira_data git_data email_data in
  let skills :=
    ClusterEmployee.extract_skills_from_activity employee_clusters in
  Ok {| Report.employee_clusters := employee_clusters;
        Report.analysis := analysis;
        Report.collaboration_networks := collaboration;
        Report.employee_skills := skills |}.

(** Whether a field that may be missing or empty names someone. *)
Definition named (o : option string) : bool :=
  match o with
  | Some _ => true
  | None => false
  end.

(** What it is for [names] to be the leaders of [clusters] by [count]: the
    names of at most three clusters, largest count first, none of them
    with a smaller count than a cluster left out. *)
Definition leaders (count : ClusterEmployee.Final.cluster -> nat)
  (clusters : list ClusterEmployee.Final.cluster) (names : list string)
  : Prop :=
  exists chosen rest,
    Permutation clusters (chosen ++ rest)
    /\ names = map ClusterEmployee.Final.employee chosen
    /\ length chosen = Nat.min 3 (length clusters)
    /\ (forall a b, In a chosen -> In b rest -> count b <= count a)
    /\ (forall i a b, nth_error chosen i = Some a ->
                      nth_error chosen (S i) = Some b -> count b <= count a).

(* ================================================================== *)
(** ** The collaboration graph, one pair of persons at a time *)

Module CollaborationView.

(** How many recipient entries of the email make its sender and the
    recipient the pair [a], [b], in either order; step 2 skips an empty
    sender, an empty recipient and a sender writing to oneself. *)
Definition exchanges (a b : string) (e : email) : nat :=
  match truthy (Email.sender e) with
  | Some sender =>
      length (filter (fun recipient =>
                        named (truthy (Some recipient))
                        && negb (sender =? recipient)
                        && (((sender =? a) && (recipient =? b))
                            || ((sender =? b) && (recipient =? a))))
                     (Email.recipients e))
  | None => 0
  end.

(** Whether some commit with that ticket has that author. *)
Definition contributed (person ticket : string) (git_data : list commit)
  : bool :=
  existsb (fun c => match truthy (Commit.ticket c),
                          truthy (Commit.author c) with
                    | Some t, Some author =>
                        (t =? ticket) && (author =? person)
                    | _, _ => false
                    end)
          git_data.

(** The tickets of the commits that have both a ticket and an author. *)
Definition worked_tickets (git_data : list commit) : list string :=
  py_set (flat_map (fun c => match truthy (Commit.ticket c),
                                   truthy (Commit.author c) with
                             | Some t, Some _ => [t]
                             | _, _ => []
                             end)
                   git_data).

(** How many tickets two different persons both committed to. *)
Definition shared_tickets (a b : string) (git_data : list commit) : nat :=
  if a =? b then 0
  else length (filter (fun ticket => contributed a ticket git_data
                                     && contributed b ticket git_data)
                      (worked_tickets git_data)).

End CollaborationView.

(* ================================================================== *)
(** ** The bots: cluster_data *)

Module Bot.

(** How a call of [cluster_data] ends: with the value of [clusters], or
    with the [UnboundLocalError] of [return clusters] when the name was
    never bound. *)
Inductive outcome (A : Type) : Type :=
| Returned (clusters : A)
| UnboundLocalError.

Arguments Returned {A} clusters.
Arguments UnboundLocalError {A}.

(** The body shared by the two bots: the call in a [try], the exception
    printed in the [except Exception] branch, then [return clusters].
    The first component lists what was printed. *)
Definition guarded {A : Type} (call : result A) : list exn * outcome A :=
  match call with
  | Ok clusters => ([], Returned clusters)
  | Raise e => ([e], UnboundLocalError)
  end.

Module AnonymousDBBot.
Definition cluster_data (fromisoformat : string -> option datetime)
  (jira_data : list ticket) (git_data : list commit)
  (email_data : list email)
  : list exn * outcome (list ClusterKnowledge.Final.cluster) :=
  guarded (ClusterKnowledge.cluster_task_data fromisoformat
             jira_data git_data email_data).
End AnonymousDBBot.

Module EmployeeDBBot.
Definition cluster_data (fromisoformat : string -> option datetime)
  (jira_data : list ticket) (git_data : list commit)
  (email_data : list email) : list exn * outcome Report.report :=
  guarded (process_all_employee_data fromisoformat
             jira_data git_data email_data).
End EmployeeDBBot.

End Bot.

(* ================================================================== *)
(** ** rag_system: chunk_python_file *)

Module RagSystem.

(** [str.isspace] on the code points below 256: tab to carriage return,
    the four separators, the space, next line and no-break space. *)
Definition is_space (c : ascii) : bool :=
  let n := nat_of_ascii c in
  (((9 <=? n) && (n <=? 13)) || ((28 <=? n) && (n <=? 32))
   || (n =? 133) || (n =? 160))%nat.

Fixpoint lstrip (s : string) : string :=
  match s with
  | EmptyString => EmptyString
  | String c r => if is_space c then lstrip r else s
  end.

Fixpoint rstrip (s : string) : string :=
  match s with
  | EmptyString => EmptyString
  | String c r =>
      match rstrip r with
      | EmptyString => if is_space c then EmptyString
                       else String c EmptyString
      | kept => String c kept
      end
  end.

(** [s.strip()] *)
Definition strip (s : string) : string := rstrip (lstrip s).

Definition newline : string := String "010" EmptyString.

(** [content.split('\n')] *)
Fixpoint split_newline (content : string) : list string :=
  match content with
  | EmptyString => [EmptyString]
  | String c r =>
      if Ascii.eqb c "010" then EmptyString :: split_newline r
      else match split_newline r with
           | line :: lines => String c line :: lines
           | [] => [String c EmptyString]
           end
  end.

(** [len(s)] *)
Definition len (s : string) : Z := Z.of_nat (String.length s).

(** The two variables of the loop. *)
Record state : Type := {
  chunks : list string;
  current_chunk : string
}.

(** The body of [for line in content.split('\n')]. *)
Definition add_line (chunk_size : Z) (st : state) (line : string) : state :=
  if (len (current_chunk st) + len line <? chunk_size)%Z
  then {| chunks := chunks st;
          current_chunk := (current_chunk st ++ line ++ newline)%string |}
  else {| chunks := chunks st ++ [strip (current_chunk st)];
          current_chunk := (line ++ newline)%string |}.

(** The chunks of a content that was read. *)
Definition chunk_content (content : string) (chunk_size : Z) : list string :=
  let st := fold_left (add_line chunk_size) (split_newline content)
              {| chunks := []; current_chunk := EmptyString |} in
  match current_chunk st with
  | EmptyString => chunks st
  | _ => chunks st ++ [strip (current_chunk st)]
  end.

(** [chunk_python_file]: [None] stands for a file that [open] or [read]
    raises on, which the [except] branch turns into the empty list. *)
Definition chunk_python_file (file : option string) (chunk_size : Z)
  : list string :=
  match file with
  | Some content => chunk_content content chunk_size
  | None => []
  end.

(** The characters of a text that are no white space, in order. *)
Fixpoint solid (s : string) : string :=
  match s with
  | EmptyString => EmptyString
  | String c r => if is_space c then solid r else String c (solid r)
  end.

Definition solid_all (texts : list string) : string :=
  fold_right (fun text acc => (solid text ++ acc)%string) EmptyString texts.

End RagSystem.

(* ================================================================== *)
(** ** More records for the small snapshot *)

Module Fixture.

(** A ticket whose creation time is no date. *)
Definition broken_ticket : ticket :=
  {| Ticket.id := "PROJ-3";
     Ticket.summary := "Refactor frontend";
     Ticket.status := "Open";
     Ticket.assignee := Some "erin";
     Ticket.created_at := "yesterday";
     Ticket.updated_at := "2024-03-07T09:00:00";
     Ticket.resolution := None |}.

(** A commit of PROJ-1 whose timestamp is no date. *)
Definition broken_commit : commit :=
  {| Commit.commit_id := "22222222-3333-4444-5555-666666666666";
     Commit.author := Some "bob";
     Commit.ticket := Some "PROJ-1";
     Commit.message := "Test the retry";
     Commit.timestamp := "noon" |}.

(** A commit of PROJ-1 stamped with a UTC offset. *)
Definition aware_commit : commit :=
  {| Commit.commit_id := "33333333-4444-5555-6666-777777777777";
     Commit.author := Some "bob";
     Commit.ticket := Some "PROJ-1";
     Commit.message := "Deploy the fix";
     Commit.timestamp := "2024-03-02T10:15:00+00:00" |}.

(** A commit without author. *)
Definition unsigned_commit : commit :=
  {| Commit.commit_id := "44444444-5555-6666-7777-888888888888";
     Commit.author := None;
     Commit.ticket := Some "PROJ-2";
     Commit.message := "Optimize SQL";
     Commit.timestamp := "2024-03-03T08:00:00" |}.

(** An email that shows neither a task identifier nor a UUID. *)
Definition plain_email : email :=
  {| Email.thread_id := "thread-4";
     Email.sender := Some "dave";
     Email.recipients := ["carol"];
     Email.subject := "Lunch";
     Email.body := "See you at noon.";
     Email.timestamp := "2024-03-03T12:30:00" |}.

(** An email without sender and without recipients. *)
Definition orphan_email : email :=
  {| Email.thread_id := "thread-5";
     Email.sender := None;
     Email.recipients := [];
     Email.subject := "PROJ-2 reminder";
     Email.body := EmptyString;
     Email.timestamp := "2024-03-03T13:00:00" |}.

(** An email that shows two task identifiers. *)
Definition two_task_email : email :=
  {| Email.thread_id := "thread-6";
     Email.sender := Some "carol";
     Email.recipients := ["alice"; "bob"];
     Email.subject := "PROJ-1 blocks PROJ-2";
     Email.body := "PROJ-1 first.";
     Email.timestamp := "2024-03-03T14:00:00" |}.

(** The dictionary of the small snapshot after step 2. *)
Definition seeded : ClusterKnowledge.task_clusters :=
  match foldM (ClusterKnowledge.add_ticket iso_basic) Sample.jira_data [] with
  | Ok d => d
  | Raise _ => []
  end.

(** The task clusters when PROJ-1 is filed twice. *)
Definition refiled_jira_data : list ticket :=
  [Sample.proj1; Sample.proj2; Sample.proj1_refiled].

Definition refiled_clusters : list ClusterKnowledge.Final.cluster :=
  match ClusterKnowledge.cluster_task_data iso_basic
          refiled_jira_data Sample.git_data Sample.email_data with
  | Ok out => out
  | Raise _ => []
  end.

(** The report on the small snapshot. *)
Definition report : Report.report :=
  match process_all_employee_data iso_basic
          Sample.jira_data Sample.git_data Sample.email_data with
  | Ok r => r
  | Raise _ =>
      {| Report.employee_clusters := [];
         Report.analysis := ClusterEmployee.analyze_employee_clusters [];
         Report.collaboration_networks := [];
         Report.employee_skills := [] |}
  end.

End Fixture.

(* ================================================================== *)
(** * Properties *)

(** ** The result monad and its loops *)

Lemma bind_Ok {A B : Type} (m : result A) (k : A -> result B) (b : B) :
  bind m k = Ok b -> exists a, m = Ok a /\ k a = Ok b.
Proof.
  destruct m as [a | e]; simpl; intro H; [eauto | discriminate].
Qed.

(** Splits a successful monadic computation into its successful steps. *)
Ltac inv_ok :=
  repeat match goal with
  | H : bind _ _ = Ok _ |- _ =>
      let a := fresh "r" in
      let Ha := fresh "Hr" in
      apply bind_Ok in H; destruct H as (a & Ha & H)
  | H : Ok _ = Ok _ |- _ => inversion H; subst; clear H
  | H : Raise _ = Ok _ |- _ => discriminate H
  end.

(** An invariant of the loop body, for the elements of the list, is an
    invariant of the loop. *)
Lemma foldM_invariant {S A : Type} (I : S -> Prop)
  (body : A -> S -> result S) (l : list A) :
  (forall a s s', In a l -> I s -> body a s = Ok s' -> I s') ->
  forall s s', I s -> foldM body l s = Ok s' -> I s'.
Proof.
  induction l as [| a r IH]; simpl; intros Hstep s s' Hs Hrun.
  - inv_ok. exact Hs.
  - inv_ok. eapply IH; [| | exact Hrun].
    + intros; eapply Hstep; eauto.
    + eapply Hstep; eauto.
Qed.

(** The same for an invariant that speaks of the elements already seen. *)
Lemma foldM_invariant_seen {S A : Type} (I : list A -> S -> Prop)
  (body : A -> S -> result S) (l : list A) :
  (forall seen a s s',
      In a l -> I seen s -> body a s = Ok s' -> I (seen ++ [a]) s') ->
  forall seen s s', I seen s -> foldM body l s = Ok s' -> I (seen ++ l) s'.
Proof.
  induction l as [| a r IH]; simpl; intros Hstep seen s s' Hs Hrun.
  - inv_ok. now rewrite app_nil_r.
  - inv_ok.
    replace (seen ++ a :: r) with ((seen ++ [a]) ++ r)
      by now rewrite <- app_assoc.
    eapply IH; eauto.
Qed.

Lemma fold_left_invariant {S A : Type} (I : S -> Prop)
  (body : S -> A -> S) (l : list A) :
  (forall a s, I s -> I (body s a)) ->
  forall s, I s -> I (fold_left body l s).
Proof.
  intro Hstep. induction l as [| a r IH]; simpl; auto.
Qed.

Lemma mapM_Forall2 {A B : Type} (body : A -> result B) (l : list A) :
  forall l', mapM body l = Ok l' -> Forall2 (fun a b => body a = Ok b) l l'.
Proof.
  induction l as [| a r IH]; simpl; intros l' H; inv_ok; constructor; auto.
Qed.

(** ** Stable sorting *)

Section Sorting.

Variable A : Type.
Variable key : A -> Z.

Local Abbreviation key_le := (key_le key).

Lemma insert_by_perm (x : A) (l : list A) :
  Permutation (insert_by key x l) (x :: l).
Proof.
  induction l as [| y r IH]; simpl; auto.
  destruct (key x <=? key y)%Z; auto.
  rewrite IH. apply perm_swap.
Qed.

Lemma sort_by_perm (l : list A) : Permutation (sort_by key l) l.
Proof.
  induction l as [| x r IH]; simpl; auto.
  rewrite insert_by_perm. now constructor.
Qed.

Lemma insert_by_HdRel (a x : A) (l : list A) :
  key_le a x -> HdRel key_le a l -> HdRel key_le a (insert_by key x l).
Proof.
  intros Hax Hal. destruct l as [| y r]; simpl.
  - now constructor.
  - destruct (key x <=? key y)%Z; constructor; auto.
    now inversion Hal.
Qed.

Lemma insert_by_sorted (x : A) (l : list A) :
  Sorted key_le l -> Sorted key_le (insert_by key x l).
Proof.
  induction l as [| y r IH]; simpl; intro Hs.
  - repeat constructor.
  - apply Sorted_inv in Hs. destruct Hs as [Hr Hy].
    destruct (key x <=? key y)%Z eqn:E.
    + constructor; [constructor; auto |].
      constructor. unfold key_le. lia.
    + constructor; [auto |].
      apply insert_by_HdRel; auto. unfold key_le. lia.
Qed.

Lemma sort_by_sorted (l : list A) : Sorted key_le (sort_by key l).
Proof.
  induction l as [| x r IH]; simpl.
  - constructor.
  - now apply insert_by_sorted.
Qed.

(** Stability: the elements picked by a test that fixes the key come out in
    the order they went in. *)
Lemma insert_by_stable (p : A -> bool) (k : Z) (x : A) (l : list A) :
  (forall a, p a = true -> key a = k) ->
  filter p (insert_by key x l) = filter p (x :: l).
Proof.
  intro Hp. induction l as [| y r IH]; auto.
  simpl insert_by. destruct (key x <=? key y)%Z eqn:E; auto.
  change (filter p (y :: insert_by key x r))
    with (if p y then y :: filter p (insert_by key x r)
          else filter p (insert_by key x r)).
  rewrite IH. simpl.
  destruct (p x) eqn:Ex, (p y) eqn:Ey; auto.
  apply Hp in Ex, Ey. lia.
Qed.

Lemma sort_by_stable (p : A -> bool) (k : Z) (l : list A) :
  (forall a, p a = true -> key a = k) ->
  filter p (sort_by key l) = filter p l.
Proof.
  intro Hp. induction l as [| x r IH]; auto.
  simpl sort_by. rewrite (insert_by_stable _ _ _ Hp).
  simpl. now rewrite IH.
Qed.

End Sorting.

(** Any stable sort gives the list [sort_by] gives: a sorted list is fixed
    by the groups of elements of equal key it is made of. *)
Section StableSortUnique.

Variable A : Type.
Variable key : A -> Z.

Local Abbreviation group k := (filter (fun x : A => (key x =? k)%Z)).

Lemma group_head (x : A) (l : list A) :
  group (key x) (x :: l) = x :: group (key x) l.
Proof. simpl. now rewrite Z.eqb_refl. Qed.

Lemma sorted_head_least (x : A) (l : list A) (y : A) :
  Sorted (key_le key) (x :: l) -> In y (x :: l) -> (key x <= key y)%Z.
Proof.
  intros Hs Hy. apply Sorted_StronglySorted in Hs.
  - apply StronglySorted_inv in Hs. destruct Hs as [_ Hall].
    destruct Hy as [<- | Hy]; [lia |].
    rewrite Forall_forall in Hall. now apply Hall.
  - intros a b c. unfold key_le. lia.
Qed.

Lemma group_In (k : Z) (l : list A) (x : A) :
  In x (group k l) <-> In x l /\ key x = k.
Proof. rewrite filter_In, Z.eqb_eq. tauto. Qed.

Lemma sorted_groups_unique (l1 l2 : list A) :
  Sorted (key_le key) l1 -> Sorted (key_le key) l2 ->
  (forall k, group k l1 = group k l2) -> l1 = l2.
Proof.
  revert l2. induction l1 as [| x r1 IH]; intros l2 H1 H2 Hg.
  - destruct l2 as [| y r2]; auto.
    specialize (Hg (key y)). rewrite group_head in Hg. discriminate.
  - destruct l2 as [| y r2].
    + specialize (Hg (key x)). rewrite group_head in Hg. discriminate.
    + assert (Hxy : key x = key y).
      { assert (Hx : In x (y :: r2)).
        { apply (group_In (key x)). rewrite <- Hg, group_head. now left. }
        assert (Hy : In y (x :: r1)).
        { apply (group_In (key y)). rewrite Hg, group_head. now left. }
        pose proof (sorted_head_least H1 Hy).
        pose proof (sorted_head_least H2 Hx). lia. }
      pose proof (Hg (key x)) as Hk.
      rewrite group_head, Hxy, group_head in Hk.
      inversion Hk; subst y. f_equal.
      apply IH.
      * now apply Sorted_inv in H1.
      * now apply Sorted_inv in H2.
      * intro k. specialize (Hg k). simpl in Hg.
        destruct (key x =? k)%Z; [now inversion Hg | exact Hg].
Qed.

Lemma stable_sort_unique (l sorted : list A) :
  Sorted (key_le key) sorted ->
  (forall k, group k sorted = group k l) ->
  sorted = sort_by key l.
Proof.
  intros Hs Hg. apply sorted_groups_unique; auto.
  - apply sort_by_sorted.
  - intro k. rewrite Hg. symmetry.
    apply sort_by_stable with (k := k).
    intros a Ha. now apply Z.eqb_eq.
Qed.

End StableSortUnique.

(** A sorted list read by positions. *)
Lemma Sorted_adjacent {A : Type} (R : A -> A -> Prop) (l : list A) :
  Sorted R l ->
  forall i a b, nth_error l i = Some a -> nth_error l (S i) = Some b -> R a b.
Proof.
  induction 1 as [| x l Hs IH Hd]; intros i a b Ha Hb.
  - destruct i; discriminate.
  - destruct i as [| i]; simpl in *.
    + inversion Ha; subst. destruct l as [| y r]; [discriminate |].
      simpl in Hb. inversion Hb; subst. now inversion Hd.
    + eapply IH; eauto.
Qed.

Lemma Permutation_filter {A : Type} (p : A -> bool) (l l' : list A) :
  Permutation l l' -> Permutation (filter p l) (filter p l').
Proof.
  induction 1 as [| x l l' _ IH | x y l | l l' l'' _ IH1 _ IH2]; simpl.
  - constructor.
  - destruct (p x); auto.
  - destruct (p x), (p y); auto. apply perm_swap.
  - now rewrite IH1.
Qed.

Lemma sort_by_desc_adjacent {A : Type} (key : A -> Z) (l : list A) :
  forall i a b,
    nth_error (sort_by_desc key l) i = Some a ->
    nth_error (sort_by_desc key l) (S i) = Some b ->
    (key b <= key a)%Z.
Proof.
  intros i a b Ha Hb.
  pose proof (Sorted_adjacent (sort_by_sorted (fun x => (- key x)%Z) l)
                _ Ha Hb) as H.
  unfold key_le in H. lia.
Qed.

Lemma sort_by_desc_stable {A : Type} (key : A -> Z) (p : A -> bool) (k : Z)
  (l : list A) :
  (forall a, p a = true -> key a = k) ->
  filter p (sort_by_desc key l) = filter p l.
Proof.
  intro Hp. apply sort_by_stable with (k := (- k)%Z).
  intros a Ha. apply Hp in Ha. lia.
Qed.

Lemma sort_by_desc_perm {A : Type} (key : A -> Z) (l : list A) :
  Permutation (sort_by_desc key l) l.
Proof. apply sort_by_perm. Qed.

(** What a successful sort on date-time keys gives. *)
Lemma comparable_same_kind (ks : list datetime) :
  comparable ks = true ->
  forall a b, In a ks -> In b ks -> aware a = aware b.
Proof.
  unfold comparable. intros H a b Ha Hb.
  apply orb_true_iff in H. destruct H as [H | H];
    rewrite forallb_forall in H;
    pose proof (H _ Ha) as Ea; pose proof (H _ Hb) as Eb.
  - congruence.
  - destruct (aware a), (aware b); simpl in *; congruence.
Qed.

Lemma datetime_eqb_instant (a b : datetime) :
  datetime_eqb a b = true -> instant a = instant b.
Proof.
  unfold datetime_eqb. intro H. apply andb_true_iff in H.
  destruct H as [_ H]. now apply Z.eqb_eq in H.
Qed.

Lemma sort_by_datetime_chronological (tl tl' : list event) :
  sort_by_datetime Event.timestamp tl = Ok tl' -> chronological tl tl'.
Proof.
  unfold sort_by_datetime.
  destruct (comparable (map Event.timestamp tl)) eqn:Hc; [| discriminate].
  intro H. inversion H; subst; clear H.
  set (key := fun x : event => instant (Event.timestamp x)).
  assert (Hperm : Permutation (sort_by key tl) tl) by apply sort_by_perm.
  repeat split.
  - apply (comparable_same_kind _ Hc); apply in_map;
      eapply Permutation_in; try exact Hperm; eapply nth_error_In; eauto.
  - exact (Sorted_adjacent (sort_by_sorted key tl) _ H H0).
  - exact Hperm.
  - intro t. apply sort_by_stable with (k := instant t).
    intros a Ha. now apply datetime_eqb_instant in Ha.
Qed.

(** ** Dictionaries *)

Section Dict.

Variable V : Type.
Variable dflt : V.

Lemma dict_get_In (k : string) (d : dict V) (v : V) :
  dict_get k d = Some v -> In (k, v) d.
Proof.
  induction d as [| [k' v'] r IH]; simpl; [discriminate |].
  destruct (k =? k') eqn:E; intro H.
  - apply String.eqb_eq in E. inversion H; subst. now left.
  - right. auto.
Qed.

Lemma dict_get_None (k : string) (d : dict V) :
  dict_get k d = None -> ~ In k (map fst d).
Proof.
  induction d as [| [k' v'] r IH]; simpl; [tauto |].
  destruct (k =? k') eqn:E; [discriminate |].
  apply String.eqb_neq in E. intros H [H' | H']; [congruence | now apply IH].
Qed.

Lemma In_dict_get (k : string) (d : dict V) (v : V) :
  NoDup (map fst d) -> In (k, v) d -> dict_get k d = Some v.
Proof.
  induction d as [| [k' v'] r IH]; simpl; [tauto |].
  intros Hnd [H | H].
  - inversion H; subst. now rewrite String.eqb_refl.
  - inversion Hnd; subst. destruct (k =? k') eqn:E.
    + apply String.eqb_eq in E. subst. exfalso. apply H2.
      change k' with (fst (k', v)). now apply in_map.
    + auto.
Qed.

Lemma dict_update_In (k : string) (f : V -> V) (d : dict V) (k' : string)
  (v' : V) :
  In (k', v') (dict_update dflt k f d) ->
  In (k', v') d
  \/ (k' = k /\ exists v, v' = f v /\ (In (k, v) d \/ (v = dflt /\ dict_get k d = None))).
Proof.
  induction d as [| [k0 v0] r IH]; simpl.
  - intros [H | []]. inversion H; subst. right. split; eauto.
  - destruct (k =? k0) eqn:E.
    + apply String.eqb_eq in E. subst k0. intros [H | H].
      * inversion H; subst. right. split; eauto.
      * left; now right.
    + intros [H | H]; [left; now left |].
      destruct (IH H) as [H' | (-> & v & -> & [H' | [-> H']])].
      * left; now right.
      * right. split; eauto.
      * right. split; eauto.
Qed.

(** Updating one entry keeps a property of all entries. *)
Lemma dict_all_update (P : string -> V -> Prop) (k : string) (f : V -> V)
  (d : dict V) :
  dict_all P d ->
  (forall v, In (k, v) d -> P k v -> P k (f v)) ->
  (dict_get k d = None -> P k (f dflt)) ->
  dict_all P (dict_update dflt k f d).
Proof.
  intros Hd Hf H0 k' v' Hin.
  apply dict_update_In in Hin.
  destruct Hin as [H | (-> & v & -> & [H | [-> H]])]; auto.
Qed.

Lemma dict_update_keys (k : string) (f : V -> V) (d : dict V) :
  map fst (dict_update dflt k f d) = set_add k (map fst d).
Proof.
  unfold set_add. induction d as [| [k0 v0] r IH]; simpl; auto.
  destruct (k =? k0) eqn:E; simpl; auto.
  rewrite IH. now destruct (mem k (map fst r)).
Qed.

Lemma mem_In (x : string) (l : list string) : mem x l = true <-> In x l.
Proof.
  unfold mem. rewrite existsb_exists. split.
  - intros (y & Hy & E). apply String.eqb_eq in E. now subst.
  - intro H. exists x. split; auto. apply String.eqb_refl.
Qed.

Lemma set_add_NoDup (x : string) (l : list string) :
  NoDup l -> NoDup (set_add x l).
Proof.
  unfold set_add. intro H. destruct (mem x l) eqn:E; auto.
  apply NoDup_app; auto.
  - repeat constructor; simpl; tauto.
  - intros y Hy [<- | []]. apply mem_In in Hy. congruence.
Qed.

Lemma dict_update_NoDup (k : string) (f : V -> V) (d : dict V) :
  NoDup (map fst d) -> NoDup (map fst (dict_update dflt k f d)).
Proof.
  rewrite dict_update_keys. apply set_add_NoDup.
Qed.

Lemma dict_view_update (k : string) (f : V -> V) (d : dict V) (k' : string) :
  dict_view dflt (dict_update dflt k f d) k' =
  if k' =? k then f (dict_view dflt d k) else dict_view dflt d k'.
Proof.
  unfold dict_view. induction d as [| [k0 v0] r IH]; simpl.
  - now destruct (k' =? k).
  - destruct (k =? k0) eqn:E; simpl.
    + apply String.eqb_eq in E. subst k0.
      now destruct (k' =? k).
    + destruct (k' =? k0) eqn:E'.
      * apply String.eqb_eq in E'. subst k0.
        rewrite String.eqb_sym in E. now rewrite E.
      * exact IH.
Qed.

Lemma dict_get_update_same (k : string) (f : V -> V) (d : dict V) :
  dict_get k (dict_update dflt k f d) = Some (f (dict_view dflt d k)).
Proof.
  unfold dict_view. induction d as [| [k0 v0] r IH]; simpl.
  - now rewrite String.eqb_refl.
  - destruct (k =? k0) eqn:E; simpl; rewrite E; auto.
Qed.

Lemma dict_get_update_other (k : string) (f : V -> V) (d : dict V)
  (k' : string) :
  k' <> k -> dict_get k' (dict_update dflt k f d) = dict_get k' d.
Proof.
  intro Hne. apply String.eqb_neq in Hne.
  induction d as [| [k0 v0] r IH]; simpl.
  - now rewrite Hne.
  - destruct (k =? k0) eqn:E; simpl.
    + apply String.eqb_eq in E. subst k0. now rewrite Hne.
    + now rewrite IH.
Qed.

Lemma dict_update_In_NoDup (k : string) (f : V -> V) (d : dict V)
  (k' : string) (v' : V) :
  NoDup (map fst d) ->
  In (k', v') (dict_update dflt k f d) ->
  (k' <> k /\ In (k', v') d)
  \/ (k' = k /\ exists v, v' = f v
                 /\ (In (k, v) d \/ (v = dflt /\ dict_get k d = None))).
Proof.
  intros Hnd Hin.
  apply In_dict_get in Hin; [| now apply dict_update_NoDup].
  destruct (string_dec k' k) as [-> | Hne].
  - right. split; auto. rewrite dict_get_update_same in Hin.
    inversion Hin; subst. exists (dict_view dflt d k). split; auto.
    unfold dict_view. destruct (dict_get k d) eqn:E; auto.
    left. now apply dict_get_In.
  - left. split; auto. rewrite dict_get_update_other in Hin by auto.
    now apply dict_get_In.
Qed.

Lemma set_add_In (x y : string) (l : list string) :
  In y (set_add x l) <-> y = x \/ In y l.
Proof.
  unfold set_add. destruct (mem x l) eqn:E.
  - apply mem_In in E. split; auto. intros [-> | H]; auto.
  - rewrite in_app_iff. simpl. intuition.
Qed.

(** A loop over the items keeps the keys and rewrites each value. *)
Lemma dict_mapM_Forall2 (body : V -> result V) (d d' : dict V) :
  dict_mapM body d = Ok d' ->
  Forall2 (fun kv kv' => fst kv = fst kv' /\ body (snd kv) = Ok (snd kv'))
          d d'.
Proof.
  unfold dict_mapM. intro H. apply mapM_Forall2 in H.
  induction H as [| [k v] [k' v'] l l' H _ IH]; constructor; auto.
  simpl in *. inv_ok. auto.
Qed.

Lemma dict_mapM_In (body : V -> result V) (d d' : dict V) (k : string)
  (v' : V) :
  dict_mapM body d = Ok d' -> In (k, v') d' ->
  exists v, In (k, v) d /\ body v = Ok v'.
Proof.
  intro H. apply dict_mapM_Forall2 in H.
  induction H as [| [k0 v0] [k1 v1] l l' [Hk Hb] _ IH]; simpl;
    [tauto |].
  simpl in *. intros [Hin | Hin].
  - inversion Hin; subst. eauto.
  - destruct (IH Hin) as (v & Hv & Hb'). eauto.
Qed.

Lemma dict_mapM_keys (body : V -> result V) (d d' : dict V) :
  dict_mapM body d = Ok d' -> map fst d' = map fst d.
Proof.
  intro H. apply dict_mapM_Forall2 in H.
  induction H as [| kv kv' l l' [Hk _] _ IH]; simpl; congruence.
Qed.

Lemma dict_mapM_get (body : V -> result V) (d d' : dict V) (k : string)
  (v : V) :
  dict_mapM body d = Ok d' -> dict_get k d = Some v ->
  exists v', dict_get k d' = Some v' /\ body v = Ok v'.
Proof.
  intro H. apply dict_mapM_Forall2 in H.
  induction H as [| [k0 v0] [k1 v1] l l' [Hk Hb] _ IH]; simpl;
    [discriminate |].
  simpl in *. subst k1. destruct (k =? k0).
  - intro E. inversion E; subst. eauto.
  - exact IH.
Qed.

Lemma dict_all_mapM (P Q : string -> V -> Prop) (body : V -> result V)
  (d d' : dict V) :
  dict_mapM body d = Ok d' -> dict_all P d ->
  (forall k v v', P k v -> body v = Ok v' -> Q k v') ->
  dict_all Q d'.
Proof.
  intros H Hd Hstep k v' Hin.
  destruct (dict_mapM_In _ _ _ _ H Hin) as (v & Hv & Hb). eauto.
Qed.

End Dict.

Lemma dict_all_nil {V : Type} (P : string -> V -> Prop) : dict_all P [].
Proof. intros k v []. Qed.

(** A search for the one element that passes a test finds it wherever a
    permutation has put it. *)
Lemma find_permutation {A : Type} (p : A -> bool) (l l' : list A) :
  Permutation l l' ->
  (forall x y, In x l -> In y l -> p x = true -> p y = true -> x = y) ->
  find p l' = find p l.
Proof.
  intros Hperm Huniq.
  destruct (find p l) as [x |] eqn:E.
  - apply find_some in E. destruct E as [Hx Px].
    destruct (find p l') as [y |] eqn:E'.
    + apply find_some in E'. destruct E' as [Hy Py].
      f_equal. apply Huniq; auto.
      eapply Permutation_in; [symmetry; exact Hperm | exact Hy].
    + pose proof (find_none _ _ E' x (Permutation_in _ Hperm Hx)).
      congruence.
  - destruct (find p l') as [y |] eqn:E'; auto.
    apply find_some in E'. destruct E' as [Hy Py].
    pose proof (find_none _ _ E y
                  (Permutation_in _ (Permutation_sym Hperm) Hy)).
    congruence.
Qed.

(** Looking a key up in the items of a dictionary. *)
Lemma find_items {V B : Type} (mk : string * V -> B) (name : B -> string)
  (k : string) (d : dict V) :
  (forall kv, name (mk kv) = fst kv) ->
  find (fun b => name b =? k) (map mk d) =
  option_map (fun v => mk (k, v)) (dict_get k d).
Proof.
  intro Hname. induction d as [| [k0 v0] r IH]; simpl; auto.
  rewrite Hname. simpl. rewrite (String.eqb_sym k k0).
  destruct (k0 =? k) eqn:E; auto.
  apply String.eqb_eq in E. now subst.
Qed.

(** ** Equality of emails *)

Lemma option_eqb_eq (a b : option string) :
  option_eqb String.eqb a b = true <-> a = b.
Proof.
  destruct a as [x |], b as [y |]; simpl; split; intro H;
    try discriminate; auto.
  - apply String.eqb_eq in H. now subst.
  - inversion H. apply String.eqb_refl.
Qed.

Lemma list_eqb_eq (a b : list string) :
  list_eqb String.eqb a b = true <-> a = b.
Proof.
  revert b. induction a as [| x a IH]; destruct b as [| y b]; simpl;
    split; intro H; try discriminate; auto.
  - apply andb_true_iff in H. destruct H as [H1 H2].
    apply String.eqb_eq in H1. apply IH in H2. now subst.
  - inversion H; subst. rewrite String.eqb_refl. simpl. now apply IH.
Qed.

Lemma email_eqb_eq (a b : email) : email_eqb a b = true <-> a = b.
Proof.
  unfold email_eqb. split.
  - intro H. repeat (apply andb_true_iff in H; destruct H as [H ?]).
    destruct a, b; simpl in *.
    repeat match goal with
           | E : (_ =? _) = true |- _ => apply String.eqb_eq in E
           | E : option_eqb _ _ _ = true |- _ => apply option_eqb_eq in E
           | E : list_eqb _ _ _ = true |- _ => apply list_eqb_eq in E
           end.
    now subst.
  - intros ->. rewrite !String.eqb_refl.
    rewrite (proj2 (option_eqb_eq _ _) eq_refl).
    now rewrite (proj2 (list_eqb_eq _ _) eq_refl).
Qed.

Lemma email_in_In (e : email) (l : list email) :
  email_in e l = true <-> In e l.
Proof.
  unfold email_in. rewrite existsb_exists. split.
  - intros (x & Hx & E). apply email_eqb_eq in E. now subst.
  - intro H. exists e. split; auto. now apply email_eqb_eq.
Qed.

(** ** Sets of strings *)

Lemma py_set_from_In (seen l : list string) (x : string) :
  In x (py_set_from seen l) <-> In x l /\ ~ In x seen.
Proof.
  revert seen. induction l as [| y r IH]; intro seen; simpl; [tauto |].
  destruct (mem y seen) eqn:E.
  - apply mem_In in E. rewrite IH. intuition subst; tauto.
  - assert (~ In y seen) by (rewrite <- mem_In; congruence).
    simpl. rewrite IH. simpl.
    destruct (string_dec y x); intuition subst; tauto.
Qed.

Lemma py_set_In (l : list string) (x : string) : In x (py_set l) <-> In x l.
Proof. unfold py_set. rewrite py_set_from_In. simpl. tauto. Qed.

Lemma py_set_nil (l : list string) : py_set l = [] <-> l = [].
Proof.
  split; [| now intros ->].
  destruct l as [| x r]; auto. discriminate.
Qed.

Lemma py_set_from_NoDup (seen l : list string) : NoDup (py_set_from seen l).
Proof.
  revert seen. induction l as [| y r IH]; intro seen; simpl.
  - constructor.
  - destruct (mem y seen); auto. constructor; auto.
    rewrite py_set_from_In. simpl. tauto.
Qed.

(** ** The task correlator: sorting and the final list *)

Lemma truthy_Some (o : option string) (s : string) :
  truthy o = Some s -> o = Some s /\ s <> EmptyString.
Proof.
  destruct o as [x |]; simpl; [| discriminate].
  destruct (x =? EmptyString) eqn:E; [discriminate |].
  apply String.eqb_neq in E. intro H. inversion H; subst. auto.
Qed.

Section TaskShape.

Import ClusterKnowledge.

Lemma sort_timeline_fields (cl cl' : cluster) :
  sort_timeline cl = Ok cl' ->
  jira cl' = jira cl /\ git_commits cl' = git_commits cl
  /\ emails cl' = emails cl
  /\ chronological (timeline cl) (timeline cl').
Proof.
  unfold sort_timeline. intro H. inv_ok. simpl.
  split; [| split; [| split]]; auto.
  now apply sort_by_datetime_chronological.
Qed.

Lemma finalize_In (d : task_clusters) (oc : Final.cluster) :
  In oc (finalize d) <->
  exists k cl t, In (k, cl) d /\ jira cl = Some t
                 /\ oc = final_cluster k t cl.
Proof.
  induction d as [| [k cl] r IH]; simpl.
  - split; [tauto | intros (? & ? & ? & [] & _)].
  - destruct (jira cl) as [t |] eqn:Hj; simpl; split.
    + intros [<- | H].
      * exists k, cl, t. repeat split; auto.
      * apply IH in H. destruct H as (k' & cl' & t' & H & H').
        exists k', cl', t'. tauto.
    + intros (k' & cl' & t' & [H | H] & Hj' & ->).
      * inversion H; subst. left. congruence.
      * right. apply IH. exists k', cl', t'. auto.
    + intro H. apply IH in H. destruct H as (k' & cl' & t' & H & H').
      exists k', cl', t'. tauto.
    + intros (k' & cl' & t' & [H | H] & Hj' & ->).
      * inversion H; subst. congruence.
      * apply IH. exists k', cl', t'. auto.
Qed.

End TaskShape.

(** ** The task correlator: how the loops treat one cluster *)

Section TaskLoops.

Import ClusterKnowledge.

Variable fromisoformat : string -> option datetime.

Local Abbreviation parse := (parse fromisoformat).
Local Abbreviation add_ticket := (add_ticket fromisoformat).
Local Abbreviation add_commit := (add_commit fromisoformat).
Local Abbreviation add_email := (add_email fromisoformat).
Local Abbreviation direct_attach := (direct_attach fromisoformat).
Local Abbreviation fallback := (fallback fromisoformat).
Local Abbreviation fallback_cluster := (fallback_cluster fromisoformat).
Local Abbreviation correlate := (correlate fromisoformat).
Local Abbreviation cluster_task_data := (cluster_task_data fromisoformat).

Lemma parse_Ok (s : string) (ts : datetime) :
  parse s = Ok ts -> fromisoformat s = Some ts.
Proof.
  unfold ClusterKnowledge.parse.
  destruct (fromisoformat s); intro H; now inversion H.
Qed.

(** Step 2 keeps a property of the clusters that may mention the tickets
    seen so far. *)
Lemma tickets_invariant (P : list ticket -> string -> cluster -> Prop)
  (jira_data : list ticket) (d : task_clusters) :
  (forall seen t k cl,
      Ticket.id t <> k -> P seen k cl -> P (seen ++ [t]) k cl) ->
  (forall seen t ts cl,
      In t jira_data ->
      fromisoformat (Ticket.created_at t) = Some ts ->
      P seen (Ticket.id t) cl ->
      P (seen ++ [t]) (Ticket.id t) (seed t ts cl)) ->
  (forall seen k, (forall t, In t seen -> Ticket.id t <> k) ->
                  P seen k fresh) ->
  foldM add_ticket jira_data [] = Ok d ->
  NoDup (map fst d)
  /\ (forall t, In t jira_data -> In (Ticket.id t) (map fst d))
  /\ dict_all (P jira_data) d.
Proof.
  intros Hframe Hseed Hfresh Hrun.
  apply (foldM_invariant_seen
           (fun seen d =>
              NoDup (map fst d)
              /\ (forall t, In t seen -> In (Ticket.id t) (map fst d))
              /\ dict_all (P seen) d)
           add_ticket jira_data) with (seen := []) (s := []); auto.
  - clear d Hrun. intros seen t d d' Ht (Hnd & Hids & Hall) Hstep.
    unfold ClusterKnowledge.add_ticket in Hstep. inv_ok.
    apply parse_Ok in Hr. repeat split.
    + now apply dict_update_NoDup.
    + intros t' Ht'. rewrite dict_update_keys, set_add_In.
      apply in_app_iff in Ht'. destruct Ht' as [Ht' | [<- | []]]; auto.
    + intros k' v' Hin.
      apply dict_update_In_NoDup in Hin; auto.
      destruct Hin as [[Hne Hin] | (-> & v & -> & [Hin | [-> Hget]])].
      * apply Hframe; auto.
      * apply Hseed; auto.
      * apply Hseed; auto. apply Hfresh.
        intros t' Ht' E. apply dict_get_None in Hget.
        apply Hget. rewrite <- E. auto.
  - repeat split; [constructor | intros t [] | apply dict_all_nil].
Qed.

(** Step 3 keeps a property that taking a commit keeps and that a fresh
    cluster has under the keys the dictionary lacks. *)
Lemma commits_invariant (P : string -> cluster -> Prop)
  (git_data : list commit) (d d' : task_clusters) :
  (forall k, dict_get k d = None -> P k fresh) ->
  (forall k cl c ts,
      In c git_data -> truthy (Commit.ticket c) = Some k ->
      fromisoformat (Commit.timestamp c) = Some ts ->
      P k cl -> P k (push_commit c ts cl)) ->
  dict_all P d ->
  foldM add_commit git_data d = Ok d' -> dict_all P d'.
Proof.
  intros Hfresh Hpush Hd Hrun.
  apply (foldM_invariant
           (fun s => dict_all P s
                     /\ forall k, dict_get k s = None -> dict_get k d = None)
           add_commit git_data) with (s := d) (s' := d'); auto.
  clear d' Hd Hrun. intros c s s' Hc [Hs Hkeys] Hstep.
  unfold ClusterKnowledge.add_commit in Hstep.
  destruct (truthy (Commit.ticket c)) as [k |] eqn:Hk; inv_ok; auto.
  apply parse_Ok in Hr. split.
  - apply dict_all_update; eauto.
  - intros k' Hnone. apply Hkeys.
    destruct (string_dec k' k) as [-> | Hne].
    + rewrite dict_get_update_same in Hnone. discriminate.
    + now rewrite dict_get_update_other in Hnone.
Qed.

Lemma direct_attach_invariant (P : string -> cluster -> Prop) (e : email)
  (k : string) (d d' : task_clusters) :
  (forall cl ts,
      fromisoformat (Email.timestamp e) = Some ts ->
      P k cl -> P k (attach e ts cl)) ->
  dict_all P d -> direct_attach e k d = Ok d' -> dict_all P d'.
Proof.
  intros Hatt Hd Hstep. unfold ClusterKnowledge.direct_attach in Hstep.
  unfold dict_mem in Hstep.
  destruct (dict_get k d) eqn:Hget; inv_ok; auto.
  apply parse_Ok in Hr.
  apply dict_all_update; auto. congruence.
Qed.

Lemma fallback_cluster_cases (e : email) (cid : string) (cl cl' : cluster) :
  fallback_cluster e cid cl = Ok cl' ->
  cl' = cl
  \/ (exists ts, fromisoformat (Email.timestamp e) = Some ts
                 /\ cl' = attach e ts cl)
     /\ ~ In e (emails cl)
     /\ exists c, In c (git_commits cl) /\ Commit.commit_id c = cid.
Proof.
  unfold ClusterKnowledge.fallback_cluster.
  destruct (existsb _ (git_commits cl)) eqn:Hex; [| intro; inv_ok; auto].
  destruct (email_in e (emails cl)) eqn:Hin; simpl; intro H; inv_ok; auto.
  right. apply parse_Ok in Hr. repeat split; eauto.
  - rewrite <- email_in_In. congruence.
  - apply existsb_exists in Hex. destruct Hex as (c & Hc & E).
    apply String.eqb_eq in E. eauto.
Qed.

(** Step 4 keeps a property that appending an attachable email keeps. *)
Lemma emails_invariant (P : string -> cluster -> Prop)
  (email_data : list email) (d d' : task_clusters) :
  (forall k cl e ts,
      In e email_data ->
      fromisoformat (Email.timestamp e) = Some ts ->
      attachable e k cl -> P k cl -> P k (attach e ts cl)) ->
  dict_all P d ->
  foldM add_email email_data d = Ok d' -> dict_all P d'.
Proof.
  intros Hatt Hd Hrun.
  apply (foldM_invariant (dict_all P) add_email email_data) with (s := d);
    auto.
  clear d d' Hd Hrun. intros e d d' He Hd Hstep.
  unfold ClusterKnowledge.add_email in Hstep. inv_ok.
  assert (Hr' : dict_all P r).
  { apply (foldM_invariant (dict_all P) (direct_attach e)
             (py_set (findall_task_id
                        (Email.subject e ++ Email.body e)%string)))
      with (s := d); auto.
    intros k s s' Hk Hs Hs'. apply -> py_set_In in Hk.
    eapply direct_attach_invariant; eauto.
    intros cl ts Hts Hcl. apply Hatt; auto. now left. }
  destruct (py_set _) eqn:Hset; inv_ok; auto.
  apply -> py_set_nil in Hset.
  apply (foldM_invariant (dict_all P) (fallback e)
           (findall_uuid (Email.body e))) with (s := r); auto.
  intros cid s s' Hcid Hs Hs'.
  unfold ClusterKnowledge.fallback in Hs'.
  eapply dict_all_mapM; eauto.
  intros k cl cl' Hcl Hfb. simpl in Hfb.
  apply fallback_cluster_cases in Hfb.
  destruct Hfb as [-> | ((ts & Hts & ->) & Hnin & c & Hc & <-)]; auto.
  apply Hatt; auto. right. eauto.
Qed.

(** The keys of the dictionary stay distinct. *)
Lemma add_commit_keys (c : commit) (d d' : task_clusters) :
  add_commit c d = Ok d' -> NoDup (map fst d) -> NoDup (map fst d').
Proof.
  unfold ClusterKnowledge.add_commit.
  destruct (truthy (Commit.ticket c)); intros H Hnd; inv_ok; auto.
  now apply dict_update_NoDup.
Qed.

Lemma add_email_keys (e : email) (d d' : task_clusters) :
  add_email e d = Ok d' -> map fst d' = map fst d.
Proof.
  unfold ClusterKnowledge.add_email. intro H. inv_ok.
  assert (Hr' : map fst r = map fst d).
  { revert Hr.
    apply (foldM_invariant (fun s => map fst s = map fst d)); auto.
    intros k s s' _ Hs Hstep.
    unfold ClusterKnowledge.direct_attach, dict_mem in Hstep.
    destruct (dict_get k s) eqn:Hget; inv_ok; auto.
    rewrite dict_update_keys, <- Hs. unfold set_add.
    apply dict_get_In in Hget.
    assert (Hin : In k (map fst s))
      by (change k with (fst (k, c)); now apply in_map).
    apply mem_In in Hin. now rewrite Hin. }
  destruct (py_set _); inv_ok; auto.
  revert H.
  apply (foldM_invariant (fun s => map fst s = map fst d)); auto.
  intros cid s s' _ Hs Hstep.
  apply dict_mapM_keys in Hstep. congruence.
Qed.

Lemma correlate_keys (jira_data : list ticket) (git_data : list commit)
  (email_data : list email) (d : task_clusters) :
  correlate jira_data git_data email_data = Ok d -> NoDup (map fst d).
Proof.
  unfold ClusterKnowledge.correlate. intro H.
  apply bind_Ok in H. destruct H as (d2 & Htickets & H).
  apply bind_Ok in H. destruct H as (d3 & Hcommits & Hemails).
  assert (H2 : NoDup (map fst d2)).
  { apply (tickets_invariant (fun _ _ _ => True)) in Htickets; tauto. }
  assert (H3 : NoDup (map fst d3)).
  { revert Hcommits.
    apply (foldM_invariant (fun s => NoDup (map fst s))); auto.
    intros c s s' _ Hs Hstep. eapply add_commit_keys; eauto. }
  revert Hemails.
  apply (foldM_invariant (fun s => NoDup (map fst s))); auto.
  intros e s s' _ Hs Hstep. apply add_email_keys in Hstep. congruence.
Qed.

(** A property that every loop keeps holds of the clusters returned. The
    property may mention the tickets step 2 has seen. *)
Lemma cluster_task_data_invariant_seen
  (P : list ticket -> string -> cluster -> Prop)
  (jira_data : list ticket) (git_data : list commit)
  (email_data : list email) (out : list Final.cluster) :
  (forall seen t k cl,
      Ticket.id t <> k -> P seen k cl -> P (seen ++ [t]) k cl) ->
  (forall seen t ts cl,
      In t jira_data ->
      fromisoformat (Ticket.created_at t) = Some ts ->
      P seen (Ticket.id t) cl ->
      P (seen ++ [t]) (Ticket.id t) (seed t ts cl)) ->
  (forall seen k, (forall t, In t seen -> Ticket.id t <> k) ->
                  P seen k fresh) ->
  (forall k cl c ts,
      In c git_data -> truthy (Commit.ticket c) = Some k ->
      fromisoformat (Commit.timestamp c) = Some ts ->
      P jira_data k cl -> P jira_data k (push_commit c ts cl)) ->
  (forall k cl e ts,
      In e email_data ->
      fromisoformat (Email.timestamp e) = Some ts ->
      attachable e k cl -> P jira_data k cl ->
      P jira_data k (attach e ts cl)) ->
  (forall k cl cl',
      sort_timeline cl = Ok cl' -> P jira_data k cl -> P jira_data k cl') ->
  cluster_task_data jira_data git_data email_data = Ok out ->
  forall oc, In oc out ->
  exists k cl t,
    P jira_data k cl /\ jira cl = Some t /\ oc = final_cluster k t cl.
Proof.
  intros Hframe Hseed Hfresh Hpush Hatt Hsort Hrun oc Hoc.
  unfold ClusterKnowledge.cluster_task_data in Hrun.
  apply bind_Ok in Hrun. destruct Hrun as (d4 & Hcor & Hrun).
  apply bind_Ok in Hrun. destruct Hrun as (d5 & Hsorted & Hrun).
  inversion Hrun; subst; clear Hrun.
  unfold ClusterKnowledge.correlate in Hcor.
  apply bind_Ok in Hcor. destruct Hcor as (d2 & Htickets & Hcor).
  apply bind_Ok in Hcor. destruct Hcor as (d3 & Hcommits & Hemails).
  apply (tickets_invariant P) in Htickets; auto.
  destruct Htickets as (Hnd & Hids & H2).
  assert (H3 : dict_all (P jira_data) d3).
  { eapply commits_invariant; eauto.
    intros k Hnone. apply Hfresh. intros t Ht E.
    apply dict_get_None in Hnone. apply Hnone. rewrite <- E. auto. }
  assert (H4 : dict_all (P jira_data) d4)
    by (eapply emails_invariant; eauto).
  assert (H5 : dict_all (P jira_data) d5).
  { unfold sort_timelines in Hsorted. eapply dict_all_mapM; eauto. }
  apply finalize_In in Hoc. destruct Hoc as (k & cl & t & Hin & Hj & ->).
  exists k, cl, t. auto.
Qed.

Lemma cluster_task_data_invariant (P : string -> cluster -> Prop)
  (jira_data : list ticket) (git_data : list commit)
  (email_data : list email) (out : list Final.cluster) :
  (forall k, P k fresh) ->
  (forall t ts cl,
      In t jira_data ->
      fromisoformat (Ticket.created_at t) = Some ts ->
      P (Ticket.id t) cl -> P (Ticket.id t) (seed t ts cl)) ->
  (forall k cl c ts,
      In c git_data -> truthy (Commit.ticket c) = Some k ->
      fromisoformat (Commit.timestamp c) = Some ts ->
      P k cl -> P k (push_commit c ts cl)) ->
  (forall k cl e ts,
      In e email_data ->
      fromisoformat (Email.timestamp e) = Some ts ->
      attachable e k cl -> P k cl -> P k (attach e ts cl)) ->
  (forall k cl cl', sort_timeline cl = Ok cl' -> P k cl -> P k cl') ->
  cluster_task_data jira_data git_data email_data = Ok out ->
  forall oc, In oc out ->
  exists k cl t, P k cl /\ jira cl = Some t /\ oc = final_cluster k t cl.
Proof.
  intros Hfresh Hseed Hpush Hatt Hsort.
  apply (cluster_task_data_invariant_seen (fun _ => P)); auto.
Qed.

End TaskLoops.

(** ** The task correlator: clusters and their keys *)

Lemma occurrences_app (e : email) (l l' : list email) :
  occurrences e (l ++ l') = occurrences e l + occurrences e l'.
Proof. unfold occurrences. now rewrite filter_app, length_app. Qed.

Lemma occurrences_absent (e : email) (l : list email) :
  ~ In e l -> occurrences e l = 0.
Proof.
  unfold occurrences. induction l as [| x r IH]; simpl; auto.
  intro H. destruct (email_eqb e x) eqn:E.
  - apply email_eqb_eq in E. subst. tauto.
  - apply IH. tauto.
Qed.

Section TaskClusters.

Import ClusterKnowledge.

Variable fromisoformat : string -> option datetime.

Local Abbreviation cluster_task_data := (cluster_task_data fromisoformat).
Local Abbreviation add_email := (add_email fromisoformat).
Local Abbreviation direct_attach := (direct_attach fromisoformat).

(** C4. Every cluster that [cluster_task_data] returns is keyed by the
    identifier of an input ticket, the ticket its summary, status, assignee
    and creation time are read from. Hence a commit whose ticket
    identifier matches no input ticket gives no cluster, and no cluster
    stands for an unknown reference. *)
Theorem task_cluster_keys_are_ticket_ids
  (jira_data : list ticket) (git_data : list commit)
  (email_data : list email) (out : list Final.cluster) :
  cluster_task_data jira_data git_data email_data = Ok out ->
  (forall oc, In oc out ->
     exists t, In t jira_data /\ Ticket.id t = Final.task_id oc
               /\ Final.summary oc = Ticket.summary t
               /\ Final.status oc = Ticket.status t
               /\ Final.assignee oc = Ticket.assignee t
               /\ Final.created_at oc = Ticket.created_at t)
  /\ (forall c task_id,
        In c git_data -> Commit.ticket c = Some task_id ->
        (forall t, In t jira_data -> Ticket.id t <> task_id) ->
        forall oc, In oc out -> Final.task_id oc <> task_id).
Proof.
  intro Hrun.
  assert (Hkeys : forall oc, In oc out ->
            exists t, In t jira_data /\ Ticket.id t = Final.task_id oc
               /\ Final.summary oc = Ticket.summary t
               /\ Final.status oc = Ticket.status t
               /\ Final.assignee oc = Ticket.assignee t
               /\ Final.created_at oc = Ticket.created_at t).
  { intros oc Hoc.
    destruct (cluster_task_data_invariant fromisoformat
                (fun k cl => forall t, jira cl = Some t ->
                                       In t jira_data /\ Ticket.id t = k)
                jira_data git_data email_data) with (out := out) (oc := oc)
      as (k & cl & t & HP & Hj & ->).
    - intros k t; discriminate.
    - intros t ts cl Ht _ _ t' E. simpl in E. inversion E; subst. auto.
    - intros k cl c ts _ _ _ HP. exact HP.
    - intros k cl e ts _ _ _ HP. exact HP.
    - intros k cl cl' Hs HP t E.
      apply sort_timeline_fields in Hs. destruct Hs as (Hj & _).
      apply HP. congruence.
    - exact Hrun.
    - exact Hoc.
    - destruct (HP t Hj) as [Ht Hid]. exists t. simpl. repeat split; auto. }
  split; auto.
  intros c task_id _ _ Hnone oc Hoc E.
  destruct (Hkeys oc Hoc) as (t & Ht & Hid & _).
  apply (Hnone t Ht). congruence.
Qed.

(** C6. An email whose subject and body, joined, show a task identifier is
    handled by the direct loop alone, whatever its body holds, and reaches
    only clusters whose key it shows. An email that shows none stands at
    most once in a cluster, and only in a cluster that holds a commit whose
    identifier is a UUID-shaped token of the body. *)
Theorem uuid_fallback_only_without_task_ids
  (jira_data : list ticket) (git_data : list commit)
  (email_data : list email) (out : list Final.cluster) :
  cluster_task_data jira_data git_data email_data = Ok out ->
  (forall e d,
      findall_task_id (Email.subject e ++ Email.body e)%string <> [] ->
      add_email e d =
      foldM (direct_attach e)
            (py_set (findall_task_id
                       (Email.subject e ++ Email.body e)%string)) d)
  /\ forall oc, In oc out -> forall e,
      (findall_task_id (Email.subject e ++ Email.body e)%string <> [] ->
       In e (Final.emails oc) ->
       In (Final.task_id oc)
          (findall_task_id (Email.subject e ++ Email.body e)%string))
      /\ (findall_task_id (Email.subject e ++ Email.body e)%string = [] ->
          occurrences e (Final.emails oc) <= 1
          /\ (In e (Final.emails oc) ->
              exists c, In c (Final.git_commits oc)
                        /\ In (Commit.commit_id c)
                              (findall_uuid (Email.body e)))).
Proof.
  intro Hrun. split.
  - intros e d Hne. unfold ClusterKnowledge.add_email.
    destruct (py_set _) eqn:Hset.
    + apply -> py_set_nil in Hset. contradiction.
    + now destruct (foldM _ _ d).
  - intros oc Hoc.
    set (ids := fun e : email =>
           findall_task_id (Email.subject e ++ Email.body e)%string).
    destruct (cluster_task_data_invariant fromisoformat
                (fun k cl =>
                   (forall e, In e (emails cl) -> ids e <> [] ->
                              In k (ids e))
                   /\ (forall e, In e (emails cl) -> ids e = [] ->
                         exists c, In c (git_commits cl)
                                   /\ In (Commit.commit_id c)
                                         (findall_uuid (Email.body e)))
                   /\ (forall e, ids e = [] ->
                                 occurrences e (emails cl) <= 1))
                jira_data git_data email_data) with (out := out) (oc := oc)
      as (k & cl & t & (H1 & H2 & H3) & Hj & ->).
    + intro k. simpl. repeat split; try tauto. intros; apply Nat.le_0_l.
    + intros t ts cl _ _ HP. exact HP.
    + intros k cl c ts _ _ _ (H1 & H2 & H3). simpl.
      repeat split; auto.
      intros e He Hids. destruct (H2 e He Hids) as (c' & Hc' & Hu).
      exists c'. split; auto. apply in_app_iff. auto.
    + intros k cl e' ts _ _ Hatt (H1 & H2 & H3). simpl.
      repeat split.
      * intros e He Hids. apply in_app_iff in He.
        destruct He as [He | [<- | []]]; auto.
        destruct Hatt as [Hatt | (Hnil & _)]; auto. contradiction.
      * intros e He Hids. apply in_app_iff in He.
        destruct He as [He | [<- | []]]; auto.
        destruct Hatt as [Hatt | (_ & _ & Hc)]; auto.
        fold (ids e') in Hatt. rewrite Hids in Hatt. destruct Hatt.
      * intros e Hids. rewrite occurrences_app.
        unfold occurrences at 2. simpl.
        destruct (email_eqb e e') eqn:E; simpl.
        -- apply email_eqb_eq in E. subst e'.
           destruct Hatt as [Hatt | (_ & Hnin & _)].
           ++ fold (ids e) in Hatt. rewrite Hids in Hatt. destruct Hatt.
           ++ rewrite (occurrences_absent _ _ Hnin). auto.
        -- rewrite Nat.add_0_r. auto.
    + intros k cl cl' Hs (H1 & H2 & H3).
      apply sort_timeline_fields in Hs. destruct Hs as (_ & Hc & He & _).
      rewrite Hc, He. auto.
    + exact Hrun.
    + exact Hoc.
    + intro e. simpl. split.
      * intros Hne He. now apply H1.
      * intro Hnil. split; [now apply H3 | intro He; now apply H2].
Qed.

End TaskClusters.

Lemma task_cluster_keys_are_ticket_ids_witness :
  ClusterKnowledge.cluster_task_data iso_basic
    Sample.jira_data Sample.git_data Sample.email_data
  = Ok Sample.task_clusters
  /\ ((forall oc, In oc Sample.task_clusters ->
        exists t, In t Sample.jira_data
                  /\ Ticket.id t = ClusterKnowledge.Final.task_id oc
                  /\ ClusterKnowledge.Final.summary oc = Ticket.summary t
                  /\ ClusterKnowledge.Final.status oc = Ticket.status t
                  /\ ClusterKnowledge.Final.assignee oc = Ticket.assignee t
                  /\ ClusterKnowledge.Final.created_at oc
                     = Ticket.created_at t)
      /\ (forall c task_id,
            In c Sample.git_data -> Commit.ticket c = Some task_id ->
            (forall t, In t Sample.jira_data -> Ticket.id t <> task_id) ->
            forall oc, In oc Sample.task_clusters ->
                       ClusterKnowledge.Final.task_id oc <> task_id)).
Proof.
  split; [vm_compute; reflexivity |].
  apply (task_cluster_keys_are_ticket_ids iso_basic
           Sample.jira_data Sample.git_data Sample.email_data).
  vm_compute; reflexivity.
Defined.

Lemma uuid_fallback_only_without_task_ids_witness :
  ClusterKnowledge.cluster_task_data iso_basic
    Sample.jira_data Sample.git_data Sample.email_data
  = Ok Sample.task_clusters
  /\ forall oc, In oc Sample.task_clusters ->
       occurrences Sample.uuid_email (ClusterKnowledge.Final.emails oc) <= 1.
Proof.
  split; [vm_compute; reflexivity |].
  intros oc Hoc.
  apply (uuid_fallback_only_without_task_ids iso_basic
           Sample.jira_data Sample.git_data Sample.email_data
           (out := Sample.task_clusters));
    [vm_compute; reflexivity | exact Hoc | vm_compute; reflexivity].
Defined.

(** ** The task correlator: what a cluster holds once it holds it *)

Lemma foldM_app {S A : Type} (body : A -> S -> result S) (l1 l2 : list A)
  (s : S) :
  foldM body (l1 ++ l2) s = (s' <- foldM body l1 s ;; foldM body l2 s').
Proof.
  revert s. induction l1 as [| a r IH]; intro s; simpl; auto.
  destruct (body a s); simpl; auto.
Qed.

Section TaskKey.

Import ClusterKnowledge.

Variable fromisoformat : string -> option datetime.
Variable key : string.
Variable Q : cluster -> Prop.

Hypothesis Q_seed : forall t ts cl, Q cl -> Q (seed t ts cl).
Hypothesis Q_push : forall c ts cl, Q cl -> Q (push_commit c ts cl).
Hypothesis Q_attach : forall e ts cl, Q cl -> Q (attach e ts cl).
Hypothesis Q_sort : forall cl cl', sort_timeline cl = Ok cl' -> Q cl -> Q cl'.

Local Abbreviation holds d := (exists cl, dict_get key d = Some cl /\ Q cl).

Lemma update_holds (k : string) (f : cluster -> cluster) (d : task_clusters) :
  (forall cl, Q cl -> Q (f cl)) ->
  holds d -> holds (dict_update fresh k f d).
Proof.
  intros Hf (cl & Hget & Hq).
  destruct (string_dec key k) as [<- | Hne].
  - rewrite dict_get_update_same. unfold dict_view. rewrite Hget. eauto.
  - rewrite dict_get_update_other by auto. eauto.
Qed.

Lemma mapM_holds (body : cluster -> result cluster) (d d' : task_clusters) :
  (forall cl cl', body cl = Ok cl' -> Q cl -> Q cl') ->
  dict_mapM body d = Ok d' -> holds d -> holds d'.
Proof.
  intros Hbody Hrun (cl & Hget & Hq).
  destruct (@dict_mapM_get _ body d d' key cl Hrun Hget)
    as (cl' & Hget' & Hb).
  eauto.
Qed.

Lemma add_ticket_holds (t : ticket) (d d' : task_clusters) :
  add_ticket fromisoformat t d = Ok d' -> holds d -> holds d'.
Proof.
  unfold add_ticket. intros H Hd. inv_ok. apply update_holds; auto.
Qed.

Lemma add_commit_holds (c : commit) (d d' : task_clusters) :
  add_commit fromisoformat c d = Ok d' -> holds d -> holds d'.
Proof.
  unfold add_commit. intros H Hd.
  destruct (truthy (Commit.ticket c)); inv_ok; auto.
  apply update_holds; auto.
Qed.

Lemma add_email_holds (e : email) (d d' : task_clusters) :
  add_email fromisoformat e d = Ok d' -> holds d -> holds d'.
Proof.
  unfold add_email. intros H Hd.
  apply bind_Ok in H. destruct H as (d1 & Hdirect & H).
  assert (H1 : holds d1).
  { revert Hdirect. apply (foldM_invariant (fun s => holds s)); auto.
    intros k s s' _ Hs Hstep. unfold direct_attach in Hstep.
    destruct (dict_mem k s); inv_ok; auto.
    apply update_holds; auto. }
  destruct (py_set _); inv_ok; auto.
  revert H. apply (foldM_invariant (fun s => holds s)); auto.
  intros cid s s' _ Hs Hstep. unfold fallback in Hstep.
  apply (@mapM_holds (fallback_cluster fromisoformat e cid) s s'); auto.
  intros cl cl' Hfb Hq. unfold fallback_cluster in Hfb.
  destruct (existsb _ _); [| inv_ok; auto].
  destruct (negb _); inv_ok; auto.
Qed.

Lemma sort_timelines_holds (d d' : task_clusters) :
  sort_timelines d = Ok d' -> holds d -> holds d'.
Proof. unfold sort_timelines. apply mapM_holds. exact Q_sort. Qed.

Lemma holds_finalize (d : task_clusters) :
  holds d -> (forall cl, Q cl -> jira cl <> None) ->
  exists cl t, Q cl /\ jira cl = Some t
               /\ In (final_cluster key t cl) (finalize d).
Proof.
  intros (cl & Hget & Hq) Hj.
  destruct (jira cl) as [t |] eqn:E; [| now apply Hj in Hq].
  exists cl, t. repeat split; auto.
  apply finalize_In. exists key, cl, t. repeat split; auto.
  now apply dict_get_In.
Qed.

End TaskKey.

Lemma finalize_keys (d : ClusterKnowledge.task_clusters) :
  NoDup (map fst d) ->
  NoDup (map ClusterKnowledge.Final.task_id (ClusterKnowledge.finalize d)).
Proof.
  induction d as [| [k cl] r IH]; simpl; intro Hnd; [constructor |].
  inversion Hnd as [| ? ? Hk Hr]; subst.
  destruct (ClusterKnowledge.jira cl); auto.
  simpl. constructor; auto.
  intro Hin. apply Hk. apply in_map_iff in Hin.
  destruct Hin as (oc & Hid & Hoc).
  apply finalize_In in Hoc.
  destruct Hoc as (k' & cl' & t' & Hin & _ & ->). simpl in Hid. subst k'.
  change k with (fst (k, cl')). now apply in_map.
Qed.

(** ** The task correlator: commits and timelines *)

Lemma filter_none {A : Type} (p : A -> bool) (l : list A) :
  (forall x, In x l -> p x = false) -> filter p l = [].
Proof.
  induction l as [| x r IH]; simpl; auto.
  intro H. rewrite (H x) by auto. apply IH. auto.
Qed.

Section TaskCommits.

Import ClusterKnowledge.

Variable fromisoformat : string -> option datetime.

Local Abbreviation cluster_task_data := (cluster_task_data fromisoformat).

(** C5, as the code has it. A commit whose ticket field is a non-empty
    identifier of some input ticket is in the commit list of the cluster
    that identifier keys; a cluster that lists a commit is keyed by the
    commit's ticket field, and keys are distinct, so the commit is in
    the list of that one cluster; a commit whose ticket field is absent or
    empty is in no list. *)
Theorem commits_join_their_ticket_cluster
  (jira_data : list ticket) (git_data : list commit)
  (email_data : list email) (out : list Final.cluster) :
  cluster_task_data jira_data git_data email_data = Ok out ->
  NoDup (map Final.task_id out)
  /\ (forall c task_id,
        In c git_data -> Commit.ticket c = Some task_id ->
        task_id <> EmptyString ->
        (exists t, In t jira_data /\ Ticket.id t = task_id) ->
        exists oc, In oc out /\ Final.task_id oc = task_id
                   /\ In c (Final.git_commits oc))
  /\ (forall c oc,
        In oc out -> In c (Final.git_commits oc) ->
        Commit.ticket c = Some (Final.task_id oc) /\ In c git_data)
  /\ (forall c oc,
        In oc out ->
        Commit.ticket c = None \/ Commit.ticket c = Some EmptyString ->
        ~ In c (Final.git_commits oc)).
Proof.
  intro Hrun.
  assert (Hlisted : forall c oc,
             In oc out -> In c (Final.git_commits oc) ->
             truthy (Commit.ticket c) = Some (Final.task_id oc)
             /\ In c git_data).
  { intros c oc Hoc Hc.
    destruct (cluster_task_data_invariant fromisoformat
                (fun k cl => forall c, In c (git_commits cl) ->
                               truthy (Commit.ticket c) = Some k
                               /\ In c git_data)
                jira_data git_data email_data) with (out := out) (oc := oc)
      as (k & cl & t & HP & Hj & ->).
    - intros k c' [].
    - intros t ts cl _ _ HP. exact HP.
    - intros k cl c' ts Hc' Hk _ HP c0 Hc0. simpl in Hc0.
      apply in_app_iff in Hc0. destruct Hc0 as [Hc0 | [<- | []]]; auto.
    - intros k cl e ts _ _ _ HP. exact HP.
    - intros k cl cl' Hs HP c0 Hc0.
      apply sort_timeline_fields in Hs. destruct Hs as (_ & Hg & _).
      apply HP. congruence.
    - exact Hrun.
    - exact Hoc.
    - simpl in *. auto. }
  split; [| split; [| split]].
  - unfold ClusterKnowledge.cluster_task_data in Hrun.
    apply bind_Ok in Hrun. destruct Hrun as (d4 & Hcor & Hrun).
    apply bind_Ok in Hrun. destruct Hrun as (d5 & Hsorted & Hrun).
    inversion Hrun; subst. apply finalize_keys.
    apply dict_mapM_keys in Hsorted. rewrite Hsorted.
    eapply correlate_keys; eauto.
  - intros c task_id Hc Hticket Hne (t & Ht & Hid).
    unfold ClusterKnowledge.cluster_task_data in Hrun.
    apply bind_Ok in Hrun. destruct Hrun as (d4 & Hcor & Hrun).
    apply bind_Ok in Hrun. destruct Hrun as (d5 & Hsorted & Hrun).
    inversion Hrun; subst out; clear Hrun.
    unfold ClusterKnowledge.correlate in Hcor.
    apply bind_Ok in Hcor. destruct Hcor as (d2 & Htickets & Hcor).
    apply bind_Ok in Hcor. destruct Hcor as (d3 & Hcommits & Hemails).
    (* after step 2 the cluster exists and has its ticket *)
    assert (H2 : exists cl, dict_get task_id d2 = Some cl
                            /\ jira cl <> None).
    { apply (tickets_invariant fromisoformat
               (fun seen k cl =>
                  (exists t, In t seen /\ Ticket.id t = k) ->
                  jira cl <> None)) in Htickets.
      - destruct Htickets as (Hnd & Hids & Hall).
        pose proof (Hids t Ht) as Hin. rewrite Hid in Hin.
        apply in_map_iff in Hin. destruct Hin as ([k cl] & Hk & Hin).
        simpl in Hk. subst k. exists cl. split.
        + now apply In_dict_get.
        + apply (Hall _ _ Hin). eauto.
      - intros seen t' k cl Hne' HP (t0 & Ht0 & Hid0). apply HP.
        apply in_app_iff in Ht0. destruct Ht0 as [Ht0 | [<- | []]]; eauto.
        contradiction.
      - intros seen t' ts cl _ _ _ _. simpl. discriminate.
      - intros seen k Hunseen (t0 & Ht0 & Hid0).
        exfalso. now apply (Hunseen t0). }
    (* the commit is taken in step 3 *)
    destruct (in_split _ _ Hc) as (pre & post & ->).
    rewrite foldM_app in Hcommits.
    apply bind_Ok in Hcommits. destruct Hcommits as (dp & Hpre & Hcommits).
    simpl in Hcommits.
    apply bind_Ok in Hcommits. destruct Hcommits as (dc & Hadd & Hpost).
    assert (Hp : exists cl, dict_get task_id dp = Some cl
                            /\ jira cl <> None).
    { revert Hpre.
      apply (foldM_invariant
               (fun s => exists cl, dict_get task_id s = Some cl
                                    /\ jira cl <> None)); auto.
      intros c' s s' _ Hs Hstep.
      eapply (add_commit_holds fromisoformat task_id
                (fun cl => jira cl <> None)); eauto. }
    set (Q := fun cl => jira cl <> None /\ In c (git_commits cl)).
    assert (Q_seed : forall t ts cl, Q cl -> Q (seed t ts cl)).
    { intros t' ts cl [_ Hin]. split; simpl; [discriminate | auto]. }
    assert (Q_push : forall c' ts cl, Q cl -> Q (push_commit c' ts cl)).
    { intros c' ts cl [Hj Hin]. split; simpl; auto.
      apply in_app_iff. auto. }
    assert (Q_attach : forall e ts cl, Q cl -> Q (attach e ts cl)).
    { intros e ts cl [Hj Hin]. split; simpl; auto. }
    assert (Q_sort : forall cl cl', sort_timeline cl = Ok cl' ->
                                    Q cl -> Q cl').
    { intros cl cl' Hs [Hj Hin].
      apply sort_timeline_fields in Hs. destruct Hs as (Ej & Eg & _).
      split; congruence. }
    assert (Hc1 : exists cl, dict_get task_id dc = Some cl /\ Q cl).
    { destruct Hp as (cl & Hget & Hj).
      unfold ClusterKnowledge.add_commit in Hadd.
      rewrite Hticket in Hadd. simpl in Hadd.
      apply String.eqb_neq in Hne. rewrite Hne in Hadd.
      apply bind_Ok in Hadd. destruct Hadd as (ts & _ & Hadd).
      inversion Hadd; subst dc.
      rewrite dict_get_update_same. unfold dict_view. rewrite Hget.
      eexists. split; [reflexivity |]. split; simpl; auto.
      apply in_app_iff. simpl. auto. }
    assert (H3 : exists cl, dict_get task_id d3 = Some cl /\ Q cl).
    { revert Hpost.
      apply (foldM_invariant
               (fun s => exists cl, dict_get task_id s = Some cl /\ Q cl));
        auto.
      intros c' s s' _ Hs Hstep.
      eapply (add_commit_holds fromisoformat task_id Q); eauto. }
    assert (H4 : exists cl, dict_get task_id d4 = Some cl /\ Q cl).
    { revert Hemails.
      apply (foldM_invariant
               (fun s => exists cl, dict_get task_id s = Some cl /\ Q cl));
        auto.
      intros e s s' _ Hs Hstep.
      eapply (add_email_holds fromisoformat task_id Q); eauto. }
    assert (H5 : exists cl, dict_get task_id d5 = Some cl /\ Q cl).
    { eapply (sort_timelines_holds task_id Q); eauto. }
    destruct (holds_finalize task_id Q d5 H5) as (cl & t' & [_ Hin] & _ & Hf).
    { intros cl [Hj _]. exact Hj. }
    exists (final_cluster task_id t' cl). simpl. auto.
  - intros c oc Hoc Hc. destruct (Hlisted c oc Hoc Hc) as [Hk Hin].
    apply truthy_Some in Hk. tauto.
  - intros c oc Hoc Hnone Hc. destruct (Hlisted c oc Hoc Hc) as [Hk _].
    destruct Hnone as [E | E]; rewrite E in Hk; discriminate.
Qed.

End TaskCommits.

Lemma commits_join_their_ticket_cluster_witness :
  ClusterKnowledge.cluster_task_data iso_basic
    Sample.jira_data Sample.git_data Sample.email_data
  = Ok Sample.task_clusters
  /\ exists oc, In oc Sample.task_clusters
                /\ ClusterKnowledge.Final.task_id oc = "PROJ-1"
                /\ In Sample.fix_commit (ClusterKnowledge.Final.git_commits oc).
Proof.
  split; [vm_compute; reflexivity |].
  apply (commits_join_their_ticket_cluster iso_basic
           Sample.jira_data Sample.git_data Sample.email_data
           (out := Sample.task_clusters)).
  - vm_compute; reflexivity.
  - simpl; auto.
  - reflexivity.
  - discriminate.
  - exists Sample.proj1. simpl; auto.
Defined.

(** C5 fails where a ticket carries the empty identifier: the commit that
    names it is dropped by the test on the commit's ticket field. *)
Lemma commit_of_unnamed_ticket_is_dropped :
  In Sample.unnamed_commit [Sample.unnamed_commit]
  /\ In Sample.unnamed_ticket [Sample.unnamed_ticket]
  /\ Commit.ticket Sample.unnamed_commit
     = Some (Ticket.id Sample.unnamed_ticket)
  /\ exists out,
       ClusterKnowledge.cluster_task_data iso_basic
         [Sample.unnamed_ticket] [Sample.unnamed_commit] [] = Ok out
       /\ forall oc, In oc out ->
            ~ In Sample.unnamed_commit (ClusterKnowledge.Final.git_commits oc).
Proof.
  repeat split; simpl; auto.
  eexists. split; [vm_compute; reflexivity |].
  intros oc [<- | []]. simpl. tauto.
Qed.

Section TaskTimeline.

Import ClusterKnowledge.

Variable fromisoformat : string -> option datetime.

Local Abbreviation cluster_task_data := (cluster_task_data fromisoformat).

Lemma tickets_of_In (k : string) (jira_data : list ticket) (t : ticket) :
  In t (tickets_of k jira_data) <-> In t jira_data /\ Ticket.id t = k.
Proof.
  unfold tickets_of. rewrite filter_In.
  split; intros [H E]; split; auto.
  - now apply String.eqb_eq.
  - subst. apply String.eqb_refl.
Qed.

(** C10, as the code has it. The timeline of a returned cluster holds one
    event of type jira for each input ticket filed under the cluster's key,
    stamped with that ticket's creation time, and one event for each commit
    and each email of the cluster: its length is the number of those
    tickets plus the number of commits plus the number of emails. With one
    ticket under the key, that is one jira event and a length of one plus
    commits plus emails. *)
Theorem timeline_counts_seeds_commits_emails
  (jira_data : list ticket) (git_data : list commit)
  (email_data : list email) (out : list Final.cluster) :
  cluster_task_data jira_data git_data email_data = Ok out ->
  forall oc, In oc out ->
    let seeds := tickets_of (Final.task_id oc) jira_data in
    let jira_events := filter (of_type "jira") (Final.timeline oc) in
    seeds <> []
    /\ Permutation (map Event.data jira_events) (map OfTicket seeds)
    /\ (forall ev, In ev jira_events ->
          exists t, In t seeds /\ Event.data ev = OfTicket t
                    /\ fromisoformat (Ticket.created_at t)
                       = Some (Event.timestamp ev)
                    /\ Event.id ev = Final.task_id oc)
    /\ length (Final.timeline oc)
       = length seeds + length (Final.git_commits oc)
         + length (Final.emails oc)
    /\ (forall t, seeds = [t] ->
          (exists ev, jira_events = [ev] /\ Event.data ev = OfTicket t
                      /\ fromisoformat (Ticket.created_at t)
                         = Some (Event.timestamp ev))
          /\ length (Final.timeline oc)
             = 1 + length (Final.git_commits oc)
               + length (Final.emails oc)).
Proof.
  intros Hrun oc Hoc.
  set (P := fun (seen : list ticket) (k : string) (cl : cluster) =>
         (forall t, jira cl = Some t -> In t seen /\ Ticket.id t = k)
         /\ Permutation
              (map Event.data (filter (of_type "jira") (timeline cl)))
              (map OfTicket (tickets_of k seen))
         /\ (forall ev, In ev (filter (of_type "jira") (timeline cl)) ->
               exists t, Ticket.id t = k /\ Event.data ev = OfTicket t
                         /\ fromisoformat (Ticket.created_at t)
                            = Some (Event.timestamp ev)
                         /\ Event.id ev = k)
         /\ length (timeline cl)
            = length (tickets_of k seen) + length (git_commits cl)
              + length (emails cl)).
  destruct (cluster_task_data_invariant_seen fromisoformat P
              jira_data git_data email_data) with (out := out) (oc := oc)
    as (k & cl & t & (HJ & HP & HE & HL) & Hj & ->).
  - (* a ticket filed under another key *)
    intros seen t k cl Hne (HJ & HP & HE & HL).
    assert (E : tickets_of k (seen ++ [t]) = tickets_of k seen).
    { unfold tickets_of. rewrite filter_app. simpl.
      apply String.eqb_neq in Hne. rewrite Hne. apply app_nil_r. }
    unfold P. rewrite E. repeat split; auto.
    + apply in_app_iff. left. now apply HJ.
    + now apply HJ.
  - (* the ticket seeds its cluster *)
    intros seen t ts cl _ Hts (HJ & HP & HE & HL).
    assert (E : tickets_of (Ticket.id t) (seen ++ [t])
                = tickets_of (Ticket.id t) seen ++ [t]).
    { unfold tickets_of. rewrite filter_app. simpl.
      now rewrite String.eqb_refl. }
    unfold P. rewrite E. simpl. rewrite filter_app. simpl.
    rewrite !map_app, !length_app. simpl. repeat split.
    + inversion H; subst. apply in_app_iff. simpl. auto.
    + now inversion H.
    + now apply Permutation_app_tail.
    + intros ev Hev. apply in_app_iff in Hev.
      destruct Hev as [Hev | [<- | []]]; auto.
      exists t. simpl. auto.
    + lia.
  - (* a fresh cluster under a key no ticket has *)
    intros seen k Hunseen. unfold P. simpl.
    assert (E : tickets_of k seen = []).
    { apply filter_none. intros t Ht. apply String.eqb_neq.
      now apply Hunseen. }
    rewrite E. repeat split; auto; try discriminate. intros ev [].
  - (* a commit *)
    intros k cl c ts _ _ _ (HJ & HP & HE & HL).
    unfold P. simpl. rewrite filter_app. simpl. rewrite app_nil_r.
    rewrite !length_app. simpl. repeat split; auto; try apply HJ; auto.
    lia.
  - (* an email *)
    intros k cl e ts _ _ _ (HJ & HP & HE & HL).
    unfold P. simpl. rewrite filter_app. simpl. rewrite app_nil_r.
    rewrite !length_app. simpl. repeat split; auto; try apply HJ; auto.
    lia.
  - (* the sort *)
    intros k cl cl' Hs (HJ & HP & HE & HL).
    apply sort_timeline_fields in Hs.
    destruct Hs as (Ej & Eg & Ee & (_ & Hperm & _)).
    unfold P. rewrite Ej, Eg, Ee.
    pose proof (Permutation_filter (of_type "jira") Hperm) as Hpf.
    repeat split; auto; try apply HJ; auto.
    + rewrite <- HP. now apply Permutation_map.
    + intros ev Hev. apply HE. eapply Permutation_in; eauto.
    + rewrite <- HL. now apply Permutation_length.
  - exact Hrun.
  - exact Hoc.
  - simpl.
    assert (Hseeds : forall ev,
               In ev (filter (of_type "jira") (timeline cl)) ->
               exists t0, In t0 (tickets_of k jira_data)
                          /\ Event.data ev = OfTicket t0
                          /\ fromisoformat (Ticket.created_at t0)
                             = Some (Event.timestamp ev)
                          /\ Event.id ev = k).
    { intros ev Hev. destruct (HE ev Hev) as (t0 & Hid & Hd & Hts & Hi).
      exists t0. repeat split; auto.
      assert (Hin : In (OfTicket t0) (map OfTicket (tickets_of k jira_data))).
      { eapply Permutation_in; [exact HP |].
        rewrite <- Hd. now apply in_map. }
      apply in_map_iff in Hin. destruct Hin as (t1 & E1 & Hin).
      now inversion E1; subst. }
    split; [| split; [| split; [| split]]]; auto.
    + destruct (HJ t Hj) as [Ht Hid].
      intro E. assert (Hin : In t (tickets_of k jira_data))
        by now apply tickets_of_In.
      rewrite E in Hin. destruct Hin.
    + intros t0 E. rewrite E in *. simpl in HL. split; auto.
      apply Permutation_sym, Permutation_length_1_inv in HP.
      destruct (filter (of_type "jira") (timeline cl)) as [| ev [| ev' r]];
        try discriminate.
      exists ev. simpl in HP. inversion HP as [Hd].
      destruct (Hseeds ev (or_introl eq_refl)) as (t1 & _ & Hd' & Hts & _).
      rewrite Hd in Hd'. inversion Hd'; subst. auto.
Qed.

End TaskTimeline.

Lemma timeline_counts_seeds_commits_emails_witness :
  ClusterKnowledge.cluster_task_data iso_basic
    Sample.jira_data Sample.git_data Sample.email_data
  = Ok Sample.task_clusters
  /\ forall oc, In oc Sample.task_clusters ->
       length (ClusterKnowledge.Final.timeline oc)
       = length (ClusterKnowledge.tickets_of
                   (ClusterKnowledge.Final.task_id oc) Sample.jira_data)
         + length (ClusterKnowledge.Final.git_commits oc)
         + length (ClusterKnowledge.Final.emails oc).
Proof.
  split; [vm_compute; reflexivity |].
  intros oc Hoc.
  apply (timeline_counts_seeds_commits_emails iso_basic
           Sample.jira_data Sample.git_data Sample.email_data
           (out := Sample.task_clusters));
    [vm_compute; reflexivity | exact Hoc].
Defined.

(** C10 fails where two tickets carry one identifier: their cluster has two
    events of type jira, and its timeline is one longer than one plus its
    commits plus its emails. *)
Lemma refiled_ticket_adds_a_jira_event :
  exists oc,
    ClusterKnowledge.cluster_task_data iso_basic
      [Sample.proj1; Sample.proj1_refiled] [] [] = Ok [oc]
    /\ length (filter (of_type "jira") (ClusterKnowledge.Final.timeline oc))
       = 2
    /\ length (ClusterKnowledge.Final.timeline oc)
       <> 1 + length (ClusterKnowledge.Final.git_commits oc)
          + length (ClusterKnowledge.Final.emails oc).
Proof.
  eexists. split; [vm_compute; reflexivity |].
  split; [reflexivity | discriminate].
Qed.

(** C1. The identifiers are looked for in the subject and the body joined
    end to end, so a token can straddle the two. Here the subject shows
    PROJ-1 and the body shows no identifier, yet the email goes to the
    cluster of PROJ-12 and not to that of PROJ-1. *)
Theorem joined_subject_and_body_misplace_email :
  findall_task_id (Email.subject Sample.red_build_email) = ["PROJ-1"]
  /\ findall_task_id (Email.body Sample.red_build_email) = []
  /\ findall_task_id (Email.subject Sample.red_build_email
                      ++ Email.body Sample.red_build_email)%string
     = ["PROJ-12"]
  /\ exists c1 c12,
       ClusterKnowledge.cluster_task_data iso_basic
         [Sample.proj1; Sample.proj12] [] [Sample.red_build_email]
       = Ok [c1; c12]
       /\ ClusterKnowledge.Final.task_id c1 = "PROJ-1"
       /\ ClusterKnowledge.Final.emails c1 = []
       /\ ClusterKnowledge.Final.task_id c12 = "PROJ-12"
       /\ ClusterKnowledge.Final.emails c12 = [Sample.red_build_email].
Proof.
  split; [reflexivity |]. split; [reflexivity |]. split; [reflexivity |].
  eexists. eexists. split; [vm_compute; reflexivity |].
  repeat split.
Qed.

(** ** The employee correlator *)

Lemma mem_app (x : string) (l l' : list string) :
  mem x (l ++ l') = mem x l || mem x l'.
Proof. unfold mem. apply existsb_app. Qed.

Lemma py_set_from_snoc (seen l : list string) (x : string) :
  py_set_from seen (l ++ [x]) =
  py_set_from seen l ++ (if mem x seen || mem x l then [] else [x]).
Proof.
  revert seen. induction l as [| y r IH]; intro seen; simpl.
  - rewrite orb_false_r. now destruct (mem x seen).
  - destruct (mem y seen) eqn:Ey; rewrite IH; simpl.
    + destruct (x =? y) eqn:Exy; simpl; auto.
      apply String.eqb_eq in Exy. subst. now rewrite Ey.
    + f_equal. f_equal.
      destruct (x =? y), (mem x seen), (mem x r); reflexivity.
Qed.

Lemma py_set_snoc (l : list string) (x : string) :
  py_set (l ++ [x]) = set_add x (py_set l).
Proof.
  unfold py_set, set_add. rewrite py_set_from_snoc. simpl.
  destruct (mem x l) eqn:E.
  - apply mem_In in E. apply (py_set_In l x) in E. apply mem_In in E.
    unfold py_set in E. rewrite E. apply app_nil_r.
  - destruct (mem x (py_set_from [] l)) eqn:E'; auto.
    apply mem_In in E'. apply (py_set_In l x) in E'. apply mem_In in E'.
    congruence.
Qed.

Section EmployeeLoops.

Import ClusterEmployee.

Variable fromisoformat : string -> option datetime.

Local Abbreviation file_under := (file_under fromisoformat).
Local Abbreviation add_ticket := (add_ticket fromisoformat).
Local Abbreviation add_commit := (add_commit fromisoformat).
Local Abbreviation add_email := (add_email fromisoformat).
Local Abbreviation correlate := (correlate fromisoformat).
Local Abbreviation cluster_employee_data :=
  (cluster_employee_data fromisoformat).

Lemma file_under_filed (person when : string)
  (f : datetime -> cluster -> cluster) (d d' : employee_clusters)
  (people : list string) :
  (forall ts cl, no_activity (f ts cl) = false) ->
  file_under person when f d = Ok d' ->
  filed d people -> filed d' (people ++ [person]).
Proof.
  intros Hf Hrun [Hkeys Hall]. unfold ClusterEmployee.file_under in Hrun.
  inv_ok. split.
  - now rewrite dict_update_keys, py_set_snoc, Hkeys.
  - apply dict_all_update; auto.
Qed.

Lemma busy_app {A : Type} (l : list A) (x : A) : l ++ [x] <> [].
Proof. now destruct l. Qed.

Lemma assign_busy (t : ticket) (ts : datetime) (cl : cluster) :
  no_activity (assign t ts cl) = false.
Proof.
  unfold no_activity. simpl.
  now destruct (jira_assigned cl).
Qed.

Lemma resolve_busy (t : ticket) (ts : datetime) (cl : cluster) :
  no_activity (resolve t ts cl) = false.
Proof.
  unfold no_activity. simpl.
  destruct (jira_assigned cl); auto. now destruct (jira_resolved cl).
Qed.

Lemma authored_busy (c : commit) (ts : datetime) (cl : cluster) :
  no_activity (authored c ts cl) = false.
Proof.
  unfold no_activity. simpl.
  destruct (jira_assigned cl); auto. destruct (jira_resolved cl); auto.
  now destruct (git_commits cl).
Qed.

Lemma sent_busy (e : email) (ts : datetime) (cl : cluster) :
  no_activity (sent e ts cl) = false.
Proof.
  unfold no_activity. simpl.
  destruct (jira_assigned cl); auto. destruct (jira_resolved cl); auto.
  destruct (git_commits cl); auto. now destruct (emails_sent cl).
Qed.

Lemma received_busy (e : email) (ts : datetime) (cl : cluster) :
  no_activity (received e ts cl) = false.
Proof.
  unfold no_activity. simpl.
  destruct (jira_assigned cl); auto. destruct (jira_resolved cl); auto.
  destruct (git_commits cl); auto. destruct (emails_sent cl); auto.
  now destruct (emails_received cl).
Qed.

Lemma add_ticket_filed (t : ticket) (d d' : employee_clusters)
  (people : list string) :
  add_ticket t d = Ok d' ->
  filed d people -> filed d' (people ++ ticket_people t).
Proof.
  unfold ClusterEmployee.add_ticket, ticket_people. intros Hrun Hd.
  apply bind_Ok in Hrun. destruct Hrun as (d1 & H1 & H2).
  assert (Hd1 : filed d1
            (people ++ match truthy (Ticket.assignee t) with
                       | Some a => [a]
                       | None => []
                       end)).
  { destruct (truthy (Ticket.assignee t)).
    - eapply file_under_filed; eauto. apply assign_busy.
    - inv_ok. now rewrite app_nil_r. }
  rewrite app_assoc.
  destruct (truthy (Ticket.resolution t)) as [res |];
    [destruct (search_resolver res) |].
  - eapply file_under_filed; eauto. apply resolve_busy.
  - inv_ok. now rewrite app_nil_r.
  - inv_ok. now rewrite app_nil_r.
Qed.

Lemma add_commit_filed (c : commit) (d d' : employee_clusters)
  (people : list string) :
  add_commit c d = Ok d' ->
  filed d people -> filed d' (people ++ commit_people c).
Proof.
  unfold ClusterEmployee.add_commit, commit_people. intros Hrun Hd.
  destruct (truthy (Commit.author c)).
  - eapply file_under_filed; eauto. apply authored_busy.
  - inv_ok. now rewrite app_nil_r.
Qed.

Lemma add_email_filed (e : email) (d d' : employee_clusters)
  (people : list string) :
  add_email e d = Ok d' ->
  filed d people -> filed d' (people ++ email_people e).
Proof.
  unfold ClusterEmployee.add_email, email_people. intros Hrun Hd.
  apply bind_Ok in Hrun. destruct Hrun as (d1 & H1 & H2).
  assert (Hd1 : filed d1
            (people ++ match truthy (Email.sender e) with
                       | Some a => [a]
                       | None => []
                       end)).
  { destruct (truthy (Email.sender e)).
    - eapply file_under_filed; eauto. apply sent_busy.
    - inv_ok. now rewrite app_nil_r. }
  rewrite app_assoc.
  apply (foldM_invariant_seen
           (fun seen s =>
              filed s ((people ++ match truthy (Email.sender e) with
                                  | Some a => [a]
                                  | None => []
                                  end) ++ seen))
           (fun recipient =>
              file_under recipient (Email.timestamp e) (received e))
           (Email.recipients e)) with (seen := []) (s := d1); auto.
  - intros seen r s s' _ Hs Hstep. rewrite app_assoc.
    eapply file_under_filed; eauto. apply received_busy.
  - now rewrite app_nil_r.
Qed.

Lemma foldM_filed {A : Type} (body : A -> employee_clusters ->
                                       result employee_clusters)
  (who : A -> list string) (l : list A) :
  (forall a s s' people,
      body a s = Ok s' -> filed s people -> filed s' (people ++ who a)) ->
  forall d d' people,
    foldM body l d = Ok d' -> filed d people ->
    filed d' (people ++ flat_map who l).
Proof.
  intro Hbody. induction l as [| a r IH]; simpl; intros d d' people Hrun Hd.
  - inv_ok. now rewrite app_nil_r.
  - apply bind_Ok in Hrun. destruct Hrun as (d1 & H1 & H2).
    rewrite app_assoc. eapply IH; eauto.
Qed.

Lemma correlate_filed (jira_data : list ticket) (git_data : list commit)
  (email_data : list email) (d : employee_clusters) :
  correlate jira_data git_data email_data = Ok d ->
  filed d (encounters jira_data git_data email_data).
Proof.
  unfold ClusterEmployee.correlate, encounters. intro Hrun.
  apply bind_Ok in Hrun. destruct Hrun as (d2 & H2 & Hrun).
  apply bind_Ok in Hrun. destruct Hrun as (d3 & H3 & H4).
  apply (foldM_filed add_ticket ticket_people) with (people := []) in H2;
    [| intros; eapply add_ticket_filed; eauto
     | split; [reflexivity | apply dict_all_nil]].
  apply (foldM_filed add_commit commit_people)
    with (people := [] ++ flat_map ticket_people jira_data) in H3;
    [| intros; eapply add_commit_filed; eauto | exact H2].
  apply (foldM_filed add_email email_people)
    with (people := ([] ++ flat_map ticket_people jira_data)
                    ++ flat_map commit_people git_data) in H4;
    [| intros; eapply add_email_filed; eauto | exact H3].
  simpl in H4. now rewrite <- app_assoc in H4.
Qed.

End EmployeeLoops.

Section EmployeeShape.

Import ClusterEmployee.

Lemma employee_sort_timeline_fields (cl cl' : cluster) :
  sort_timeline cl = Ok cl' ->
  jira_assigned cl' = jira_assigned cl
  /\ jira_resolved cl' = jira_resolved cl
  /\ git_commits cl' = git_commits cl
  /\ emails_sent cl' = emails_sent cl
  /\ emails_received cl' = emails_received cl
  /\ chronological (timeline cl) (timeline cl').
Proof.
  unfold sort_timeline. intro H. inv_ok. simpl.
  repeat (split; [reflexivity |]).
  now apply sort_by_datetime_chronological.
Qed.

Lemma employee_finalize_In (d : employee_clusters) (oc : Final.cluster) :
  In oc (finalize d) ->
  exists k cl, In (k, cl) d /\ oc = final_cluster k cl.
Proof.
  induction d as [| [k cl] r IH]; simpl; [tauto |].
  destruct (no_activity cl); simpl.
  - intro H. destruct (IH H) as (k' & cl' & Hin & E). eauto.
  - intros [<- | H]; [eauto |].
    destruct (IH H) as (k' & cl' & Hin & E). eauto.
Qed.

(** No one that has a cluster is left out of the final list. *)
Lemma employee_finalize_all (d : employee_clusters) :
  dict_all (fun _ cl => no_activity cl = false) d ->
  map Final.employee (finalize d) = map fst d.
Proof.
  induction d as [| [k cl] r IH]; simpl; auto.
  intro Hall. rewrite (Hall k cl) by now left.
  simpl. f_equal. apply IH. intros k' cl' H. apply (Hall k' cl'). now right.
Qed.

End EmployeeShape.

(** ** Orderings of the two correlators *)

Section Orderings.

Variable fromisoformat : string -> option datetime.

(** C9. In every cluster that [cluster_task_data] or
    [cluster_employee_data] returns, each timeline event is stamped no
    later than the next one, and the timeline is the one the loops built
    for that key, rearranged so that events of equal timestamp keep the
    order in which they were appended. *)
Theorem timelines_are_chronological :
  (forall jira_data git_data email_data out,
      ClusterKnowledge.cluster_task_data fromisoformat
        jira_data git_data email_data = Ok out ->
      exists d,
        ClusterKnowledge.correlate fromisoformat
          jira_data git_data email_data = Ok d
        /\ forall oc, In oc out ->
             exists cl,
               In (ClusterKnowledge.Final.task_id oc, cl) d
               /\ chronological (ClusterKnowledge.timeline cl)
                                (ClusterKnowledge.Final.timeline oc))
  /\ (forall jira_data git_data email_data out,
        ClusterEmployee.cluster_employee_data fromisoformat
          jira_data git_data email_data = Ok out ->
        exists d,
          ClusterEmployee.correlate fromisoformat
            jira_data git_data email_data = Ok d
          /\ forall oc, In oc out ->
               exists cl,
                 In (ClusterEmployee.Final.employee oc, cl) d
                 /\ chronological (ClusterEmployee.timeline cl)
                                  (ClusterEmployee.Final.timeline oc)).
Proof.
  split; intros jira_data git_data email_data out Hrun.
  - unfold ClusterKnowledge.cluster_task_data in Hrun.
    apply bind_Ok in Hrun. destruct Hrun as (d4 & Hcor & Hrun).
    apply bind_Ok in Hrun. destruct Hrun as (d5 & Hsorted & Hrun).
    inversion Hrun; subst out; clear Hrun.
    exists d4. split; auto. intros oc Hoc.
    apply finalize_In in Hoc. destruct Hoc as (k & cl5 & t & Hin & _ & ->).
    destruct (dict_mapM_In _ _ _ _ Hsorted Hin) as (cl4 & Hin4 & Hs).
    exists cl4. split; auto.
    now apply sort_timeline_fields in Hs.
  - unfold ClusterEmployee.cluster_employee_data in Hrun.
    apply bind_Ok in Hrun. destruct Hrun as (d4 & Hcor & Hrun).
    apply bind_Ok in Hrun. destruct Hrun as (d5 & Hsorted & Hrun).
    inversion Hrun; subst out; clear Hrun.
    exists d4. split; auto. intros oc Hoc.
    apply (Permutation_in _ (sort_by_desc_perm _ _)) in Hoc.
    apply employee_finalize_In in Hoc.
    destruct Hoc as (k & cl5 & Hin & ->).
    destruct (dict_mapM_In _ _ _ _ Hsorted Hin) as (cl4 & Hin4 & Hs).
    exists cl4. split; auto.
    now apply employee_sort_timeline_fields in Hs.
Qed.

Import ClusterEmployee.

(** C7. The list [cluster_employee_data] returns runs from the largest
    [total_activity_count] to the smallest; each total is the sum of the
    five counts of its cluster, which are the lengths of the five lists;
    and clusters of equal total stand in the order in which the loops first
    met their employees. *)
Theorem employee_clusters_sorted_by_total
  (jira_data : list ticket) (git_data : list commit)
  (email_data : list email) (out : list Final.cluster) :
  cluster_employee_data fromisoformat jira_data git_data email_data
  = Ok out ->
  (forall i a b,
      nth_error out i = Some a -> nth_error out (S i) = Some b ->
      Summary.total_activity_count (Final.activity_summary b)
      <= Summary.total_activity_count (Final.activity_summary a))
  /\ (forall c, In c out ->
        let s := Final.activity_summary c in
        Summary.total_activity_count s
        = Summary.jira_tickets_assigned s + Summary.jira_tickets_resolved s
          + Summary.git_commits s + Summary.emails_sent s
          + Summary.emails_received s
        /\ Summary.jira_tickets_assigned s = length (Final.jira_assigned c)
        /\ Summary.jira_tickets_resolved s = length (Final.jira_resolved c)
        /\ Summary.git_commits s = length (Final.git_commits c)
        /\ Summary.emails_sent s = length (Final.emails_sent c)
        /\ Summary.emails_received s = length (Final.emails_received c))
  /\ exists met,
       map Final.employee met
       = py_set (encounters jira_data git_data email_data)
       /\ Permutation out met
       /\ forall n,
            filter (fun c => (Summary.total_activity_count
                                (Final.activity_summary c) =? n)%nat) out
            = filter (fun c => (Summary.total_activity_count
                                  (Final.activity_summary c) =? n)%nat) met.
Proof.
  intro Hrun. unfold cluster_employee_data in Hrun.
  apply bind_Ok in Hrun. destruct Hrun as (d4 & Hcor & Hrun).
  apply bind_Ok in Hrun. destruct Hrun as (d5 & Hsorted & Hrun).
  inversion Hrun; subst out; clear Hrun.
  split; [| split].
  - intros i a b Ha Hb.
    pose proof (sort_by_desc_adjacent total (finalize d5) _ Ha Hb) as H.
    unfold total in H. lia.
  - intros c Hc.
    apply (Permutation_in _ (sort_by_desc_perm _ _)) in Hc.
    apply employee_finalize_In in Hc. destruct Hc as (k & cl & _ & ->).
    simpl. repeat split; lia.
  - exists (finalize d5). split; [| split].
    + apply correlate_filed in Hcor. destruct Hcor as [Hkeys Hbusy].
      rewrite employee_finalize_all.
      * unfold sort_timelines in Hsorted.
        apply dict_mapM_keys in Hsorted. congruence.
      * unfold sort_timelines in Hsorted.
        eapply dict_all_mapM; eauto.
        intros k cl cl' Hcl Hs. simpl in *.
        apply employee_sort_timeline_fields in Hs.
        destruct Hs as (E1 & E2 & E3 & E4 & E5 & _).
        unfold no_activity in *. now rewrite E1, E2, E3, E4, E5.
    + apply sort_by_desc_perm.
    + intro n. apply sort_by_desc_stable with (k := Z.of_nat n).
      intros c Hc. apply Nat.eqb_eq in Hc. unfold total. now rewrite Hc.
Qed.

End Orderings.

Lemma timelines_are_chronological_witness :
  (ClusterKnowledge.cluster_task_data iso_basic
     Sample.jira_data Sample.git_data Sample.email_data
   = Ok Sample.task_clusters
   /\ ClusterEmployee.cluster_employee_data iso_basic
        Sample.jira_data Sample.git_data Sample.email_data
      = Ok Sample.employee_clusters)
  /\ (exists d,
        ClusterKnowledge.correlate iso_basic
          Sample.jira_data Sample.git_data Sample.email_data = Ok d
        /\ forall oc, In oc Sample.task_clusters ->
             exists cl,
               In (ClusterKnowledge.Final.task_id oc, cl) d
               /\ chronological (ClusterKnowledge.timeline cl)
                                (ClusterKnowledge.Final.timeline oc))
  /\ (exists d,
        ClusterEmployee.correlate iso_basic
          Sample.jira_data Sample.git_data Sample.email_data = Ok d
        /\ forall oc, In oc Sample.employee_clusters ->
             exists cl,
               In (ClusterEmployee.Final.employee oc, cl) d
               /\ chronological (ClusterEmployee.timeline cl)
                                (ClusterEmployee.Final.timeline oc)).
Proof.
  split; [split; vm_compute; reflexivity |].
  destruct (timelines_are_chronological iso_basic) as [Htask Hemp].
  split.
  - apply Htask. vm_compute; reflexivity.
  - apply Hemp. vm_compute; reflexivity.
Defined.

Lemma employee_clusters_sorted_by_total_witness :
  ClusterEmployee.cluster_employee_data iso_basic
    Sample.jira_data Sample.git_data Sample.email_data
  = Ok Sample.employee_clusters
  /\ map ClusterEmployee.Final.employee Sample.employee_clusters
     = ["alice"; "bob"; "carol"; "dave"]
  /\ forall i a b,
       nth_error Sample.employee_clusters i = Some a ->
       nth_error Sample.employee_clusters (S i) = Some b ->
       ClusterEmployee.Summary.total_activity_count
         (ClusterEmployee.Final.activity_summary b)
       <= ClusterEmployee.Summary.total_activity_count
            (ClusterEmployee.Final.activity_summary a).
Proof.
  split; [vm_compute; reflexivity |].
  split; [vm_compute; reflexivity |].
  apply (employee_clusters_sorted_by_total iso_basic
           Sample.jira_data Sample.git_data Sample.email_data
           (out := Sample.employee_clusters)).
  vm_compute; reflexivity.
Defined.

(** ** Role heuristics *)

Section Roles.

Import ClusterEmployee.

(** A developer by the first rule is no communicator by the second. *)
Lemma developer_not_communicator (e : Final.cluster) :
  developer_rule e = true -> communicator_rule e = false.
Proof.
  unfold developer_rule, communicator_rule. intro H.
  apply Nat.ltb_lt in H. apply Nat.ltb_ge. lia.
Qed.

Lemma categorize_fold (l : list Final.cluster) (cs : categories) :
  fold_left (fun cs e => categorize e cs) l cs =
  {| developers :=
       developers cs ++ map Final.employee (filter developer_rule l);
     managers :=
       managers cs ++ map Final.employee (filter manager_rule l);
     communicators :=
       communicators cs ++ map Final.employee (filter communicator_rule l) |}.
Proof.
  revert cs. induction l as [| e r IH]; intro cs; simpl.
  - rewrite !app_nil_r. now destruct cs.
  - rewrite IH. unfold categorize, manager_rule.
    fold (developer_rule e). fold (communicator_rule e).
    destruct (developer_rule e) eqn:Ed.
    + rewrite (developer_not_communicator _ Ed). simpl.
      now rewrite <- app_assoc.
    + destruct (communicator_rule e) eqn:Ec; simpl; auto.
      destruct ((0 <? _)%nat && _); simpl; now rewrite <- !app_assoc.
Qed.

(** C3. The three lists of [analyze_employee_clusters] are the employees,
    in input order, that pass the developer rule, the communicator rule and
    the manager rule, each rule read on its own: more commits than emails
    sent and received together; more emails sent than twice the commits;
    a communicator with an assigned ticket and no commit. In the sample
    team one employee is in no list, two are in one, and one is in two. *)
Theorem role_lists_follow_the_three_rules :
  forall employee_clusters name,
    let stats := analyze_employee_clusters employee_clusters in
    (In name (Stats.potential_developers stats) <->
     exists e, In e employee_clusters /\ Final.employee e = name
       /\ Summary.git_commits (Final.activity_summary e)
          > Summary.emails_sent (Final.activity_summary e)
            + Summary.emails_received (Final.activity_summary e))
    /\ (In name (Stats.potential_communicators stats) <->
        exists e, In e employee_clusters /\ Final.employee e = name
          /\ Summary.emails_sent (Final.activity_summary e)
             > 2 * Summary.git_commits (Final.activity_summary e))
    /\ (In name (Stats.potential_managers stats) <->
        exists e, In e employee_clusters /\ Final.employee e = name
          /\ Summary.emails_sent (Final.activity_summary e)
             > 2 * Summary.git_commits (Final.activity_summary e)
          /\ Summary.jira_tickets_assigned (Final.activity_summary e) >= 1
          /\ Summary.git_commits (Final.activity_summary e) = 0)
    /\ Stats.potential_developers stats
       = map Final.employee (filter developer_rule employee_clusters)
    /\ Stats.potential_communicators stats
       = map Final.employee (filter communicator_rule employee_clusters)
    /\ Stats.potential_managers stats
       = map Final.employee (filter manager_rule employee_clusters)
    /\ map Final.employee Sample.team = ["quiet"; "coder"; "writer"; "lead"]
    /\ Stats.potential_developers (analyze_employee_clusters Sample.team)
       = ["coder"]
    /\ Stats.potential_communicators (analyze_employee_clusters Sample.team)
       = ["writer"; "lead"]
    /\ Stats.potential_managers (analyze_employee_clusters Sample.team)
       = ["lead"].
Proof.
  intros l name stats.
  assert (Hd : Stats.potential_developers stats
               = map Final.employee (filter developer_rule l)).
  { unfold stats, analyze_employee_clusters. simpl.
    now rewrite categorize_fold. }
  assert (Hc : Stats.potential_communicators stats
               = map Final.employee (filter communicator_rule l)).
  { unfold stats, analyze_employee_clusters. simpl.
    now rewrite categorize_fold. }
  assert (Hm : Stats.potential_managers stats
               = map Final.employee (filter manager_rule l)).
  { unfold stats, analyze_employee_clusters. simpl.
    now rewrite categorize_fold. }
  repeat split; auto.
  - rewrite Hd. intro H. apply in_map_iff in H.
    destruct H as (e & <- & He). apply filter_In in He.
    destruct He as [He Hr]. exists e. repeat split; auto.
    unfold developer_rule in Hr. apply Nat.ltb_lt in Hr. lia.
  - rewrite Hd. intros (e & He & <- & Hr). apply in_map, filter_In.
    split; auto. unfold developer_rule. apply Nat.ltb_lt. lia.
  - rewrite Hc. intro H. apply in_map_iff in H.
    destruct H as (e & <- & He). apply filter_In in He.
    destruct He as [He Hr]. exists e. repeat split; auto.
    unfold communicator_rule in Hr. apply Nat.ltb_lt in Hr. lia.
  - rewrite Hc. intros (e & He & <- & Hr). apply in_map, filter_In.
    split; auto. unfold communicator_rule. apply Nat.ltb_lt. lia.
  - rewrite Hm. intro H. apply in_map_iff in H.
    destruct H as (e & <- & He). apply filter_In in He.
    destruct He as [He Hr]. exists e.
    unfold manager_rule, communicator_rule in Hr.
    apply andb_true_iff in Hr. destruct Hr as [H1 H2].
    apply andb_true_iff in H2. destruct H2 as [H2 H3].
    apply Nat.ltb_lt in H1, H2. apply Nat.eqb_eq in H3.
    repeat split; auto; lia.
  - rewrite Hm. intros (e & He & <- & H1 & H2 & H3).
    apply in_map, filter_In. split; auto.
    unfold manager_rule, communicator_rule.
    apply andb_true_iff. split; [apply Nat.ltb_lt; lia |].
    apply andb_true_iff. split; [apply Nat.ltb_lt; lia |].
    now apply Nat.eqb_eq.
Qed.

End Roles.

(** ** The collaboration graph *)

(** Looking a key up in the items of a dictionary, after a sort. *)
Lemma find_sorted_items {V B : Type} (mk : string * V -> B)
  (name : B -> string) (k : string) (d : dict V) (l : list B) :
  (forall kv, name (mk kv) = fst kv) ->
  NoDup (map fst d) ->
  Permutation l (map mk d) ->
  find (fun b => name b =? k) l =
  option_map (fun v => mk (k, v)) (dict_get k d).
Proof.
  intros Hname Hnd Hperm.
  rewrite <- (find_items mk name k d Hname).
  apply find_permutation; [now apply Permutation_sym |].
  intros x y Hx Hy Px Py.
  apply in_map_iff in Hx. destruct Hx as ([k1 v1] & <- & H1).
  apply in_map_iff in Hy. destruct Hy as ([k2 v2] & <- & H2).
  rewrite Hname in Px, Py. simpl in Px, Py.
  apply String.eqb_eq in Px, Py. subst k1 k2.
  apply In_dict_get in H1; auto. apply In_dict_get in H2; auto.
  congruence.
Qed.

Section Collaboration.

Import ClusterEmployee.

Lemma weight_bump (a b : string) (g : graph) (x y : string) :
  weight (bump a b g) x y =
  weight g x y + (if (x =? a) && (y =? b) then 1 else 0).
Proof.
  unfold weight, bump. rewrite dict_view_update.
  destruct (x =? a) eqn:Ex; simpl.
  - apply String.eqb_eq in Ex. subst x. rewrite dict_view_update.
    destruct (y =? b) eqn:Ey; [| lia].
    apply String.eqb_eq in Ey. subst y. lia.
  - lia.
Qed.

Lemma weight_link (a b : string) (g : graph) (x y : string) :
  weight (link a b g) x y =
  weight g x y + (if (x =? a) && (y =? b) then 1 else 0)
  + (if (x =? b) && (y =? a) then 1 else 0).
Proof. unfold link. now rewrite !weight_bump. Qed.

Lemma link_symmetric (a b : string) (g : graph) :
  symmetric g -> symmetric (link a b g).
Proof.
  intros Hg x y. rewrite !weight_link, (Hg x y).
  rewrite (andb_comm (y =? a)), (andb_comm (y =? b)). lia.
Qed.

Lemma bump_well_keyed (a b : string) (g : graph) :
  well_keyed g -> well_keyed (bump a b g).
Proof.
  intros [Hk Hrows]. unfold bump. split.
  - now apply dict_update_NoDup.
  - apply dict_all_update; auto.
    + intros row Hin Hrow. now apply dict_update_NoDup.
    + intros _. apply dict_update_NoDup. constructor.
Qed.

Lemma link_well_keyed (a b : string) (g : graph) :
  well_keyed g -> well_keyed (link a b g).
Proof. intro H. unfold link. now apply bump_well_keyed, bump_well_keyed. Qed.

(** Every step of the construction links two persons or does nothing. *)
Lemma collaboration_graph_invariant (P : graph -> Prop)
  (git_data : list commit) (email_data : list email) :
  P [] ->
  (forall a b g, P g -> P (link a b g)) ->
  P (collaboration_graph git_data email_data).
Proof.
  intros Hnil Hlink. unfold collaboration_graph.
  apply fold_left_invariant.
  - intros [ticket contributors] g Hg. simpl.
    unfold add_ticket_pairs.
    destruct (1 <? length contributors)%nat; auto.
    revert g Hg. induction contributors as [| a r IH]; simpl; auto.
    intros g Hg. apply IH. apply fold_left_invariant; auto.
  - apply fold_left_invariant; auto.
    intros e g Hg. unfold add_exchange.
    apply fold_left_invariant; auto.
    intros r g' Hg'. unfold add_recipient.
    destruct (truthy (Email.sender e)); auto.
    destruct (truthy (Some r)); auto.
    destruct (_ =? _); auto.
Qed.

Lemma collaboration_graph_symmetric (git_data : list commit)
  (email_data : list email) :
  symmetric (collaboration_graph git_data email_data).
Proof.
  apply collaboration_graph_invariant.
  - intros a b. reflexivity.
  - intros a b g. apply link_symmetric.
Qed.

Lemma collaboration_graph_well_keyed (git_data : list commit)
  (email_data : list email) :
  well_keyed (collaboration_graph git_data email_data).
Proof.
  apply collaboration_graph_invariant.
  - split; [constructor | apply dict_all_nil].
  - intros a b g. apply link_well_keyed.
Qed.

(** The networks returned show the weights of the graph. *)
Lemma edge_weight_graph (employee_clusters : list Final.cluster)
  (jira_data : list ticket) (git_data : list commit)
  (email_data : list email) (a b : string) :
  edge_weight (identify_collaboration_networks employee_clusters jira_data
                 git_data email_data) a b
  = weight (collaboration_graph git_data email_data) a b.
Proof.
  destruct (collaboration_graph_well_keyed git_data email_data)
    as [Hk Hrows].
  unfold edge_weight, identify_collaboration_networks, weight, dict_view.
  set (g := collaboration_graph git_data email_data) in *.
  rewrite (find_sorted_items network_of Network.employee a g);
    [| reflexivity | exact Hk | apply sort_by_desc_perm].
  destruct (dict_get a g) as [row |] eqn:Hrow; simpl; auto.
  rewrite (find_sorted_items
             (fun cs => {| Network.colleague := fst cs;
                           Network.strength := snd cs |})
             Network.colleague b row);
    [| reflexivity | | apply sort_by_desc_perm].
  - now destruct (dict_get b row).
  - apply (Hrows a row). now apply dict_get_In.
Qed.

(** C8. In the networks [identify_collaboration_networks] returns, the
    weight of the edge from A to B is the weight of the edge from B to
    A, for every two persons A and B and every input. *)
Theorem collaboration_networks_are_symmetric :
  forall employee_clusters jira_data git_data email_data a b,
    edge_weight (identify_collaboration_networks employee_clusters jira_data
                   git_data email_data) a b
    = edge_weight (identify_collaboration_networks employee_clusters
                     jira_data git_data email_data) b a.
Proof.
  intros. rewrite !edge_weight_graph.
  apply collaboration_graph_symmetric.
Qed.

End Collaboration.

(** ** Skill extraction *)

Section Skills.

Import ClusterEmployee.

Lemma view_scan (vocabulary : list string) (text term : string)
  (skills : dict nat) :
  dict_view 0 (scan vocabulary text skills) term
  = dict_view 0 skills term + hits vocabulary text term.
Proof.
  unfold scan, hits. revert skills.
  induction vocabulary as [| v r IH]; intro skills; simpl; [lia |].
  rewrite IH. destruct (contains v text); simpl.
  - rewrite dict_view_update, (String.eqb_sym term v).
    destruct (v =? term) eqn:E; simpl; [| lia].
    apply String.eqb_eq in E. subst. lia.
  - rewrite andb_false_r. lia.
Qed.

Lemma scan_keys (vocabulary : list string) (text : string)
  (skills : dict nat) :
  NoDup (map fst skills) -> NoDup (map fst (scan vocabulary text skills)).
Proof.
  unfold scan. intro Hnd.
  apply (fold_left_invariant (fun s => NoDup (map fst s))); auto.
  intros v s Hs. destruct (contains v text); auto.
  now apply dict_update_NoDup.
Qed.

Lemma skill_counts_keys (e : Final.cluster) :
  NoDup (map fst (skill_counts e)).
Proof.
  unfold skill_counts.
  apply (fold_left_invariant (fun s => NoDup (map fst s))).
  - intros t s Hs. now apply scan_keys.
  - apply (fold_left_invariant (fun s => NoDup (map fst s))).
    + intros c s Hs. unfold scan_commit. now apply scan_keys, scan_keys.
    + constructor.
Qed.

(** A technology term is one word of its vocabulary and no action term. *)
Lemma technology_hits (term text : string) :
  In term technologies ->
  hits technologies text term = (if contains term text then 1 else 0)
  /\ hits actions text term = 0.
Proof.
  intro H. unfold technologies in H. simpl in H.
  repeat (destruct H as [<- | H];
          [unfold hits; simpl; split;
           [match goal with
            | |- context [contains ?t text] => now destruct (contains t text)
            end
           | reflexivity] |]).
  destruct H.
Qed.

Lemma action_hits (term text : string) :
  In term actions ->
  hits actions text term = (if contains term text then 1 else 0)
  /\ hits technologies text term = 0.
Proof.
  intro H. unfold actions in H. simpl in H.
  repeat (destruct H as [<- | H];
          [unfold hits; simpl; split;
           [match goal with
            | |- context [contains ?t text] => now destruct (contains t text)
            end
           | reflexivity] |]).
  destruct H.
Qed.

Lemma texts_with_cons (term text : string) (texts : list string) :
  texts_with term (text :: texts)
  = (if contains term text then 1 else 0) + texts_with term texts.
Proof. unfold texts_with. simpl. now destruct (contains term text). Qed.

Lemma view_commits (term : string) (commits : list commit)
  (skills : dict nat) :
  dict_view 0 (fold_left (fun skills c => scan_commit c skills)
                         commits skills) term
  = dict_view 0 skills term
    + list_sum (map (fun c =>
                       hits technologies (lower (Commit.message c)) term
                       + hits actions (lower (Commit.message c)) term)
                    commits).
Proof.
  revert skills. induction commits as [| c r IH]; intro skills; simpl;
    [lia |].
  rewrite IH. unfold scan_commit. rewrite !view_scan. lia.
Qed.

Lemma view_tickets (term : string) (tickets : list ticket)
  (skills : dict nat) :
  dict_view 0 (fold_left (fun skills t => scan_ticket t skills)
                         tickets skills) term
  = dict_view 0 skills term
    + list_sum (map (fun t =>
                       hits technologies (lower (Ticket.summary t)) term)
                    tickets).
Proof.
  revert skills. induction tickets as [| t r IH]; intro skills; simpl;
    [lia |].
  rewrite IH. unfold scan_ticket. rewrite !view_scan. lia.
Qed.

Lemma view_skill_counts (e : Final.cluster) (term : string) :
  dict_view 0 (skill_counts e) term
  = list_sum (map (fun text => hits technologies text term
                               + hits actions text term)
                  (commit_texts e))
    + list_sum (map (fun text => hits technologies text term)
                    (ticket_texts e)).
Proof.
  unfold skill_counts, commit_texts, ticket_texts.
  rewrite view_tickets, view_commits, !map_map. reflexivity.
Qed.

Lemma mentions_of_skills (e : Final.cluster) (term : string) :
  mentions_of (skills_of e) term = dict_view 0 (skill_counts e) term.
Proof.
  unfold mentions_of, skills_of, dict_view.
  rewrite (find_sorted_items
             (fun sc => {| Skill.skill := fst sc; Skill.mentions := snd sc |})
             Skill.skill term (skill_counts e));
    [| reflexivity | apply skill_counts_keys | apply sort_by_desc_perm].
  now destruct (dict_get term (skill_counts e)).
Qed.

Lemma dict_get_set_same {V : Type} (k : string) (v : V) (d : dict V) :
  dict_get k (dict_set k v d) = Some v.
Proof.
  induction d as [| [k0 v0] r IH]; simpl.
  - now rewrite String.eqb_refl.
  - destruct (k =? k0) eqn:E; simpl; rewrite E; auto.
Qed.

Lemma dict_get_set_other {V : Type} (k k' : string) (v : V) (d : dict V) :
  k' <> k -> dict_get k' (dict_set k v d) = dict_get k' d.
Proof.
  intro Hne. apply String.eqb_neq in Hne.
  induction d as [| [k0 v0] r IH]; simpl.
  - now rewrite Hne.
  - destruct (k =? k0) eqn:E; simpl.
    + apply String.eqb_eq in E. subst k0. now rewrite Hne.
    + now rewrite IH.
Qed.

(** The entry of an employee holds the skills of the last cluster that
    carries the employee's name. *)
Lemma extract_skills_last (pre post : list Final.cluster)
  (e : Final.cluster) :
  Forall (fun e' => Final.employee e' <> Final.employee e) post ->
  dict_get (Final.employee e)
           (extract_skills_from_activity (pre ++ e :: post))
  = Some (skills_of e).
Proof.
  intro Hpost. unfold extract_skills_from_activity.
  rewrite fold_left_app. simpl.
  set (d := dict_set (Final.employee e) (skills_of e) _).
  assert (Hd : dict_get (Final.employee e) d = Some (skills_of e))
    by apply dict_get_set_same.
  clearbody d. revert d Hd.
  induction Hpost as [| e' r Hne _ IH]; intros d Hd; simpl; auto.
  apply IH. rewrite dict_get_set_other; auto.
Qed.

(** C2, as the code has it. For each employee cluster the count of a
    technology term is the number of commit messages plus the number of
    summaries of assigned and resolved tickets that hold the term, in
    lower case, as a substring; the count of an action term no summary
    holds is the number of commit messages that hold it. A text adds one
    to a count however often it holds the term. *)
Theorem skill_mentions_count_texts
  (employee_clusters pre post : list Final.cluster) (e : Final.cluster)
  (term : string) :
  employee_clusters = pre ++ e :: post ->
  Forall (fun e' => Final.employee e' <> Final.employee e) post ->
  exists skills,
    dict_get (Final.employee e)
             (extract_skills_from_activity employee_clusters) = Some skills
    /\ (In term technologies ->
        mentions_of skills term
        = texts_with term (commit_texts e) + texts_with term (ticket_texts e))
    /\ (In term actions ->
        texts_with term (ticket_texts e) = 0 ->
        mentions_of skills term = texts_with term (commit_texts e)).
Proof.
  intros -> Hpost. exists (skills_of e).
  split; [now apply extract_skills_last |].
  rewrite mentions_of_skills, view_skill_counts.
  split.
  - intro Hterm. f_equal.
    + induction (commit_texts e) as [| text r IH]; auto.
      simpl. rewrite texts_with_cons, IH.
      destruct (technology_hits text Hterm) as [-> ->]. lia.
    + induction (ticket_texts e) as [| text r IH]; auto.
      simpl. rewrite texts_with_cons, IH.
      now destruct (technology_hits text Hterm) as [-> _].
  - intros Hterm _.
    replace (list_sum (map (fun text => hits technologies text term)
                           (ticket_texts e))) with 0.
    + rewrite Nat.add_0_r.
      induction (commit_texts e) as [| text r IH]; auto.
      simpl. rewrite texts_with_cons, IH.
      destruct (action_hits text Hterm) as [-> ->]. lia.
    + induction (ticket_texts e) as [| text r IH]; auto.
      simpl. rewrite <- IH.
      now destruct (action_hits text Hterm) as [_ ->].
Qed.

End Skills.

Lemma skill_mentions_count_texts_witness :
  ([Sample.filer; Sample.coder] = [Sample.filer] ++ Sample.coder :: []
   /\ Forall (fun e' => ClusterEmployee.Final.employee e'
                        <> ClusterEmployee.Final.employee Sample.coder) []
   /\ In "fix" ClusterEmployee.actions
   /\ ClusterEmployee.texts_with "fix"
        (ClusterEmployee.ticket_texts Sample.coder) = 0)
  /\ exists skills,
       dict_get "alice"
         (ClusterEmployee.extract_skills_from_activity
            [Sample.filer; Sample.coder]) = Some skills
       /\ ClusterEmployee.mentions_of skills "fix" = 1.
Proof.
  split.
  - repeat split; [constructor | simpl; tauto].
  - destruct (skill_mentions_count_texts
                (employee_clusters := [Sample.filer; Sample.coder])
                [Sample.filer] (post := []) Sample.coder "fix"
                eq_refl (Forall_nil _))
      as (skills & Hget & _ & Hact).
    exists skills. split; [exact Hget |].
    rewrite Hact; [reflexivity | simpl; tauto | reflexivity].
Defined.

(** C2 fails on both counts it makes. A commit message that shows an
    action word twice adds one for it, not two; and a ticket summary that
    shows the word adds nothing for it. *)
Lemma repeated_and_ticket_action_words_not_counted :
  In "fix" ClusterEmployee.actions
  /\ ClusterEmployee.commit_texts Sample.coder
     = ["fix api timeout, fix retry"]
  /\ ClusterEmployee.mentions_of
       (ClusterEmployee.skills_of Sample.coder) "fix" = 1
  /\ ClusterEmployee.spec_mentions Sample.coder "fix" = 2
  /\ ClusterEmployee.mentions_of
       (ClusterEmployee.skills_of Sample.coder) "fix"
     <> ClusterEmployee.spec_mentions Sample.coder "fix"
  /\ ClusterEmployee.ticket_texts Sample.filer = ["fix api timeout"]
  /\ ClusterEmployee.mentions_of
       (ClusterEmployee.skills_of Sample.filer) "fix" = 0
  /\ ClusterEmployee.spec_mentions Sample.filer "fix" = 1
  /\ ClusterEmployee.mentions_of
       (ClusterEmployee.skills_of Sample.filer) "fix"
     <> ClusterEmployee.spec_mentions Sample.filer "fix".
Proof.
  repeat split; try reflexivity; try discriminate. simpl; tauto.
Qed.

(** ** Both correlators return on naive timestamps *)

Lemma foldM_total {S A : Type} (I : S -> Prop) (body : A -> S -> result S)
  (l : list A) :
  (forall a s, In a l -> I s -> exists s', body a s = Ok s' /\ I s') ->
  forall s, I s -> exists s', foldM body l s = Ok s' /\ I s'.
Proof.
  induction l as [| a r IH]; simpl; intros Hbody s Hs; [eauto |].
  destruct (Hbody a s (or_introl eq_refl) Hs) as (s1 & -> & H1). simpl.
  apply IH; auto.
Qed.

Lemma dict_mapM_total {V : Type} (Q : string -> V -> Prop)
  (body : V -> result V) (d : dict V) :
  (forall k v, In (k, v) d -> exists v', body v = Ok v' /\ Q k v') ->
  exists d', dict_mapM body d = Ok d' /\ dict_all Q d'.
Proof.
  unfold dict_mapM. induction d as [| [k v] r IH]; simpl; intro Hbody.
  - exists []. split; auto. apply dict_all_nil.
  - destruct (Hbody k v (or_introl eq_refl)) as (v' & -> & Hv). simpl.
    destruct IH as (r' & -> & Hr); [intros; apply Hbody; now right |].
    simpl. eexists. split; [reflexivity |].
    intros k0 v0 [E | Hin]; [inversion E; now subst | now apply Hr].
Qed.

Lemma naive_timeline_snoc (tl : list event) (ev : event) :
  naive_timeline tl -> aware (Event.timestamp ev) = false ->
  naive_timeline (tl ++ [ev]).
Proof.
  intros Htl Hev. apply Forall_app. split; auto.
Qed.

Lemma naive_timeline_sorts (tl : list event) :
  naive_timeline tl ->
  exists tl', sort_by_datetime Event.timestamp tl = Ok tl'.
Proof.
  intro Htl. unfold sort_by_datetime, comparable.
  assert (E : forallb (fun k => negb (aware k)) (map Event.timestamp tl)
              = true).
  { apply forallb_forall. intros k Hk. apply in_map_iff in Hk.
    destruct Hk as (ev & <- & Hev).
    unfold naive_timeline in Htl. rewrite Forall_forall in Htl.
    now rewrite (Htl ev Hev). }
  rewrite E, orb_true_r. eauto.
Qed.

Section TaskReturns.

Import ClusterKnowledge.

Variable fromisoformat : string -> option datetime.

Local Abbreviation naive_clusters :=
  (dict_all (fun (_ : string) cl => naive_timeline (timeline cl))).

Lemma add_email_returns (e : email) (d : task_clusters) :
  naive_stamp fromisoformat (Email.timestamp e) ->
  naive_clusters d ->
  exists d', add_email fromisoformat e d = Ok d' /\ naive_clusters d'.
Proof.
  intros (ts & Hts & Hnaive) Hd. unfold add_email. cbv zeta.
  destruct (foldM_total (S := task_clusters) naive_clusters (direct_attach fromisoformat e)
              (py_set (findall_task_id
                         (Email.subject e ++ Email.body e)%string)))
    with (s := d) as (d1 & -> & H1); auto.
  { intros k s _ Hs. unfold direct_attach, parse. rewrite Hts.
    destruct (dict_mem k s) eqn:Hmem; simpl; eauto.
    eexists. split; [reflexivity |].
    apply dict_all_update; auto.
    - intros cl _ Hcl. simpl. now apply naive_timeline_snoc.
    - intros _. unfold naive_timeline. simpl.
      constructor; [exact Hnaive | constructor]. }
  simpl. destruct (py_set _); eauto.
  apply foldM_total; auto.
  intros cid s _ Hs. unfold fallback. apply dict_mapM_total.
  intros k cl Hin. unfold fallback_cluster, parse. rewrite Hts.
  pose proof (Hs k cl Hin) as Hcl. simpl in Hcl.
  destruct (existsb _ _); [| eauto].
  destruct (negb _); simpl; eauto.
  eexists. split; [reflexivity |]. simpl. now apply naive_timeline_snoc.
Qed.

(** When every timestamp of the snapshot parses to a naive date-time,
    [cluster_task_data] returns. *)
Lemma cluster_task_data_returns (jira_data : list ticket)
  (git_data : list commit) (email_data : list email) :
  (forall t, In t jira_data ->
             naive_stamp fromisoformat (Ticket.created_at t)) ->
  (forall c, In c git_data ->
             naive_stamp fromisoformat (Commit.timestamp c)) ->
  (forall e, In e email_data ->
             naive_stamp fromisoformat (Email.timestamp e)) ->
  exists out,
    cluster_task_data fromisoformat jira_data git_data email_data = Ok out.
Proof.
  intros Hj Hg He. unfold cluster_task_data, correlate.
  destruct (foldM_total (S := task_clusters) naive_clusters (add_ticket fromisoformat) jira_data)
    with (s := @nil (string * cluster)) as (d2 & -> & H2).
  { intros t s Ht Hs. destruct (Hj t Ht) as (ts & Hts & Hnaive).
    unfold add_ticket, parse. rewrite Hts. simpl.
    eexists. split; [reflexivity |].
    apply dict_all_update; auto.
    - intros cl _ Hcl. simpl. now apply naive_timeline_snoc.
    - intros _. unfold naive_timeline. simpl.
      constructor; [exact Hnaive | constructor]. }
  { apply dict_all_nil. }
  simpl.
  destruct (foldM_total (S := task_clusters) naive_clusters (add_commit fromisoformat) git_data)
    with (s := d2) as (d3 & -> & H3); auto.
  { intros c s Hc Hs. destruct (Hg c Hc) as (ts & Hts & Hnaive).
    unfold add_commit, parse. rewrite Hts.
    destruct (truthy (Commit.ticket c)); simpl; eauto.
    eexists. split; [reflexivity |].
    apply dict_all_update; auto.
    - intros cl _ Hcl. simpl. now apply naive_timeline_snoc.
    - intros _. unfold naive_timeline. simpl.
      constructor; [exact Hnaive | constructor]. }
  simpl.
  destruct (foldM_total (S := task_clusters) naive_clusters (add_email fromisoformat) email_data)
    with (s := d3) as (d4 & -> & H4); auto.
  { intros e s He' Hs. apply add_email_returns; auto. }
  simpl.
  destruct (dict_mapM_total (fun _ _ => True) sort_timeline d4)
    as (d5 & Hd5 & _).
  { intros k cl Hin. unfold sort_timeline.
    destruct (naive_timeline_sorts (H4 k cl Hin)) as (tl' & ->).
    simpl. eauto. }
  unfold sort_timelines. rewrite Hd5. simpl. eauto.
Qed.

End TaskReturns.

Section EmployeeReturns.

Import ClusterEmployee.

Variable fromisoformat : string -> option datetime.

Local Abbreviation naive_clusters :=
  (dict_all (fun (_ : string) cl => naive_timeline (timeline cl))).

Lemma file_under_returns (person when : string)
  (f : datetime -> cluster -> cluster) (d : employee_clusters) :
  naive_stamp fromisoformat when ->
  (forall ts cl, aware ts = false -> naive_timeline (timeline cl) ->
                 naive_timeline (timeline (f ts cl))) ->
  naive_clusters d ->
  exists d', file_under fromisoformat person when f d = Ok d'
             /\ naive_clusters d'.
Proof.
  intros (ts & Hts & Hnaive) Hf Hd. unfold file_under, parse.
  rewrite Hts. simpl. eexists. split; [reflexivity |].
  apply dict_all_update; auto.
  intros _. apply Hf; auto. constructor.
Qed.

(** When every timestamp of the snapshot parses to a naive date-time,
    [cluster_employee_data] returns. *)
Lemma cluster_employee_data_returns (jira_data : list ticket)
  (git_data : list commit) (email_data : list email) :
  (forall t, In t jira_data ->
             naive_stamp fromisoformat (Ticket.created_at t)
             /\ naive_stamp fromisoformat (Ticket.updated_at t)) ->
  (forall c, In c git_data ->
             naive_stamp fromisoformat (Commit.timestamp c)) ->
  (forall e, In e email_data ->
             naive_stamp fromisoformat (Email.timestamp e)) ->
  exists out,
    cluster_employee_data fromisoformat jira_data git_data email_data
    = Ok out.
Proof.
  intros Hj Hg He. unfold cluster_employee_data, correlate.
  assert (Hsnoc : forall ty i r ts cl,
             aware ts = false -> naive_timeline (timeline cl) ->
             naive_timeline (timeline cl ++ [mk_event ty i ts r])).
  { intros. now apply naive_timeline_snoc. }
  destruct (foldM_total (S := employee_clusters) naive_clusters (add_ticket fromisoformat) jira_data)
    with (s := @nil (string * cluster)) as (d2 & -> & H2).
  { intros t s Ht Hs. destruct (Hj t Ht) as [Hc Hu].
    unfold add_ticket.
    assert (H1 : exists s1,
               match truthy (Ticket.assignee t) with
               | Some a => file_under fromisoformat a (Ticket.created_at t)
                             (assign t) s
               | None => Ok s
               end = Ok s1 /\ naive_clusters s1).
    { destruct (truthy (Ticket.assignee t)); eauto.
      apply file_under_returns; auto. intros; now apply Hsnoc. }
    destruct H1 as (s1 & -> & Hs1). simpl.
    destruct (truthy (Ticket.resolution t)) as [res |]; eauto.
    destruct (search_resolver res); eauto.
    apply file_under_returns; auto. intros; now apply Hsnoc. }
  { apply dict_all_nil. }
  simpl.
  destruct (foldM_total (S := employee_clusters) naive_clusters (add_commit fromisoformat) git_data)
    with (s := d2) as (d3 & -> & H3); auto.
  { intros c s Hc Hs. unfold add_commit.
    destruct (truthy (Commit.author c)); eauto.
    apply file_under_returns; auto. intros; now apply Hsnoc. }
  simpl.
  destruct (foldM_total (S := employee_clusters) naive_clusters (add_email fromisoformat) email_data)
    with (s := d3) as (d4 & -> & H4); auto.
  { intros e s He' Hs. unfold add_email.
    assert (H1 : exists s1,
               match truthy (Email.sender e) with
               | Some a => file_under fromisoformat a (Email.timestamp e)
                             (sent e) s
               | None => Ok s
               end = Ok s1 /\ naive_clusters s1).
    { destruct (truthy (Email.sender e)); eauto.
      apply file_under_returns; auto. intros; now apply Hsnoc. }
    destruct H1 as (s1 & -> & Hs1). simpl.
    apply foldM_total; auto.
    intros r s2 _ Hs2. apply file_under_returns; auto.
    intros; now apply Hsnoc. }
  simpl.
  destruct (dict_mapM_total (fun _ _ => True) sort_timeline d4)
    as (d5 & Hd5 & _).
  { intros k cl Hin. unfold sort_timeline.
    destruct (naive_timeline_sorts (H4 k cl Hin)) as (tl' & ->).
    simpl. eauto. }
  unfold sort_timelines. rewrite Hd5. simpl. eauto.
Qed.

End EmployeeReturns.

(** ** The order in which a set of task identifiers is walked *)

Lemma bind_assoc {A B C : Type} (m : result A) (f : A -> result B)
  (g : B -> result C) :
  bind (bind m f) g = bind m (fun a => bind (f a) g).
Proof. now destruct m. Qed.

Lemma dict_mem_update {V : Type} (dflt : V) (k k' : string) (f : V -> V)
  (d : dict V) :
  dict_mem k' (dict_update dflt k f d) = dict_mem k' d || (k' =? k).
Proof.
  unfold dict_mem. destruct (k' =? k) eqn:E.
  - apply String.eqb_eq in E. subst.
    rewrite dict_get_update_same. now rewrite orb_true_r.
  - apply String.eqb_neq in E.
    rewrite dict_get_update_other by auto. now rewrite orb_false_r.
Qed.

(** Two updates of entries under different keys, one at least present,
    can be made in either order. *)
Lemma dict_update_comm {V : Type} (dflt : V) (k1 k2 : string)
  (f g : V -> V) (d : dict V) :
  k1 <> k2 ->
  dict_mem k1 d = true \/ dict_mem k2 d = true ->
  dict_update dflt k2 g (dict_update dflt k1 f d)
  = dict_update dflt k1 f (dict_update dflt k2 g d).
Proof.
  intros Hne Hmem. induction d as [| [k0 v0] r IH].
  - destruct Hmem; discriminate.
  - simpl. destruct (k1 =? k0) eqn:E1, (k2 =? k0) eqn:E2; simpl;
      rewrite ?E1, ?E2; auto.
    + apply String.eqb_eq in E1, E2. congruence.
    + f_equal. apply IH. unfold dict_mem in *. simpl in Hmem.
      now rewrite E1, E2 in Hmem.
Qed.

Section DirectLoop.

Import ClusterKnowledge.

Variable fromisoformat : string -> option datetime.

Local Abbreviation direct_attach := (direct_attach fromisoformat).

Lemma direct_attach_comm (e : email) (k1 k2 : string) (d : task_clusters) :
  k1 <> k2 ->
  bind (direct_attach e k1 d) (direct_attach e k2)
  = bind (direct_attach e k2 d) (direct_attach e k1).
Proof.
  intro Hne. unfold ClusterKnowledge.direct_attach, parse.
  assert (E12 : (k1 =? k2) = false) by now apply String.eqb_neq.
  assert (E21 : (k2 =? k1) = false)
    by (apply String.eqb_neq; congruence).
  destruct (fromisoformat (Email.timestamp e)) as [ts |];
    destruct (dict_mem k1 d) eqn:M1, (dict_mem k2 d) eqn:M2; simpl;
    rewrite ?dict_mem_update, ?M1, ?M2, ?E12, ?E21; simpl;
    rewrite ?M1, ?M2; auto.
  f_equal. apply dict_update_comm; auto.
Qed.

(** The direct loop gives the same dictionary, or raises alike, in
    whatever order it walks the distinct identifiers. *)
Lemma direct_loop_order (e : email) (ids ids' : list string) :
  Permutation ids ids' -> NoDup ids ->
  forall d, foldM (direct_attach e) ids d = foldM (direct_attach e) ids' d.
Proof.
  induction 1 as [| k l l' Hperm IH | k1 k2 l | l l' l'' H1 IH1 H2 IH2];
    intros Hnd d; simpl; auto.
  - inversion Hnd; subst.
    destruct (direct_attach e k d); simpl; auto.
  - inversion Hnd as [| ? ? Hnin _]; subst.
    assert (Hne : k2 <> k1) by (intros ->; apply Hnin; now left).
    rewrite <- !bind_assoc. now rewrite (direct_attach_comm e d Hne).
  - rewrite IH1 by auto. apply IH2.
    eapply Permutation_NoDup; eauto.
Qed.

(** X26. Step 4 walks the set [task_ids] in an order Python does not fix:
    in whatever order the distinct identifiers of an email are walked, the
    direct loop leaves the same dictionary or raises the same exception. *)
Lemma direct_loop_any_order (e : email) (ids : list string)
  (d : task_clusters) :
  Permutation
    (py_set (findall_task_id (Email.subject e ++ Email.body e)%string)) ids ->
  foldM (direct_attach e) ids d
  = foldM (direct_attach e)
      (py_set (findall_task_id (Email.subject e ++ Email.body e)%string)) d.
Proof.
  intro Hperm. symmetry. apply direct_loop_order; auto.
  apply py_set_from_NoDup.
Qed.

End DirectLoop.

(** ** The task clusters, one key at a time *)

Lemma last_snoc {A : Type} (l : list A) (a d : A) : last (l ++ [a]) d = a.
Proof.
  induction l as [| x r IH]; simpl; auto.
  destruct (r ++ [a]) eqn:E; auto. now destruct r.
Qed.

Lemma mem_py_set (x : string) (l : list string) :
  mem x (py_set l) = mem x l.
Proof.
  destruct (mem x l) eqn:E.
  - apply mem_In. apply (proj2 (py_set_In l x)). now apply mem_In.
  - destruct (mem x (py_set l)) eqn:E'; auto.
    apply mem_In in E'. apply (proj1 (py_set_In l x)) in E'.
    apply mem_In in E'. congruence.
Qed.

Section TaskViews.

Import ClusterKnowledge.
Import TaskView.

Variable fromisoformat : string -> option datetime.

Local Abbreviation shaped := (shaped fromisoformat).
Local Abbreviation stamped := (stamped fromisoformat).
Local Abbreviation view := (dict_view fresh).

Lemma add_ticket_view (t : ticket) (d d' : task_clusters) :
  add_ticket fromisoformat t d = Ok d' ->
  exists ts,
    fromisoformat (Ticket.created_at t) = Some ts
    /\ forall k, view d' k
                 = if k =? Ticket.id t then seed t ts (view d k)
                   else view d k.
Proof.
  unfold add_ticket. intro H.
  apply bind_Ok in H. destruct H as (ts & Hts & H).
  apply parse_Ok in Hts. inversion H; subst.
  exists ts. split; auto. intro k. rewrite dict_view_update.
  destruct (k =? Ticket.id t) eqn:E; auto.
  apply String.eqb_eq in E. now subst.
Qed.

Lemma add_commit_view (c : commit) (d d' : task_clusters) :
  add_commit fromisoformat c d = Ok d' ->
  match truthy (Commit.ticket c) with
  | Some task_id =>
      exists ts,
        fromisoformat (Commit.timestamp c) = Some ts
        /\ forall k, view d' k
                     = if k =? task_id then push_commit c ts (view d k)
                       else view d k
  | None => d' = d
  end.
Proof.
  unfold add_commit. destruct (truthy (Commit.ticket c)) as [task_id |].
  - intro H. apply bind_Ok in H. destruct H as (ts & Hts & H).
    apply parse_Ok in Hts. inversion H; subst.
    exists ts. split; auto. intro k. rewrite dict_view_update.
    destruct (k =? task_id) eqn:E; auto.
    apply String.eqb_eq in E. now subst.
  - intro H. now inversion H.
Qed.

Lemma tickets_of_snoc (k : string) (seen : list ticket) (t : ticket) :
  tickets_of k (seen ++ [t])
  = tickets_of k seen ++ (if Ticket.id t =? k then [t] else []).
Proof.
  unfold tickets_of. rewrite filter_app. simpl.
  now destruct (Ticket.id t =? k).
Qed.

Lemma commits_of_snoc (k : string) (seen : list commit) (c : commit) :
  commits_of k (seen ++ [c])
  = commits_of k seen ++ (if for_task k c then [c] else []).
Proof.
  unfold commits_of. rewrite filter_app. simpl.
  now destruct (for_task k c).
Qed.

Lemma emails_of_snoc (k : string) (commits : list commit)
  (seen : list email) (e : email) :
  emails_of k commits (seen ++ [e])
  = if joins k commits (emails_of k commits seen) e
    then emails_of k commits seen ++ [e]
    else emails_of k commits seen.
Proof. unfold emails_of. now rewrite fold_left_app. Qed.

(** Step 2, seen from one key. *)
Lemma tickets_shaped (jira_data : list ticket) (d : task_clusters) :
  foldM (add_ticket fromisoformat) jira_data [] = Ok d ->
  forall k, shaped k jira_data [] [] (view d k).
Proof.
  intro Hrun.
  apply (foldM_invariant_seen
           (fun seen s => forall k, shaped k seen [] [] (view s k))
           (add_ticket fromisoformat) jira_data)
    with (seen := []) (s := []) (s' := d); auto.
  - intros seen t s s' _ Hs Hstep k.
    apply add_ticket_view in Hstep. destruct Hstep as (ts & Hts & Hview).
    rewrite Hview. destruct (Hs k) as (Hj & Hc & He & Htl).
    unfold TaskView.shaped, last_ticket, records in *.
    rewrite tickets_of_snoc, (String.eqb_sym k).
    destruct (Ticket.id t =? k) eqn:E.
    + simpl in *. rewrite !app_nil_r in *. rewrite !map_app. simpl.
      rewrite last_snoc. repeat split; auto.
      rewrite ?map_app, Htl. simpl. now rewrite Hts.
    + rewrite app_nil_r. auto.
  - intro k. unfold TaskView.shaped. simpl. auto.
Qed.

(** Step 3, seen from one key. *)
Lemma commits_shaped (jira_data : list ticket) (git_data : list commit)
  (d d' : task_clusters) :
  (forall k, shaped k jira_data [] [] (view d k)) ->
  foldM (add_commit fromisoformat) git_data d = Ok d' ->
  forall k, shaped k jira_data git_data [] (view d' k).
Proof.
  intros Hd Hrun.
  apply (foldM_invariant_seen
           (fun seen s => forall k, shaped k jira_data seen [] (view s k))
           (add_commit fromisoformat) git_data)
    with (seen := []) (s := d) (s' := d'); auto.
  intros seen c s s' _ Hs Hstep k.
  apply add_commit_view in Hstep.
  destruct (Hs k) as (Hj & Hc & He & Htl).
  unfold TaskView.shaped, records in *.
  rewrite commits_of_snoc. unfold for_task.
  destruct (truthy (Commit.ticket c)) as [task_id |].
  - destruct Hstep as (ts & Hts & Hview). rewrite Hview.
    rewrite (String.eqb_sym k).
    destruct (task_id =? k) eqn:E.
    + simpl in *. rewrite !app_nil_r in *. rewrite Hc.
      repeat split; auto.
      rewrite !map_app in *. rewrite Htl. simpl. rewrite Hts.
      now rewrite app_assoc.
    + rewrite app_nil_r. auto.
  - subst s'. rewrite app_nil_r. auto.
Qed.

(** The direct loop, seen from one entry. *)
Lemma direct_loop_entry (e : email) (ids : list string)
  (d d' : task_clusters) (k : string) (cl' : cluster) :
  NoDup ids -> NoDup (map fst d) ->
  foldM (direct_attach fromisoformat e) ids d = Ok d' ->
  In (k, cl') d' ->
  NoDup (map fst d')
  /\ exists cl,
       In (k, cl) d
       /\ if mem k ids
          then exists ts, fromisoformat (Email.timestamp e) = Some ts
                          /\ cl' = attach e ts cl
          else cl' = cl.
Proof.
  revert d. induction ids as [| i r IH]; intros d Hids Hd Hrun Hin.
  - simpl in Hrun. inversion Hrun; subst. split; auto.
    exists cl'. split; [auto | reflexivity].
  - simpl in Hrun. apply bind_Ok in Hrun. destruct Hrun as (d1 & H1 & Hrun).
    inversion Hids as [| ? ? Hnin Hr]; subst.
    assert (Hd1 : NoDup (map fst d1)).
    { unfold direct_attach in H1. destruct (dict_mem i d); inv_ok; auto.
      now apply dict_update_NoDup. }
    destruct (IH d1 Hr Hd1 Hrun Hin) as (Hd' & cl1 & Hin1 & Hrest).
    split; auto.
    unfold direct_attach, dict_mem in H1. simpl.
    destruct (dict_get i d) eqn:Hget.
    + apply bind_Ok in H1. destruct H1 as (ts & Hts & H1).
      apply parse_Ok in Hts. inversion H1; subst d1.
      apply dict_update_In_NoDup in Hin1; auto.
      destruct Hin1 as [[Hne Hin1] | (-> & v & -> & [Hin1 | [_ Hnone]])].
      * exists cl1. split; auto.
        apply String.eqb_neq in Hne. now rewrite Hne.
      * exists v. split; auto. rewrite String.eqb_refl. simpl.
        assert (Hm : mem i r = false).
        { destruct (mem i r) eqn:E; auto. apply mem_In in E. contradiction. }
        rewrite Hm in Hrest. subst cl'. eauto.
      * congruence.
    + inversion H1; subst d1. exists cl1. split; auto.
      destruct (k =? i) eqn:E; auto.
      apply String.eqb_eq in E. subst i.
      apply dict_get_None in Hget. exfalso. apply Hget.
      change k with (fst (k, cl1)). now apply in_map.
Qed.

(** The fallback loops, seen from one entry. *)
Lemma fallback_loop_entry (e : email) (cids : list string)
  (d d' : task_clusters) (k : string) (cl' : cluster) :
  foldM (fallback fromisoformat e) cids d = Ok d' ->
  In (k, cl') d' ->
  map fst d' = map fst d
  /\ exists cl,
       In (k, cl) d
       /\ foldM (fallback_cluster fromisoformat e) cids cl = Ok cl'.
Proof.
  revert d. induction cids as [| cid r IH]; intros d Hrun Hin.
  - simpl in Hrun. inversion Hrun; subst. split; auto.
    exists cl'. split; [auto | reflexivity].
  - simpl in Hrun. apply bind_Ok in Hrun. destruct Hrun as (d1 & H1 & Hrun).
    destruct (IH d1 Hrun Hin) as (Hkeys & cl1 & Hin1 & Hrest).
    unfold fallback in H1.
    split; [rewrite Hkeys; eapply dict_mapM_keys; eauto |].
    destruct (dict_mapM_In _ _ _ _ H1 Hin1) as (cl & Hcl & Hfb).
    exists cl. split; auto. simpl. now rewrite Hfb.
Qed.

(** What the fallback loops do to one cluster. *)
Lemma fallback_cluster_fold (e : email) (cids : list string)
  (cl cl' : cluster) :
  foldM (fallback_cluster fromisoformat e) cids cl = Ok cl' ->
  if existsb (fun cid => existsb (fun c => Commit.commit_id c =? cid)
                                 (git_commits cl)) cids
     && negb (email_in e (emails cl))
  then exists ts, fromisoformat (Email.timestamp e) = Some ts
                  /\ cl' = attach e ts cl
  else cl' = cl.
Proof.
  revert cl. induction cids as [| cid r IH]; intros cl Hrun.
  - simpl in *. now inversion Hrun.
  - simpl in Hrun. apply bind_Ok in Hrun. destruct Hrun as (cl1 & H1 & Hrun).
    apply IH in Hrun. simpl.
    unfold fallback_cluster in H1.
    destruct (existsb (fun c => Commit.commit_id c =? cid) (git_commits cl))
      eqn:Ecid; simpl.
    + destruct (email_in e (emails cl)) eqn:Ein; simpl in *.
      * inversion H1; subst cl1. rewrite Ein, andb_false_r in Hrun. auto.
      * apply bind_Ok in H1. destruct H1 as (ts & Hts & H1).
        apply parse_Ok in Hts. inversion H1; subst cl1.
        assert (Ein' : email_in e (emails (attach e ts cl)) = true).
        { apply email_in_In. simpl. apply in_app_iff. simpl. auto. }
        rewrite Ein', andb_false_r in Hrun. subst cl'. eauto.
    + inversion H1; subst cl1. exact Hrun.
Qed.

(** Step 4, seen from one entry of the dictionary. *)
Lemma add_email_entry (e : email) (d d' : task_clusters) (k : string)
  (cl' : cluster) :
  NoDup (map fst d) ->
  add_email fromisoformat e d = Ok d' ->
  In (k, cl') d' ->
  NoDup (map fst d')
  /\ exists cl,
       In (k, cl) d
       /\ if joins k (git_commits cl) (emails cl) e
          then exists ts, fromisoformat (Email.timestamp e) = Some ts
                          /\ cl' = attach e ts cl
          else cl' = cl.
Proof.
  intros Hd Hrun Hin. unfold add_email in Hrun. cbv zeta in Hrun.
  apply bind_Ok in Hrun. destruct Hrun as (d1 & Hdirect & Hrun).
  unfold joins, shows_commit_of.
  destruct (findall_task_id (Email.subject e ++ Email.body e)%string)
    as [| i ids] eqn:Hids.
  - simpl in Hdirect, Hrun. inversion Hdirect; subst d1.
    destruct (@fallback_loop_entry e (findall_uuid (Email.body e)) d d' k cl'
                Hrun Hin)
      as (Hkeys & cl & Hcl & Hfold).
    split; [now rewrite Hkeys |].
    exists cl. split; auto. now apply fallback_cluster_fold.
  - assert (Hset : py_set (i :: ids) <> []) by (intro E; discriminate).
    destruct (py_set (i :: ids)) as [| j js] eqn:Ej; [contradiction |].
    inversion Hrun; subst d1.
    destruct (@direct_loop_entry e (j :: js) d d' k cl')
      as (Hd' & cl & Hcl & Hmem); auto.
    { rewrite <- Ej. apply py_set_from_NoDup. }
    split; auto. exists cl. split; auto.
    rewrite <- Ej, mem_py_set in Hmem. exact Hmem.
Qed.

(** Step 4 for the whole list of emails. *)
Lemma emails_shaped (jira_data : list ticket) (git_data : list commit)
  (email_data : list email) (d d' : task_clusters) :
  NoDup (map fst d) ->
  dict_all (fun k cl => shaped k jira_data git_data [] cl) d ->
  foldM (add_email fromisoformat) email_data d = Ok d' ->
  NoDup (map fst d')
  /\ dict_all (fun k cl => shaped k jira_data git_data email_data cl) d'.
Proof.
  intros Hnd Hd Hrun.
  apply (foldM_invariant_seen
           (fun seen s =>
              NoDup (map fst s)
              /\ dict_all (fun k cl => shaped k jira_data git_data seen cl) s)
           (add_email fromisoformat) email_data)
    with (seen := []) (s := d) (s' := d'); auto.
  intros seen e s s' _ [Hs1 Hs2] Hstep. split.
  - intros. eapply add_email_keys in Hstep. congruence.
  - intros k cl' Hin.
    destruct (@add_email_entry e s s' k cl' Hs1 Hstep Hin)
      as (_ & cl & Hcl & Hjoin).
    destruct (Hs2 k cl Hcl) as (Hj & Hc & He & Htl).
    rewrite Hc, He in Hjoin.
    unfold TaskView.shaped, records in *.
    rewrite emails_of_snoc.
    destruct (joins k (commits_of k git_data)
                (emails_of k (commits_of k git_data) seen) e).
    + destruct Hjoin as (ts & Hts & ->). simpl.
      rewrite He. repeat split; auto.
      rewrite !map_app in *. rewrite Htl. simpl. rewrite Hts.
      now rewrite <- !app_assoc.
    + subst cl'. repeat split; auto.
Qed.

End TaskViews.

Section TaskShape.

Import ClusterKnowledge.
Import TaskView.

Variable fromisoformat : string -> option datetime.

Local Abbreviation cluster_task_data := (cluster_task_data fromisoformat).

(** Every cluster returned is the cluster the input lists fix for its key,
    with the timeline sorted. *)
Lemma task_cluster_shape (jira_data : list ticket) (git_data : list commit)
  (email_data : list email) (out : list Final.cluster) :
  cluster_task_data jira_data git_data email_data = Ok out ->
  forall oc, In oc out ->
  exists cl t,
    shaped fromisoformat (Final.task_id oc) jira_data git_data email_data cl
    /\ jira cl = Some t
    /\ Final.summary oc = Ticket.summary t
    /\ Final.status oc = Ticket.status t
    /\ Final.assignee oc = Ticket.assignee t
    /\ Final.created_at oc = Ticket.created_at t
    /\ Final.git_commits oc = git_commits cl
    /\ Final.emails oc = emails cl
    /\ sort_by_datetime Event.timestamp (timeline cl)
       = Ok (Final.timeline oc).
Proof.
  intros Hrun oc Hoc.
  unfold ClusterKnowledge.cluster_task_data in Hrun.
  apply bind_Ok in Hrun. destruct Hrun as (d4 & Hcor & Hrun).
  apply bind_Ok in Hrun. destruct Hrun as (d5 & Hsorted & Hrun).
  inversion Hrun; subst out; clear Hrun.
  pose proof (@correlate_keys fromisoformat _ _ _ _ Hcor) as Hnd4.
  unfold correlate in Hcor.
  apply bind_Ok in Hcor. destruct Hcor as (d2 & Htickets & Hcor).
  apply bind_Ok in Hcor. destruct Hcor as (d3 & Hcommits & Hemails).
  pose proof (@tickets_shaped fromisoformat _ _ Htickets) as H2.
  pose proof (@commits_shaped fromisoformat _ _ _ _ H2 Hcommits) as H3.
  assert (Hnd3 : NoDup (map fst d3)).
  { apply (tickets_invariant fromisoformat (fun _ _ _ => True)) in Htickets;
      auto.
    destruct Htickets as (Hnd2 & _). revert Hcommits.
    apply (foldM_invariant (fun s => NoDup (map fst s))); auto.
    intros c s s' _ Hs Hstep. eapply add_commit_keys; eauto. }
  assert (H3' : dict_all
                  (fun k cl => shaped fromisoformat k jira_data git_data [] cl)
                  d3).
  { intros k cl Hin. pose proof (H3 k) as Hk.
    unfold dict_view in Hk.
    now rewrite (@In_dict_get _ k d3 cl Hnd3 Hin) in Hk. }
  destruct (@emails_shaped fromisoformat _ _ _ _ _ Hnd3 H3' Hemails)
    as (_ & H4).
  apply finalize_In in Hoc. destruct Hoc as (k & cl5 & t & Hin & Hj & ->).
  unfold sort_timelines in Hsorted.
  destruct (@dict_mapM_In _ _ _ _ k cl5 Hsorted Hin) as (cl4 & Hin4 & Hs).
  exists cl4, t. simpl.
  unfold sort_timeline in Hs.
  apply bind_Ok in Hs. destruct Hs as (tl & Htl & Hs).
  inversion Hs; subst cl5. simpl in *.
  split; [exact (H4 k cl4 Hin4) | repeat split; auto].
Qed.

End TaskShape.

(** ** The task correlator: the list returned *)

Section TaskKeys.

Import ClusterKnowledge.
Import TaskView.

Variable fromisoformat : string -> option datetime.

Lemma finalize_task_ids (d : task_clusters) :
  map Final.task_id (finalize d) = map fst (filter has_jira d).
Proof.
  induction d as [| [k cl] r IH]; simpl; auto.
  unfold has_jira at 1. simpl.
  destruct (jira cl); simpl; now rewrite IH.
Qed.

Lemma has_jira_same (k k' : string) (cl cl' : cluster) :
  jira cl' = jira cl -> has_jira (k', cl') = has_jira (k, cl).
Proof. unfold has_jira. simpl. now intros ->. Qed.

Lemma update_ticketed_keys (k : string) (f : cluster -> cluster)
  (d : task_clusters) :
  (forall cl, jira (f cl) = jira cl) ->
  map fst (filter has_jira (dict_update fresh k f d))
  = map fst (filter has_jira d).
Proof.
  intro Hf. induction d as [| [k0 cl0] r IH]; simpl.
  - now rewrite (@has_jira_same k k fresh (f fresh) (Hf fresh)).
  - destruct (k =? k0); simpl.
    + rewrite (@has_jira_same k0 k0 cl0 (f cl0) (Hf cl0)).
      now destruct (has_jira (k0, cl0)).
    + destruct (has_jira (k0, cl0)); simpl; now rewrite IH.
Qed.

Lemma mapM_ticketed_keys (body : cluster -> result cluster)
  (d d' : task_clusters) :
  (forall cl cl', body cl = Ok cl' -> jira cl' = jira cl) ->
  dict_mapM body d = Ok d' ->
  map fst (filter has_jira d') = map fst (filter has_jira d).
Proof.
  intros Hbody Hrun. apply dict_mapM_Forall2 in Hrun.
  induction Hrun as [| [k cl] [k' cl'] l l' [Hk Hb] _ IH]; simpl; auto.
  simpl in *. subst k'.
  rewrite (@has_jira_same k k cl cl' (Hbody _ _ Hb)).
  destruct (has_jira (k, cl)); simpl; now rewrite IH.
Qed.

Lemma add_email_ticketed_keys (e : email) (d d' : task_clusters) :
  add_email fromisoformat e d = Ok d' ->
  map fst (filter has_jira d') = map fst (filter has_jira d).
Proof.
  unfold add_email. cbv zeta. intro H.
  apply bind_Ok in H. destruct H as (d1 & Hdirect & H).
  assert (H1 : map fst (filter has_jira d1) = map fst (filter has_jira d)).
  { revert Hdirect.
    apply (foldM_invariant
             (fun s => map fst (filter has_jira s)
                       = map fst (filter has_jira d))); auto.
    intros k s s' _ Hs Hstep. unfold direct_attach in Hstep.
    destruct (dict_mem k s); inv_ok; auto.
    now rewrite update_ticketed_keys. }
  destruct (py_set _); [| inversion H; now subst].
  revert H.
  apply (foldM_invariant
           (fun s => map fst (filter has_jira s)
                     = map fst (filter has_jira d))); auto.
  intros cid s s' _ Hs Hstep. unfold fallback in Hstep.
  rewrite <- Hs. eapply mapM_ticketed_keys; eauto.
  intros cl cl' Hfb. apply fallback_cluster_cases in Hfb.
  destruct Hfb as [-> | ((ts & _ & ->) & _)]; auto.
Qed.

(** X1. [cluster_task_data] returns one cluster for each distinct ticket
    identifier, in the order in which the identifiers first occur in
    [jira_data]; so it returns the empty list when there is no ticket. *)
Theorem task_clusters_in_first_ticket_order
  (jira_data : list ticket) (git_data : list commit)
  (email_data : list email) (out : list Final.cluster) :
  cluster_task_data fromisoformat jira_data git_data email_data = Ok out ->
  map Final.task_id out = py_set (map Ticket.id jira_data)
  /\ (jira_data = [] -> out = []).
Proof.
  intro Hrun.
  assert (Hkeys : map Final.task_id out = py_set (map Ticket.id jira_data)).
  { unfold cluster_task_data in Hrun.
    apply bind_Ok in Hrun. destruct Hrun as (d4 & Hcor & Hrun).
    apply bind_Ok in Hrun. destruct Hrun as (d5 & Hsorted & Hrun).
    inversion Hrun; subst out; clear Hrun.
    unfold correlate in Hcor.
    apply bind_Ok in Hcor. destruct Hcor as (d2 & Htickets & Hcor).
    apply bind_Ok in Hcor. destruct Hcor as (d3 & Hcommits & Hemails).
    assert (H2 : map fst d2 = py_set (map Ticket.id jira_data)
                 /\ dict_all (fun k cl => has_jira (k, cl) = true) d2).
    { apply (foldM_invariant_seen
               (fun seen s =>
                  map fst s = py_set (map Ticket.id seen)
                  /\ dict_all (fun k cl => has_jira (k, cl) = true) s)
               (add_ticket fromisoformat) jira_data)
        with (seen := []) (s := []) (s' := d2); auto.
      - intros seen t s s' _ [Hs1 Hs2] Hstep.
        unfold add_ticket in Hstep. inv_ok. split.
        + rewrite dict_update_keys, map_app. simpl.
          now rewrite py_set_snoc, Hs1.
        + apply dict_all_update; auto.
      - split; [reflexivity | apply dict_all_nil]. }
    destruct H2 as [H2 Hall].
    assert (Hf2 : filter has_jira d2 = d2).
    { clear - Hall. induction d2 as [| [k cl] r IH]; auto.
      simpl. rewrite (Hall k cl) by now left.
      f_equal. apply IH. intros k' cl' H. apply (Hall k' cl'). now right. }
    assert (H3 : map fst (filter has_jira d3) = map fst (filter has_jira d2)).
    { revert Hcommits.
      apply (foldM_invariant
               (fun s => map fst (filter has_jira s)
                         = map fst (filter has_jira d2))); auto.
      intros c s s' _ Hs Hstep. unfold add_commit in Hstep.
      destruct (truthy (Commit.ticket c)); inv_ok; auto.
      now rewrite update_ticketed_keys. }
    assert (H4 : map fst (filter has_jira d4) = map fst (filter has_jira d3)).
    { revert Hemails.
      apply (foldM_invariant
               (fun s => map fst (filter has_jira s)
                         = map fst (filter has_jira d3))); auto.
      intros e s s' _ Hs Hstep. rewrite <- Hs.
      now apply (add_email_ticketed_keys e). }
    assert (H5 : map fst (filter has_jira d5) = map fst (filter has_jira d4)).
    { unfold sort_timelines in Hsorted.
      eapply mapM_ticketed_keys; eauto.
      intros cl cl' Hs. now apply sort_timeline_fields in Hs. }
    rewrite finalize_task_ids. congruence. }
  split; auto.
  intros ->. simpl in Hkeys. now destruct out.
Qed.

(** X2. The summary, status, assignee and creation time of a returned
    cluster are those of the last ticket of [jira_data] that carries the
    cluster's key. *)
Theorem task_cluster_fields_from_last_ticket
  (jira_data : list ticket) (git_data : list commit)
  (email_data : list email) (out : list Final.cluster) :
  cluster_task_data fromisoformat jira_data git_data email_data = Ok out ->
  forall oc, In oc out ->
  exists before t after,
    jira_data = before ++ t :: after
    /\ Ticket.id t = Final.task_id oc
    /\ (forall t', In t' after -> Ticket.id t' <> Final.task_id oc)
    /\ Final.summary oc = Ticket.summary t
    /\ Final.status oc = Ticket.status t
    /\ Final.assignee oc = Ticket.assignee t
    /\ Final.created_at oc = Ticket.created_at t.
Proof.
  intros Hrun oc Hoc.
  destruct (task_cluster_shape _ _ _ _ Hrun oc Hoc)
    as (cl & t & (Hj & _) & Hjt & Hs & Hst & Ha & Hc & _).
  rewrite Hjt in Hj. unfold last_ticket, tickets_of in Hj.
  assert (Hlast : forall l,
             Some t = last (map Some
                              (filter (fun t => Ticket.id t
                                                =? Final.task_id oc) l))
                           None ->
             exists before after,
               l = before ++ t :: after
               /\ Ticket.id t = Final.task_id oc
               /\ forall t', In t' after ->
                             Ticket.id t' <> Final.task_id oc).
  { induction l as [| x l' IH] using rev_ind; simpl.
    - discriminate.
    - rewrite filter_app. simpl.
      destruct (Ticket.id x =? Final.task_id oc) eqn:E.
      + rewrite map_app. simpl. rewrite last_snoc. intro H.
        inversion H; subst x. exists l', [].
        split; [reflexivity |]. split; [now apply String.eqb_eq |].
        intros t' [].
      + rewrite app_nil_r. intro H.
        destruct (IH H) as (before & after & -> & Hid & Hafter).
        exists before, (after ++ [x]).
        split; [now rewrite <- app_assoc |]. split; [exact Hid |].
        intros t' Ht'. apply in_app_iff in Ht'.
        destruct Ht' as [Ht' | [<- | []]]; auto.
        now apply String.eqb_neq. }
  destruct (Hlast jira_data Hj) as (before & after & Hsplit & Hid & Hafter).
  exists before, t, after. repeat split; auto.
Qed.

(** X3. The commit list of a returned cluster is the sublist of [git_data]
    made of the commits whose ticket field is the cluster's key, in input
    order and with repetitions. *)
Theorem task_cluster_commits_are_input_sublist
  (jira_data : list ticket) (git_data : list commit)
  (email_data : list email) (out : list Final.cluster) :
  cluster_task_data fromisoformat jira_data git_data email_data = Ok out ->
  forall oc, In oc out ->
    Final.git_commits oc
    = filter (fun c => match truthy (Commit.ticket c) with
                       | Some k => k =? Final.task_id oc
                       | None => false
                       end) git_data.
Proof.
  intros Hrun oc Hoc.
  destruct (task_cluster_shape _ _ _ _ Hrun oc Hoc)
    as (cl & t & (_ & Hc & _) & _ & _ & _ & _ & _ & Hg & _).
  now rewrite Hg, Hc.
Qed.

(** X4. The email list of a returned cluster is fixed by the cluster's
    key, its commits and [email_data]: going through [email_data] in
    order, an email that shows task identifiers is appended when the key
    is one of them, and an email that shows none is appended when its body
    shows the identifier of a commit of the cluster and the list does not
    hold the email yet. *)
Theorem task_cluster_emails_follow_email_data
  (jira_data : list ticket) (git_data : list commit)
  (email_data : list email) (out : list Final.cluster) :
  cluster_task_data fromisoformat jira_data git_data email_data = Ok out ->
  forall oc, In oc out ->
    Final.emails oc
    = fold_left
        (fun listed e =>
           if match findall_task_id
                      (Email.subject e ++ Email.body e)%string with
              | [] => shows_commit_of (Final.git_commits oc) e
                      && negb (email_in e listed)
              | ids => mem (Final.task_id oc) ids
              end
           then listed ++ [e] else listed)
        email_data [].
Proof.
  intros Hrun oc Hoc.
  destruct (task_cluster_shape _ _ _ _ Hrun oc Hoc)
    as (cl & t & (_ & Hc & He & _) & _ & _ & _ & _ & _ & Hg & Hm & _).
  rewrite Hm, He, Hg, Hc. reflexivity.
Qed.

(** X5. The timeline of a returned cluster is the stable sort by timestamp
    of the events of its tickets, then of its commits, then of its emails,
    each stamped with the parsed timestamp of its record. *)
Theorem task_cluster_timeline_is_sorted_record_events
  (jira_data : list ticket) (git_data : list commit)
  (email_data : list email) (out : list Final.cluster) :
  cluster_task_data fromisoformat jira_data git_data email_data = Ok out ->
  forall oc, In oc out ->
  exists events,
    map Some events
    = map (stamped fromisoformat)
          (map OfTicket (tickets_of (Final.task_id oc) jira_data)
           ++ map OfCommit (Final.git_commits oc)
           ++ map OfEmail (Final.emails oc))
    /\ Final.timeline oc
       = sort_by (fun ev => instant (Event.timestamp ev)) events.
Proof.
  intros Hrun oc Hoc.
  destruct (task_cluster_shape _ _ _ _ Hrun oc Hoc)
    as (cl & t & (_ & Hc & He & Htl) & _ & _ & _ & _ & _ & Hg & Hm & Hs).
  exists (timeline cl). split.
  - rewrite Htl, Hg, Hm, Hc, He. reflexivity.
  - unfold sort_by_datetime in Hs.
    destruct (comparable _); now inversion Hs.
Qed.

End TaskKeys.

(** ** The task correlator: which emails a cluster lists *)

Lemma occurrences_one (e x : email) :
  occurrences e [x] = if email_eqb e x then 1 else 0.
Proof. unfold occurrences. simpl. now destruct (email_eqb e x). Qed.

Lemma email_in_occurrences (e : email) (l : list email) :
  email_in e l = negb (occurrences e l =? 0)%nat.
Proof.
  unfold email_in, occurrences. induction l as [| x r IH]; simpl; auto.
  destruct (email_eqb e x); simpl; auto.
Qed.

Lemma email_in_app (e : email) (l l' : list email) :
  email_in e (l ++ l') = email_in e l || email_in e l'.
Proof. unfold email_in. apply existsb_app. Qed.

Section TaskEmails.

Import ClusterKnowledge.
Import TaskView.

Variable fromisoformat : string -> option datetime.

Lemma emails_of_from_input (k : string) (commits : list commit)
  (email_data : list email) (e : email) :
  In e (emails_of k commits email_data) -> In e email_data.
Proof.
  induction email_data as [| x l IH] using rev_ind; simpl; [tauto |].
  rewrite emails_of_snoc, in_app_iff. simpl.
  destruct (joins _ _ _ _); [| tauto].
  rewrite in_app_iff. simpl. tauto.
Qed.

Lemma emails_of_named (k : string) (commits : list commit)
  (email_data : list email) (e : email) :
  In k (findall_task_id (Email.subject e ++ Email.body e)%string) ->
  occurrences e (emails_of k commits email_data)
  = occurrences e email_data.
Proof.
  intro Hk. induction email_data as [| x l IH] using rev_ind; auto.
  rewrite emails_of_snoc, occurrences_app, occurrences_one.
  destruct (email_eqb e x) eqn:E.
  - apply email_eqb_eq in E. subst x.
    assert (Hj : joins k commits (emails_of k commits l) e = true).
    { unfold joins.
      destruct (findall_task_id _) as [| i ids]; [destruct Hk |].
      now apply mem_In. }
    rewrite Hj, occurrences_app, occurrences_one.
    rewrite (proj2 (email_eqb_eq e e) eq_refl). now rewrite IH.
  - destruct (joins _ _ _ _).
    + rewrite occurrences_app, occurrences_one, E. lia.
    + lia.
Qed.

Lemma emails_of_shown (k : string) (commits : list commit)
  (email_data : list email) (e : email) :
  findall_task_id (Email.subject e ++ Email.body e)%string = [] ->
  shows_commit_of commits e = true ->
  occurrences e (emails_of k commits email_data)
  = if email_in e email_data then 1 else 0.
Proof.
  intros Hids Hshow.
  induction email_data as [| x l IH] using rev_ind; auto.
  rewrite emails_of_snoc, email_in_app.
  destruct (email_eqb e x) eqn:E.
  - apply email_eqb_eq in E. subst x.
    unfold joins. rewrite Hids, Hshow. simpl.
    rewrite (email_in_occurrences e (emails_of k commits l)), IH.
    unfold email_in at 2. simpl.
    rewrite (proj2 (email_eqb_eq e e) eq_refl). simpl.
    rewrite orb_true_r.
    destruct (email_in e l); simpl; auto.
    rewrite occurrences_app, occurrences_one, IH.
    now rewrite (proj2 (email_eqb_eq e e) eq_refl).
  - assert (Hx : email_in e [x] = false)
      by (unfold email_in; simpl; now rewrite E).
    rewrite Hx, orb_false_r.
    destruct (joins _ _ _ _); auto.
    rewrite occurrences_app, occurrences_one, E. lia.
Qed.

(** X6. A returned cluster lists only emails of [email_data], and it lists
    an email whose subject and body, joined, show the cluster's key as
    many times as [email_data] holds the email. *)
Theorem email_naming_a_cluster_is_listed
  (jira_data : list ticket) (git_data : list commit)
  (email_data : list email) (out : list Final.cluster) :
  cluster_task_data fromisoformat jira_data git_data email_data = Ok out ->
  forall oc, In oc out ->
    (forall e, In e (Final.emails oc) -> In e email_data)
    /\ (forall e,
          In (Final.task_id oc)
             (findall_task_id (Email.subject e ++ Email.body e)%string) ->
          occurrences e (Final.emails oc) = occurrences e email_data).
Proof.
  intros Hrun oc Hoc.
  destruct (task_cluster_shape _ _ _ _ Hrun oc Hoc)
    as (cl & t & (_ & _ & He & _) & _ & _ & _ & _ & _ & _ & Hm & _).
  rewrite Hm, He. split.
  - intro e. apply emails_of_from_input.
  - intros e Hk. now apply emails_of_named.
Qed.

(** X7. An email of [email_data] that shows no task identifier and whose
    body shows the identifier of a commit of a returned cluster is listed
    by that cluster, once. *)
Theorem email_showing_a_commit_is_listed_once
  (jira_data : list ticket) (git_data : list commit)
  (email_data : list email) (out : list Final.cluster) :
  cluster_task_data fromisoformat jira_data git_data email_data = Ok out ->
  forall oc e c uuid,
    In oc out -> In e email_data ->
    findall_task_id (Email.subject e ++ Email.body e)%string = [] ->
    In uuid (findall_uuid (Email.body e)) ->
    In c (Final.git_commits oc) -> Commit.commit_id c = uuid ->
    occurrences e (Final.emails oc) = 1.
Proof.
  intros Hrun oc e c uuid Hoc He Hids Hu Hc Hcid.
  destruct (task_cluster_shape _ _ _ _ Hrun oc Hoc)
    as (cl & t & (_ & Hcm & Hem & _) & _ & _ & _ & _ & _ & Hg & Hm & _).
  rewrite Hm, Hem, emails_of_shown; auto.
  - apply email_in_In in He. now rewrite He.
  - unfold shows_commit_of. apply existsb_exists.
    exists uuid. split; auto. apply existsb_exists.
    exists c. split; [congruence | now apply String.eqb_eq].
Qed.

(** X8. A commit whose ticket field is absent or empty is ignored: with
    or without it, [cluster_task_data] returns the same clusters or
    raises the same exception, its timestamp being left unread. *)
Theorem commit_without_ticket_is_ignored
  (jira_data : list ticket) (before after : list commit) (c : commit)
  (email_data : list email) :
  truthy (Commit.ticket c) = None ->
  cluster_task_data fromisoformat jira_data (before ++ c :: after) email_data
  = cluster_task_data fromisoformat jira_data (before ++ after) email_data.
Proof.
  intro Hc. unfold cluster_task_data, correlate.
  destruct (foldM (add_ticket fromisoformat) jira_data []) as [d2 |]; auto.
  simpl. rewrite !foldM_app. simpl.
  destruct (foldM (add_commit fromisoformat) before d2) as [d |]; auto.
  simpl. unfold add_commit at 1. now rewrite Hc.
Qed.

(** X9. An email that shows no task identifier and whose body shows no
    UUID is ignored in the same way. *)
Theorem email_without_reference_is_ignored
  (jira_data : list ticket) (git_data : list commit)
  (before after : list email) (e : email) :
  findall_task_id (Email.subject e ++ Email.body e)%string = [] ->
  findall_uuid (Email.body e) = [] ->
  cluster_task_data fromisoformat jira_data git_data (before ++ e :: after)
  = cluster_task_data fromisoformat jira_data git_data (before ++ after).
Proof.
  intros Hids Hu. unfold cluster_task_data, correlate.
  destruct (foldM (add_ticket fromisoformat) jira_data []) as [d2 |]; auto.
  simpl.
  destruct (foldM (add_commit fromisoformat) git_data d2) as [d3 |]; auto.
  simpl. rewrite !foldM_app. simpl.
  destruct (foldM (add_email fromisoformat) before d3) as [d |]; auto.
  simpl. unfold add_email at 1. cbv zeta. now rewrite Hids, Hu.
Qed.

End TaskEmails.

(** ** The task correlator: when it raises *)

Lemma foldM_raises {S A : Type} (E : exn) (body : A -> S -> result S)
  (l : list A) (a : A) :
  (forall x s e, body x s = Raise e -> e = E) ->
  In a l ->
  (forall s, exists e, body a s = Raise e) ->
  forall s, foldM body l s = Raise E.
Proof.
  intros Hall Ha Hraise. induction l as [| x r IH]; [destruct Ha |].
  intro s. simpl. destruct (body x s) as [s1 | e] eqn:Hx; simpl.
  - destruct Ha as [-> | Ha]; [| now apply IH].
    destruct (Hraise s) as (e & He). congruence.
  - f_equal. eauto.
Qed.

Lemma dict_mapM_raises {V : Type} (E : exn) (body : V -> result V)
  (d : dict V) (k : string) (v : V) :
  (forall x e, body x = Raise e -> e = E) ->
  In (k, v) d -> (exists e, body v = Raise e) ->
  dict_mapM body d = Raise E.
Proof.
  intros Hall Hin Hraise. unfold dict_mapM.
  induction d as [| [k0 v0] r IH]; [destruct Hin |].
  simpl. destruct (body v0) as [v1 | e] eqn:Hv; simpl.
  - destruct Hin as [Hin | Hin].
    + inversion Hin; subst. destruct Hraise as (e & He). congruence.
    + now rewrite (IH Hin).
  - f_equal. eauto.
Qed.

Lemma comparable_mixed (ks : list datetime) (a b : datetime) :
  In a ks -> In b ks -> aware a <> aware b -> comparable ks = false.
Proof.
  intros Ha Hb Hne. destruct (comparable ks) eqn:E; auto.
  exfalso. apply Hne. now apply (comparable_same_kind _ E).
Qed.

Section TaskRaises.

Import ClusterKnowledge.

Variable fromisoformat : string -> option datetime.

Lemma parse_raises (s : string) (e : exn) :
  parse fromisoformat s = Raise e -> e = ValueError.
Proof.
  unfold parse. destruct (fromisoformat s); intro H; now inversion H.
Qed.

Lemma add_ticket_error (t : ticket) (d : task_clusters) (e : exn) :
  add_ticket fromisoformat t d = Raise e -> e = ValueError.
Proof.
  unfold add_ticket.
  destruct (parse fromisoformat (Ticket.created_at t)) eqn:E; simpl.
  - discriminate.
  - intro H. inversion H; subst. now apply parse_raises in E.
Qed.

Lemma add_commit_error (c : commit) (d : task_clusters) (e : exn) :
  add_commit fromisoformat c d = Raise e -> e = ValueError.
Proof.
  unfold add_commit. destruct (truthy (Commit.ticket c)); [| discriminate].
  destruct (parse fromisoformat (Commit.timestamp c)) eqn:E; simpl.
  - discriminate.
  - intro H. inversion H; subst. now apply parse_raises in E.
Qed.

Lemma tickets_return (jira_data : list ticket) (d : task_clusters) :
  (forall t, In t jira_data -> fromisoformat (Ticket.created_at t) <> None) ->
  exists d', foldM (add_ticket fromisoformat) jira_data d = Ok d'.
Proof.
  intro Hj.
  destruct (foldM_total (S := task_clusters) (fun _ => True)
              (add_ticket fromisoformat) jira_data) with (s := d)
    as (d' & Hd' & _); eauto.
  intros t s Ht _. unfold add_ticket, parse.
  destruct (fromisoformat (Ticket.created_at t)) eqn:E; simpl; eauto.
  now apply Hj in E.
Qed.

Lemma unparsable_ticket_raises (jira_data : list ticket)
  (git_data : list commit) (email_data : list email) (t : ticket) :
  In t jira_data -> fromisoformat (Ticket.created_at t) = None ->
  cluster_task_data fromisoformat jira_data git_data email_data
  = Raise ValueError.
Proof.
  intros Ht Hts. unfold cluster_task_data, correlate.
  rewrite (@foldM_raises _ _ ValueError (add_ticket fromisoformat)
             jira_data t);
    auto.
  - intros x s e. apply add_ticket_error.
  - intro s. unfold add_ticket, parse. rewrite Hts. simpl. eauto.
Qed.

(** X10. A ticket whose creation time does not parse makes
    [cluster_task_data] raise [ValueError]; so does, when the creation
    times parse, a commit with a ticket field whose timestamp does not
    parse. *)
Theorem unparsable_timestamp_raises_value_error
  (jira_data : list ticket) (git_data : list commit)
  (email_data : list email) :
  (forall t, In t jira_data ->
             fromisoformat (Ticket.created_at t) = None ->
             cluster_task_data fromisoformat jira_data git_data email_data
             = Raise ValueError)
  /\ (forall c, (forall t, In t jira_data ->
                           fromisoformat (Ticket.created_at t) <> None) ->
                In c git_data -> truthy (Commit.ticket c) <> None ->
                fromisoformat (Commit.timestamp c) = None ->
                cluster_task_data fromisoformat jira_data git_data email_data
                = Raise ValueError).
Proof.
  split.
  - intros t Ht Hts. now apply unparsable_ticket_raises with (t := t).
  - intros c Hj Hc Hk Hts. unfold cluster_task_data, correlate.
    destruct (tickets_return jira_data [] Hj) as (d2 & ->). simpl.
    rewrite (@foldM_raises _ _ ValueError (add_commit fromisoformat)
               git_data c);
      auto.
    + intros x s e. apply add_commit_error.
    + intro s. unfold add_commit, parse.
      destruct (truthy (Commit.ticket c)); [| contradiction].
      rewrite Hts. simpl. eauto.
Qed.

Lemma correlate_returns (jira_data : list ticket) (git_data : list commit)
  (email_data : list email) :
  (forall t, In t jira_data -> fromisoformat (Ticket.created_at t) <> None) ->
  (forall c, In c git_data -> fromisoformat (Commit.timestamp c) <> None) ->
  (forall e, In e email_data -> fromisoformat (Email.timestamp e) <> None) ->
  exists d, correlate fromisoformat jira_data git_data email_data = Ok d.
Proof.
  intros Hj Hg He. unfold correlate.
  destruct (tickets_return jira_data [] Hj) as (d2 & ->). simpl.
  destruct (foldM_total (S := task_clusters) (fun _ => True)
              (add_commit fromisoformat) git_data) with (s := d2)
    as (d3 & -> & _); auto.
  { intros c s Hc _. unfold add_commit, parse.
    destruct (fromisoformat (Commit.timestamp c)) eqn:E;
      [| now apply Hg in E].
    destruct (truthy (Commit.ticket c)); simpl; eauto. }
  simpl.
  destruct (foldM_total (S := task_clusters) (fun _ => True)
              (add_email fromisoformat) email_data) with (s := d3)
    as (d4 & -> & _); eauto.
  intros e s Hin _. unfold add_email. cbv zeta.
  destruct (fromisoformat (Email.timestamp e)) as [ts |] eqn:E;
    [| now apply He in E].
  destruct (foldM_total (S := task_clusters) (fun _ => True)
              (direct_attach fromisoformat e)
              (py_set (findall_task_id
                         (Email.subject e ++ Email.body e)%string)))
    with (s := s) as (d1 & -> & _); auto.
  { intros k s1 _ _. unfold direct_attach, parse. rewrite E.
    destruct (dict_mem k s1); simpl; eauto. }
  simpl. destruct (py_set _); eauto.
  destruct (foldM_total (S := task_clusters) (fun _ => True)
              (fallback fromisoformat e) (findall_uuid (Email.body e)))
    with (s := d1) as (d5 & -> & _); eauto.
  intros cid s1 _ _. unfold fallback.
  destruct (dict_mapM_total (fun _ _ => True)
              (fallback_cluster fromisoformat e cid) s1) as (d6 & -> & _);
    eauto.
  intros k cl _. unfold fallback_cluster, parse. rewrite E.
  destruct (existsb _ _); [| eauto].
  destruct (negb _); simpl; eauto.
Qed.

(** X11. When every timestamp parses, a ticket stamped with a naive
    creation time and a commit of that ticket stamped with an aware time,
    or the other way round, make [cluster_task_data] raise [TypeError]:
    the sort of the cluster's timeline cannot order the two. *)
Theorem mixed_timestamps_raise_type_error
  (jira_data : list ticket) (git_data : list commit)
  (email_data : list email) (t : ticket) (c : commit) (d1 d2 : datetime) :
  (forall t, In t jira_data -> fromisoformat (Ticket.created_at t) <> None) ->
  (forall c, In c git_data -> fromisoformat (Commit.timestamp c) <> None) ->
  (forall e, In e email_data -> fromisoformat (Email.timestamp e) <> None) ->
  In t jira_data -> In c git_data ->
  Commit.ticket c = Some (Ticket.id t) -> Ticket.id t <> EmptyString ->
  fromisoformat (Ticket.created_at t) = Some d1 ->
  fromisoformat (Commit.timestamp c) = Some d2 ->
  aware d1 <> aware d2 ->
  cluster_task_data fromisoformat jira_data git_data email_data
  = Raise TypeError.
Proof.
  intros Hj Hg He Ht Hc Hticket Hne Hd1 Hd2 Hmix.
  destruct (correlate_returns _ _ _ Hj Hg He) as (d4 & Hcor).
  unfold cluster_task_data. rewrite Hcor. simpl.
  set (key := Ticket.id t).
  set (Q1 := fun cl : cluster =>
               exists ev, In ev (timeline cl) /\ Event.timestamp ev = d1).
  set (Q2 := fun cl : cluster =>
               Q1 cl
               /\ exists ev, In ev (timeline cl) /\ Event.timestamp ev = d2).
  assert (Q1_seed : forall t' ts cl, Q1 cl -> Q1 (seed t' ts cl)).
  { intros t' ts cl (ev & Hev & E). exists ev. split; auto.
    simpl. apply in_app_iff. auto. }
  assert (Q1_push : forall c' ts cl, Q1 cl -> Q1 (push_commit c' ts cl)).
  { intros c' ts cl (ev & Hev & E). exists ev. split; auto.
    simpl. apply in_app_iff. auto. }
  assert (Q1_attach : forall e ts cl, Q1 cl -> Q1 (attach e ts cl)).
  { intros e ts cl (ev & Hev & E). exists ev. split; auto.
    simpl. apply in_app_iff. auto. }
  assert (Q2_push : forall c' ts cl, Q2 cl -> Q2 (push_commit c' ts cl)).
  { intros c' ts cl [H1 (ev & Hev & E)]. split; auto.
    exists ev. split; auto. simpl. apply in_app_iff. auto. }
  assert (Q2_attach : forall e ts cl, Q2 cl -> Q2 (attach e ts cl)).
  { intros e ts cl [H1 (ev & Hev & E)]. split; auto.
    exists ev. split; auto. simpl. apply in_app_iff. auto. }
  unfold correlate in Hcor.
  apply bind_Ok in Hcor. destruct Hcor as (s2 & Htickets & Hcor).
  apply bind_Ok in Hcor. destruct Hcor as (s3 & Hcommits & Hemails).
  (* the ticket's event *)
  destruct (in_split _ _ Ht) as (tb & ta & ->).
  rewrite foldM_app in Htickets.
  apply bind_Ok in Htickets. destruct Htickets as (sb & _ & Htickets).
  simpl in Htickets.
  apply bind_Ok in Htickets. destruct Htickets as (st & Hadd & Hafter).
  assert (H1 : exists cl, dict_get key st = Some cl /\ Q1 cl).
  { unfold add_ticket, parse in Hadd. rewrite Hd1 in Hadd. simpl in Hadd.
    inversion Hadd; subst st. rewrite dict_get_update_same.
    eexists. split; [reflexivity |].
    eexists. split; [simpl; apply in_app_iff; right; left; reflexivity |].
    reflexivity. }
  assert (H2 : exists cl, dict_get key s2 = Some cl /\ Q1 cl).
  { revert Hafter.
    apply (foldM_invariant
             (fun s => exists cl, dict_get key s = Some cl /\ Q1 cl)); auto.
    intros t' s s' _ Hs Hstep.
    eapply (add_ticket_holds fromisoformat key Q1); eauto. }
  (* the commit's event *)
  destruct (in_split _ _ Hc) as (cb & ca & ->).
  rewrite foldM_app in Hcommits.
  apply bind_Ok in Hcommits. destruct Hcommits as (sc & Hpre & Hcommits).
  simpl in Hcommits.
  apply bind_Ok in Hcommits. destruct Hcommits as (sd & Haddc & Hpost).
  assert (Hp : exists cl, dict_get key sc = Some cl /\ Q1 cl).
  { revert Hpre.
    apply (foldM_invariant
             (fun s => exists cl, dict_get key s = Some cl /\ Q1 cl)); auto.
    intros c' s s' _ Hs Hstep.
    eapply (add_commit_holds fromisoformat key Q1); eauto. }
  assert (Hq : exists cl, dict_get key sd = Some cl /\ Q2 cl).
  { destruct Hp as (cl & Hget & Hq1).
    unfold add_commit, parse in Haddc. rewrite Hticket in Haddc.
    simpl in Haddc. fold key in Haddc.
    apply String.eqb_neq in Hne. fold key in Hne. rewrite Hne in Haddc.
    rewrite Hd2 in Haddc. simpl in Haddc. inversion Haddc; subst sd.
    rewrite dict_get_update_same. unfold dict_view. rewrite Hget.
    eexists. split; [reflexivity |]. split; [now apply Q1_push |].
    eexists. split; [simpl; apply in_app_iff; right; left; reflexivity |].
    reflexivity. }
  assert (H3 : exists cl, dict_get key s3 = Some cl /\ Q2 cl).
  { revert Hpost.
    apply (foldM_invariant
             (fun s => exists cl, dict_get key s = Some cl /\ Q2 cl)); auto.
    intros c' s s' _ Hs Hstep.
    eapply (add_commit_holds fromisoformat key Q2); eauto. }
  assert (H4 : exists cl, dict_get key d4 = Some cl /\ Q2 cl).
  { revert Hemails.
    apply (foldM_invariant
             (fun s => exists cl, dict_get key s = Some cl /\ Q2 cl)); auto.
    intros e s s' _ Hs Hstep.
    eapply (add_email_holds fromisoformat key Q2); eauto. }
  destruct H4 as (cl & Hget & (ev1 & Hev1 & E1) & (ev2 & Hev2 & E2)).
  unfold sort_timelines.
  rewrite (@dict_mapM_raises _ TypeError sort_timeline d4 key cl); auto.
  - intros x e. unfold sort_timeline, sort_by_datetime.
    destruct (comparable _); simpl; [discriminate |].
    intro H. now inversion H.
  - now apply dict_get_In.
  - unfold sort_timeline, sort_by_datetime.
    rewrite (@comparable_mixed (map Event.timestamp (timeline cl)) d1 d2);
      simpl; eauto.
    + rewrite <- E1. now apply in_map.
    + rewrite <- E2. now apply in_map.
Qed.

End TaskRaises.

(** ** The employee clusters, one person at a time *)

Section EmployeeViews.

Import ClusterEmployee.
Import EmployeeView.

Variable fromisoformat : string -> option datetime.

Local Abbreviation shaped := (shaped fromisoformat).
Local Abbreviation view := (dict_view fresh).

Lemma file_under_view (person when : string)
  (f : datetime -> cluster -> cluster) (d d' : employee_clusters) :
  file_under fromisoformat person when f d = Ok d' ->
  exists ts,
    fromisoformat when = Some ts
    /\ forall k, view d' k
                 = if person =? k then f ts (view d k) else view d k.
Proof.
  unfold file_under. intro H.
  apply bind_Ok in H. destruct H as (ts & Hts & H).
  unfold parse in Hts. destruct (fromisoformat when); inversion Hts; subst.
  inversion H; subst. exists ts. split; auto.
  intro k. rewrite dict_view_update, (String.eqb_sym person).
  destruct (k =? person) eqn:E; auto.
  apply String.eqb_eq in E. now subst.
Qed.

(** Step 2, seen from one person. *)
Lemma employee_ticket_shaped (t : ticket) (seen : list ticket)
  (d d' : employee_clusters) :
  add_ticket fromisoformat t d = Ok d' ->
  (forall k, shaped k seen [] [] (view d k)) ->
  forall k, shaped k (seen ++ [t]) [] [] (view d' k).
Proof.
  unfold add_ticket. intros Hrun Hd k.
  apply bind_Ok in Hrun. destruct Hrun as (d1 & H1 & H2).
  destruct (Hd k) as (Ha & Hr & Hc & Hs & Hv & Htl).
  unfold EmployeeView.shaped, events in *. simpl in *.
  rewrite !app_nil_r in *. rewrite !filter_app, flat_map_app. simpl.
  unfold ticket_events.
  assert (Ea : assigned_to k t
               = match truthy (Ticket.assignee t) with
                 | Some a => a =? k
                 | None => false
                 end) by reflexivity.
  assert (Er : resolved_by k t
               = match truthy (Ticket.resolution t) with
                 | Some res => match search_resolver res with
                               | Some r => r =? k
                               | None => false
                               end
                 | None => false
                 end).
  { unfold resolved_by, resolver_of.
    now destruct (truthy (Ticket.resolution t)). }
  rewrite Ea, Er. clear Ea Er.
  assert (Hd1 : jira_assigned (view d1 k)
                = jira_assigned (view d k)
                  ++ (if match truthy (Ticket.assignee t) with
                         | Some a => a =? k
                         | None => false
                         end then [t] else [])
                /\ jira_resolved (view d1 k) = jira_resolved (view d k)
                /\ git_commits (view d1 k) = git_commits (view d k)
                /\ emails_sent (view d1 k) = emails_sent (view d k)
                /\ emails_received (view d1 k) = emails_received (view d k)
                /\ map Some (timeline (view d1 k))
                   = map Some (timeline (view d k))
                     ++ (if match truthy (Ticket.assignee t) with
                            | Some a => a =? k
                            | None => false
                            end
                         then [option_map
                                 (fun ts => mk_event "jira_assigned"
                                              (Ticket.id t) ts (OfTicket t))
                                 (fromisoformat (Ticket.created_at t))]
                         else [])).
  { destruct (truthy (Ticket.assignee t)) as [a |].
    - apply file_under_view in H1. destruct H1 as (ts & Hts & Hview).
      rewrite Hview. destruct (a =? k); simpl.
      + rewrite map_app, Hts. simpl. repeat split; auto.
      + rewrite !app_nil_r. repeat split; auto.
    - inversion H1; subst d1. rewrite !app_nil_r. repeat split; auto. }
  destruct Hd1 as (Ha1 & Hr1 & Hc1 & Hs1 & Hv1 & Htl1).
  destruct (truthy (Ticket.resolution t)) as [res |];
    [destruct (search_resolver res) as [r |] |].
  - apply file_under_view in H2. destruct H2 as (ts & Hts & Hview).
    rewrite Hview. destruct (r =? k); simpl.
    + rewrite map_app, Hts, Htl1, Htl, Ha1, Ha, Hr1, Hr. simpl.
      rewrite <- !app_assoc. repeat split; congruence.
    + rewrite !app_nil_r, Htl1, Htl, Ha1, Ha.
      repeat split; congruence.
  - inversion H2; subst d'. rewrite !app_nil_r, Htl1, Htl, Ha1, Ha.
    repeat split; congruence.
  - inversion H2; subst d'. rewrite !app_nil_r, Htl1, Htl, Ha1, Ha.
    repeat split; congruence.
Qed.

(** Step 3, seen from one person. *)
Lemma employee_commit_shaped (jira_data : list ticket) (c : commit)
  (seen : list commit) (d d' : employee_clusters) :
  add_commit fromisoformat c d = Ok d' ->
  (forall k, shaped k jira_data seen [] (view d k)) ->
  forall k, shaped k jira_data (seen ++ [c]) [] (view d' k).
Proof.
  unfold add_commit. intros Hrun Hd k.
  destruct (Hd k) as (Ha & Hr & Hc & Hs & Hv & Htl).
  unfold EmployeeView.shaped, events in *. simpl in *.
  rewrite !app_nil_r in *. rewrite !filter_app, flat_map_app. simpl.
  unfold commit_events.
  assert (Ea : authored_by k c
               = match truthy (Commit.author c) with
                 | Some a => a =? k
                 | None => false
                 end) by reflexivity.
  rewrite Ea. clear Ea.
  destruct (truthy (Commit.author c)) as [a |].
  - apply file_under_view in Hrun. destruct Hrun as (ts & Hts & Hview).
    rewrite Hview. destruct (a =? k); simpl.
    + rewrite map_app, Hts, Htl, Hc. simpl.
      rewrite <- !app_assoc. repeat split; auto.
    + rewrite !app_nil_r. repeat split; auto.
  - inversion Hrun; subst d'. rewrite !app_nil_r. repeat split; auto.
Qed.

(** The loop over the recipients of one email, seen from one person. *)
Lemma recipients_view (e : email) (recipients : list string)
  (d d' : employee_clusters) (k : string) :
  foldM (fun recipient =>
           file_under fromisoformat recipient (Email.timestamp e)
                      (received e))
        recipients d = Ok d' ->
  jira_assigned (view d' k) = jira_assigned (view d k)
  /\ jira_resolved (view d' k) = jira_resolved (view d k)
  /\ git_commits (view d' k) = git_commits (view d k)
  /\ emails_sent (view d' k) = emails_sent (view d k)
  /\ emails_received (view d' k)
     = emails_received (view d k)
       ++ map (fun _ => e) (filter (fun r => r =? k) recipients)
  /\ map Some (timeline (view d' k))
     = map Some (timeline (view d k))
       ++ map (fun e' =>
                 option_map (fun ts => mk_event "email_received"
                                         (Email.thread_id e') ts (OfEmail e'))
                            (fromisoformat (Email.timestamp e')))
              (map (fun _ => e) (filter (fun r => r =? k) recipients)).
Proof.
  revert d. induction recipients as [| r rs IH]; intros d Hrun.
  - simpl in *. inversion Hrun; subst. rewrite !app_nil_r. repeat split; auto.
  - simpl in Hrun. apply bind_Ok in Hrun. destruct Hrun as (d1 & H1 & Hrun).
    destruct (IH d1 Hrun) as (Ha & Hr & Hc & Hs & Hv & Htl).
    apply file_under_view in H1. destruct H1 as (ts & Hts & Hview).
    rewrite Ha, Hr, Hc, Hs, Hv, Htl, Hview. simpl.
    destruct (r =? k); simpl.
    + rewrite map_app, Hts. simpl. rewrite <- !app_assoc.
      repeat split; auto.
    + repeat split; auto.
Qed.

(** Step 4, seen from one person. *)
Lemma employee_email_shaped (jira_data : list ticket) (git_data : list commit)
  (e : email) (seen : list email) (d d' : employee_clusters) :
  add_email fromisoformat e d = Ok d' ->
  (forall k, shaped k jira_data git_data seen (view d k)) ->
  forall k, shaped k jira_data git_data (seen ++ [e]) (view d' k).
Proof.
  unfold add_email. intros Hrun Hd k.
  apply bind_Ok in Hrun. destruct Hrun as (d1 & H1 & H2).
  destruct (Hd k) as (Ha & Hr & Hc & Hs & Hv & Htl).
  destruct (recipients_view _ _ _ k H2) as (Ha2 & Hr2 & Hc2 & Hs2 & Hv2 & Htl2).
  unfold EmployeeView.shaped, events in *.
  rewrite !filter_app, !flat_map_app. simpl. rewrite !app_nil_r.
  unfold email_events.
  assert (Ea : sent_by k e
               = match truthy (Email.sender e) with
                 | Some a => a =? k
                 | None => false
                 end) by reflexivity.
  assert (Er : received_by k e
               = map (fun _ => e)
                   (filter (fun r => r =? k) (Email.recipients e)))
    by reflexivity.
  rewrite Ea, Er. clear Ea Er.
  rewrite Ha2, Hr2, Hc2, Hs2, Hv2, Htl2.
  destruct (truthy (Email.sender e)) as [a |].
  - apply file_under_view in H1. destruct H1 as (ts & Hts & Hview).
    rewrite Hview. destruct (a =? k); simpl.
    + rewrite map_app, Hts, Htl, Hs, Hv. simpl.
      rewrite <- !app_assoc. repeat split; auto.
    + rewrite Htl, Hs, Hv. rewrite <- !app_assoc, ?app_nil_r.
      repeat split; auto.
  - inversion H1; subst d1. simpl.
    rewrite Htl, Hs, Hv. rewrite <- !app_assoc, ?app_nil_r.
    repeat split; auto.
Qed.

Lemma foldM_shaped {A : Type}
  (body : A -> employee_clusters -> result employee_clusters)
  (P : list A -> employee_clusters -> Prop) (l : list A)
  (d d' : employee_clusters) :
  (forall a seen s s', body a s = Ok s' -> P seen s -> P (seen ++ [a]) s') ->
  P [] d -> foldM body l d = Ok d' -> P l d'.
Proof.
  intros Hstep Hd Hrun.
  apply (foldM_invariant_seen P body l) with (seen := []) (s := d); auto.
  intros; eapply Hstep; eauto.
Qed.

(** Steps 1 to 4: every person's cluster agrees with the input lists. *)
Lemma employee_correlate_shaped (jira_data : list ticket)
  (git_data : list commit) (email_data : list email)
  (d : employee_clusters) :
  correlate fromisoformat jira_data git_data email_data = Ok d ->
  forall k, shaped k jira_data git_data email_data (view d k).
Proof.
  unfold correlate. intro Hrun.
  apply bind_Ok in Hrun. destruct Hrun as (d2 & H2 & Hrun).
  apply bind_Ok in Hrun. destruct Hrun as (d3 & H3 & H4).
  assert (S2 : forall k, shaped k jira_data [] [] (view d2 k)).
  { apply (@foldM_shaped _ (add_ticket fromisoformat)
             (fun seen s => forall k, shaped k seen [] [] (view s k))
             jira_data [] d2); auto.
    - intros t seen s s' Hstep Hs. eapply employee_ticket_shaped; eauto.
    - intro k. unfold EmployeeView.shaped. simpl. repeat split; auto. }
  assert (S3 : forall k, shaped k jira_data git_data [] (view d3 k)).
  { apply (@foldM_shaped _ (add_commit fromisoformat)
             (fun seen s => forall k, shaped k jira_data seen [] (view s k))
             git_data d2 d3); auto.
    intros c seen s s' Hstep Hs. eapply employee_commit_shaped; eauto. }
  apply (@foldM_shaped _ (add_email fromisoformat)
           (fun seen s =>
              forall k, shaped k jira_data git_data seen (view s k))
           email_data d3 d); auto.
  intros e seen s s' Hstep Hs. eapply employee_email_shaped; eauto.
Qed.

(** Every cluster returned is the cluster the input lists fix for its
    employee, with the timeline sorted. *)
Lemma employee_cluster_shape (jira_data : list ticket)
  (git_data : list commit) (email_data : list email)
  (out : list Final.cluster) :
  cluster_employee_data fromisoformat jira_data git_data email_data
  = Ok out ->
  forall oc, In oc out ->
  exists cl,
    shaped (Final.employee oc) jira_data git_data email_data cl
    /\ sort_by_datetime Event.timestamp (timeline cl)
       = Ok (Final.timeline oc)
    /\ oc = final_cluster (Final.employee oc)
              {| jira_assigned := jira_assigned cl;
                 jira_resolved := jira_resolved cl;
                 git_commits := git_commits cl;
                 emails_sent := emails_sent cl;
                 emails_received := emails_received cl;
                 timeline := Final.timeline oc |}.
Proof.
  intros Hrun oc Hoc. unfold cluster_employee_data in Hrun.
  apply bind_Ok in Hrun. destruct Hrun as (d4 & Hcor & Hrun).
  apply bind_Ok in Hrun. destruct Hrun as (d5 & Hsorted & Hrun).
  inversion Hrun; subst out; clear Hrun.
  apply (Permutation_in _ (sort_by_desc_perm _ _)) in Hoc.
  apply employee_finalize_In in Hoc. destruct Hoc as (k & cl5 & Hin & ->).
  unfold sort_timelines in Hsorted.
  destruct (@dict_mapM_In _ _ _ _ k cl5 Hsorted Hin) as (cl4 & Hin4 & Hs).
  pose proof (employee_correlate_shaped _ _ _ Hcor k) as Hshape.
  destruct (correlate_filed _ _ _ _ Hcor) as [Hkeys _].
  assert (Hnd : NoDup (map fst d4))
    by (rewrite Hkeys; apply py_set_from_NoDup).
  unfold dict_view in Hshape.
  rewrite (@In_dict_get _ k d4 cl4 Hnd Hin4) in Hshape.
  exists cl4. simpl. split; auto.
  unfold sort_timeline in Hs.
  apply bind_Ok in Hs. destruct Hs as (tl & Htl & Hs).
  inversion Hs; subst cl5. simpl. split; auto.
Qed.

End EmployeeViews.

(** ** The employee correlator: what each cluster holds *)

Lemma sort_by_length {A : Type} (key : A -> Z) (l : list A) :
  length (sort_by key l) = length l.
Proof. apply Permutation_length, sort_by_perm. Qed.

Section EmployeeContents.

Import ClusterEmployee.
Import EmployeeView.

Variable fromisoformat : string -> option datetime.

Lemma events_length (person : string) (jira_data : list ticket)
  (git_data : list commit) (email_data : list email) :
  length (events fromisoformat person jira_data git_data email_data)
  = length (filter (assigned_to person) jira_data)
    + length (filter (resolved_by person) jira_data)
    + length (filter (authored_by person) git_data)
    + (length (filter (sent_by person) email_data)
       + length (flat_map (received_by person) email_data)).
Proof.
  unfold events. rewrite !length_app.
  assert (Hj : length (flat_map (ticket_events fromisoformat person) jira_data)
               = length (filter (assigned_to person) jira_data)
                 + length (filter (resolved_by person) jira_data)).
  { induction jira_data as [| t r IH]; auto.
    simpl. rewrite length_app, IH. unfold ticket_events.
    destruct (assigned_to person t), (resolved_by person t); simpl; lia. }
  assert (Hg : length (flat_map (commit_events fromisoformat person) git_data)
               = length (filter (authored_by person) git_data)).
  { induction git_data as [| c r IH]; auto.
    simpl. rewrite length_app, IH. unfold commit_events.
    destruct (authored_by person c); simpl; lia. }
  assert (He : length (flat_map (email_events fromisoformat person) email_data)
               = length (filter (sent_by person) email_data)
                 + length (flat_map (received_by person) email_data)).
  { induction email_data as [| e r IH]; auto.
    simpl. rewrite !length_app, IH. unfold email_events.
    rewrite length_app, length_map.
    destruct (sent_by person e); simpl; lia. }
  lia.
Qed.

(** X12. Each of the five lists of a returned employee cluster is read off
    the input in input order: the tickets assigned to the employee, the
    tickets whose resolution text names the employee after [Resolved by],
    the commits the employee authored, the emails the employee sent, and
    each email once for every time the employee stands among its
    recipients. *)
Theorem employee_cluster_lists_are_input_sublists
  (jira_data : list ticket) (git_data : list commit)
  (email_data : list email) (out : list Final.cluster) :
  cluster_employee_data fromisoformat jira_data git_data email_data
  = Ok out ->
  forall oc, In oc out ->
    Final.jira_assigned oc
    = filter (fun t => match truthy (Ticket.assignee t) with
                       | Some assignee => assignee =? Final.employee oc
                       | None => false
                       end) jira_data
    /\ Final.jira_resolved oc
       = filter (fun t => match resolver_of t with
                          | Some resolver => resolver =? Final.employee oc
                          | None => false
                          end) jira_data
    /\ Final.git_commits oc
       = filter (fun c => match truthy (Commit.author c) with
                          | Some author => author =? Final.employee oc
                          | None => false
                          end) git_data
    /\ Final.emails_sent oc
       = filter (fun e => match truthy (Email.sender e) with
                          | Some sender => sender =? Final.employee oc
                          | None => false
                          end) email_data
    /\ Final.emails_received oc
       = flat_map (fun e =>
                     map (fun _ => e)
                         (filter (fun r => r =? Final.employee oc)
                                 (Email.recipients e)))
                  email_data.
Proof.
  intros Hrun oc Hoc.
  destruct (employee_cluster_shape _ _ _ _ Hrun oc Hoc)
    as (cl & (Ha & Hr & Hc & Hs & Hv & _) & _ & E).
  rewrite E. simpl. rewrite Ha, Hr, Hc, Hs, Hv. repeat split; reflexivity.
Qed.

(** X13. The timeline of a returned employee cluster is the stable sort
    by timestamp of one event for each entry of the five lists: ticket by
    ticket the assignment and then the resolution, then the commits, then
    email by email the sending and then the receptions; so it has as many
    events as [total_activity_count] says. *)
Theorem employee_timeline_is_sorted_record_events
  (jira_data : list ticket) (git_data : list commit)
  (email_data : list email) (out : list Final.cluster) :
  cluster_employee_data fromisoformat jira_data git_data email_data
  = Ok out ->
  forall oc, In oc out ->
    (exists evs,
        map Some evs
        = events fromisoformat (Final.employee oc)
                 jira_data git_data email_data
        /\ Final.timeline oc
           = sort_by (fun ev => instant (Event.timestamp ev)) evs)
    /\ length (Final.timeline oc)
       = Summary.total_activity_count (Final.activity_summary oc).
Proof.
  intros Hrun oc Hoc.
  destruct (employee_cluster_shape _ _ _ _ Hrun oc Hoc)
    as (cl & (Ha & Hr & Hc & Hs & Hv & Htl) & Hsort & E).
  assert (Hsorted : Final.timeline oc
                    = sort_by (fun ev => instant (Event.timestamp ev))
                              (timeline cl)).
  { unfold sort_by_datetime in Hsort.
    destruct (comparable _); now inversion Hsort. }
  split.
  - exists (timeline cl). split; auto.
  - rewrite Hsorted, sort_by_length.
    rewrite <- (length_map Some), Htl, events_length.
    rewrite E. simpl. rewrite Ha, Hr, Hc, Hs, Hv. lia.
Qed.

(** X14. A record that names no one is ignored by
    [cluster_employee_data]: a ticket without assignee whose resolution
    text names no resolver, a commit without author, an email without
    sender and without recipients. With or without it the same clusters
    are returned or the same exception is raised, its timestamps being
    left unread. *)
Theorem record_naming_no_one_is_ignored :
  (forall before t after git_data email_data,
      truthy (Ticket.assignee t) = None -> resolver_of t = None ->
      cluster_employee_data fromisoformat (before ++ t :: after)
                            git_data email_data
      = cluster_employee_data fromisoformat (before ++ after)
                              git_data email_data)
  /\ (forall jira_data before c after email_data,
        truthy (Commit.author c) = None ->
        cluster_employee_data fromisoformat jira_data
                              (before ++ c :: after) email_data
        = cluster_employee_data fromisoformat jira_data
                                (before ++ after) email_data)
  /\ (forall jira_data git_data before e after,
        truthy (Email.sender e) = None -> Email.recipients e = [] ->
        cluster_employee_data fromisoformat jira_data git_data
                              (before ++ e :: after)
        = cluster_employee_data fromisoformat jira_data git_data
                                (before ++ after)).
Proof.
  split; [| split].
  - intros before t after git_data email_data Ha Hr.
    unfold cluster_employee_data, correlate. rewrite !foldM_app. simpl.
    destruct (foldM (add_ticket fromisoformat) before []) as [d |]; auto.
    simpl. unfold add_ticket at 1. rewrite Ha. simpl.
    unfold resolver_of in Hr.
    destruct (truthy (Ticket.resolution t)) as [res |]; auto.
    now rewrite Hr.
  - intros jira_data before c after email_data Ha.
    unfold cluster_employee_data, correlate.
    destruct (foldM (add_ticket fromisoformat) jira_data []) as [d2 |]; auto.
    simpl. rewrite !foldM_app. simpl.
    destruct (foldM (add_commit fromisoformat) before d2) as [d |]; auto.
    simpl. unfold add_commit at 1. now rewrite Ha.
  - intros jira_data git_data before e after Ha Hr.
    unfold cluster_employee_data, correlate.
    destruct (foldM (add_ticket fromisoformat) jira_data []) as [d2 |]; auto.
    simpl.
    destruct (foldM (add_commit fromisoformat) git_data d2) as [d3 |]; auto.
    simpl. rewrite !foldM_app. simpl.
    destruct (foldM (add_email fromisoformat) before d3) as [d |]; auto.
    simpl. unfold add_email at 1. now rewrite Ha, Hr.
Qed.

Lemma employee_file_under_error (person when : string)
  (f : datetime -> cluster -> cluster) (d : employee_clusters) (e : exn) :
  file_under fromisoformat person when f d = Raise e -> e = ValueError.
Proof.
  unfold file_under, parse. destruct (fromisoformat when); simpl; intro H;
    now inversion H.
Qed.

Lemma employee_add_ticket_error (t : ticket) (d : employee_clusters)
  (e : exn) :
  add_ticket fromisoformat t d = Raise e -> e = ValueError.
Proof.
  unfold add_ticket.
  destruct (match truthy (Ticket.assignee t) with
            | Some a => file_under fromisoformat a (Ticket.created_at t)
                          (assign t) d
            | None => Ok d
            end) as [d1 | e1] eqn:E1; simpl.
  - destruct (truthy (Ticket.resolution t)) as [res |]; [| discriminate].
    destruct (search_resolver res); [| discriminate].
    apply employee_file_under_error.
  - intro H. inversion H; subst.
    destruct (truthy (Ticket.assignee t)); [| discriminate].
    now apply employee_file_under_error in E1.
Qed.

Lemma employee_bad_ticket_raises
  (jira_data : list ticket) (git_data : list commit)
  (email_data : list email) (t : ticket) :
  In t jira_data ->
  (truthy (Ticket.assignee t) <> None
   /\ fromisoformat (Ticket.created_at t) = None)
  \/ (resolver_of t <> None
      /\ fromisoformat (Ticket.updated_at t) = None) ->
  cluster_employee_data fromisoformat jira_data git_data email_data
  = Raise ValueError.
Proof.
  intros Ht Hbad. unfold cluster_employee_data, correlate.
  rewrite (@foldM_raises _ _ ValueError (add_ticket fromisoformat)
             jira_data t); auto.
  - intros x s e. apply employee_add_ticket_error.
  - intro s. unfold add_ticket.
    destruct Hbad as [[Ha Hts] | [Hr Hts]].
    + destruct (truthy (Ticket.assignee t)); [| contradiction].
      unfold file_under, parse. rewrite Hts. simpl. eauto.
    + destruct (match truthy (Ticket.assignee t) with
                | Some a => file_under fromisoformat a (Ticket.created_at t)
                              (assign t) s
                | None => Ok s
                end) as [d1 | e1]; simpl; eauto.
      unfold resolver_of in Hr.
      destruct (truthy (Ticket.resolution t)) as [res |]; [| contradiction].
      destruct (search_resolver res); [| contradiction].
      unfold file_under, parse. rewrite Hts. simpl. eauto.
Qed.

(** X15. A ticket with an assignee whose creation time does not parse, or
    with a resolver named in its resolution text and an update time that
    does not parse, makes [cluster_employee_data] raise [ValueError]. *)
Theorem employee_unparsable_ticket_time_raises_value_error
  (jira_data : list ticket) (git_data : list commit)
  (email_data : list email) (t : ticket) :
  In t jira_data ->
  (truthy (Ticket.assignee t) <> None
   /\ fromisoformat (Ticket.created_at t) = None)
  \/ (resolver_of t <> None
      /\ fromisoformat (Ticket.updated_at t) = None) ->
  cluster_employee_data fromisoformat jira_data git_data email_data
  = Raise ValueError.
Proof.
  intros Ht Hbad. now apply employee_bad_ticket_raises with (t := t).
Qed.

End EmployeeContents.

(** ** The whole report: the totals of the analysis *)

Lemma list_sum_perm (l l' : list nat) :
  Permutation l l' -> list_sum l = list_sum l'.
Proof.
  induction 1 as [| x l l' _ IH | x y l | l l' l'' _ IH1 _ IH2]; simpl; lia.
Qed.

Lemma list_sum_map_add {A : Type} (f g : A -> nat) (l : list A) :
  list_sum (map (fun a => f a + g a) l)
  = list_sum (map f l) + list_sum (map g l).
Proof. induction l as [| a r IH]; simpl; lia. Qed.

Lemma list_sum_zero {A : Type} (l : list A) :
  list_sum (map (fun _ => 0) l) = 0.
Proof. induction l as [| a r IH]; simpl; lia. Qed.

(** One person of a duplicate-free list is counted once. *)
Lemma count_one_person (q : string) (ps : list string) :
  NoDup ps -> In q ps ->
  list_sum (map (fun p => if q =? p then 1 else 0) ps) = 1.
Proof.
  induction 1 as [| p ps Hnin Hnd IH]; [intros [] |].
  simpl. destruct (q =? p) eqn:E.
  - apply String.eqb_eq in E. subst p. intros _.
    replace (list_sum (map (fun p => if q =? p then 1 else 0) ps)) with 0;
      auto.
    clear IH Hnd. induction ps as [| p r IH]; auto.
    simpl. destruct (q =? p) eqn:E.
    + apply String.eqb_eq in E. subst. exfalso. apply Hnin. now left.
    + apply IH. intro H. apply Hnin. now right.
  - intros [-> | H]; [now rewrite String.eqb_refl in E | auto].
Qed.

(** Records shared out among the persons they name: every record that
    names someone is counted once. *)
Lemma count_by_person {A : Type} (who : A -> option string) (l : list A)
  (ps : list string) :
  NoDup ps ->
  (forall a q, In a l -> who a = Some q -> In q ps) ->
  list_sum (map (fun p => length (filter (fun a => match who a with
                                                   | Some q => q =? p
                                                   | None => false
                                                   end) l)) ps)
  = length (filter (fun a => named (who a)) l).
Proof.
  intros Hnd. induction l as [| a r IH]; intro Hin.
  - simpl. apply list_sum_zero.
  - simpl.
    rewrite (map_ext _ (fun p =>
               (match who a with
                | Some q => if q =? p then 1 else 0
                | None => 0
                end)
               + length (filter (fun a => match who a with
                                          | Some q => q =? p
                                          | None => false
                                          end) r))).
    + rewrite list_sum_map_add, IH by (intros; eapply Hin; eauto; now right).
      destruct (who a) as [q |] eqn:E; simpl.
      * rewrite count_one_person; auto. apply (Hin a); auto. now left.
      * now rewrite list_sum_zero.
    + intro p. destruct (who a) as [q |]; auto. now destruct (q =? p).
Qed.

(** The same for names that come in lists. *)
Lemma count_names (rs ps : list string) :
  NoDup ps -> (forall r, In r rs -> In r ps) ->
  list_sum (map (fun p => length (filter (fun r => r =? p) rs)) ps)
  = length rs.
Proof.
  intros Hnd Hin.
  rewrite (count_by_person (fun r => Some r) rs Hnd).
  - simpl. clear. induction rs; simpl; auto.
  - intros a q Ha E. inversion E; subst. auto.
Qed.

Section Report.

Import ClusterEmployee.
Import EmployeeView.

Variable fromisoformat : string -> option datetime.

Lemma sum_of_map (f : Summary.activity_summary -> nat)
  (l : list Final.cluster) :
  sum_of f l = list_sum (map (fun e => f (Final.activity_summary e)) l).
Proof. induction l as [| e r IH]; simpl; auto. Qed.

(** The employees of the returned list are the persons met, each once. *)
Lemma employee_names (jira_data : list ticket) (git_data : list commit)
  (email_data : list email) (out : list Final.cluster) :
  cluster_employee_data fromisoformat jira_data git_data email_data
  = Ok out ->
  Permutation (map Final.employee out)
              (py_set (encounters jira_data git_data email_data)).
Proof.
  intro Hrun. unfold cluster_employee_data in Hrun.
  apply bind_Ok in Hrun. destruct Hrun as (d4 & Hcor & Hrun).
  apply bind_Ok in Hrun. destruct Hrun as (d5 & Hsorted & Hrun).
  inversion Hrun; subst out; clear Hrun.
  destruct (correlate_filed _ _ _ _ Hcor) as [Hkeys Hall].
  rewrite (Permutation_map _ (sort_by_desc_perm _ _)).
  rewrite employee_finalize_all.
  - unfold sort_timelines in Hsorted.
    now rewrite (dict_mapM_keys _ _ Hsorted), Hkeys.
  - unfold sort_timelines in Hsorted.
    apply (@dict_all_mapM _ (fun _ cl => no_activity cl = false)
             (fun _ cl => no_activity cl = false) sort_timeline d4 d5);
      auto.
    intros k cl cl' Hcl Hs. unfold sort_timeline in Hs.
    apply bind_Ok in Hs. destruct Hs as (tl & _ & Hs).
    inversion Hs; subst. exact Hcl.
Qed.

(** A total of the analysis, shared out among the employees. *)
Lemma total_by_employee (f : Summary.activity_summary -> nat)
  (g : string -> nat) (out : list Final.cluster) (ps : list string) :
  Permutation (map Final.employee out) ps ->
  (forall oc, In oc out ->
              f (Final.activity_summary oc) = g (Final.employee oc)) ->
  sum_of f out = list_sum (map g ps).
Proof.
  intros Hperm Hf. rewrite sum_of_map.
  rewrite (map_ext_in _ (fun oc => g (Final.employee oc))) by exact Hf.
  rewrite <- (map_map Final.employee g).
  apply list_sum_perm. now apply Permutation_map.
Qed.

(** The receptions shared out among the recipients. *)
Lemma count_received (email_data : list email) (ps : list string) :
  NoDup ps ->
  (forall e r, In e email_data -> In r (Email.recipients e) -> In r ps) ->
  list_sum (map (fun p => length (flat_map (received_by p) email_data)) ps)
  = list_sum (map (fun e => length (Email.recipients e)) email_data).
Proof.
  intros Hnd Hin. induction email_data as [| e r IH].
  - simpl. apply list_sum_zero.
  - simpl.
    rewrite (map_ext _ (fun p =>
               length (filter (fun x => x =? p) (Email.recipients e))
               + length (flat_map (received_by p) r))).
    + rewrite list_sum_map_add, IH.
      * rewrite count_names; auto. intros x Hx.
        apply (Hin e); auto. now left.
      * intros e' x He'. apply Hin. now right.
    + intro p. rewrite length_app. unfold received_by at 1.
      now rewrite length_map.
Qed.

(** X16. In the report of [process_all_employee_data] the totals of the
    analysis count the input: one employee for each distinct person the
    records name; the tickets that have an assignee; the tickets whose
    resolution text names a resolver; the commits that have an author; the
    emails that have a sender; and the recipient entries of all emails. *)
Theorem analysis_totals_count_the_input
  (jira_data : list ticket) (git_data : list commit)
  (email_data : list email) (report : Report.report) :
  process_all_employee_data fromisoformat jira_data git_data email_data
  = Ok report ->
  let stats := Report.analysis report in
  Stats.total_employees stats
  = length (py_set (encounters jira_data git_data email_data))
  /\ Stats.total_jira_tickets_assigned stats
     = length (filter (fun t => named (truthy (Ticket.assignee t))) jira_data)
  /\ Stats.total_jira_tickets_resolved stats
     = length (filter (fun t => named (resolver_of t)) jira_data)
  /\ Stats.total_git_commits stats
     = length (filter (fun c => named (truthy (Commit.author c))) git_data)
  /\ Stats.total_emails_sent stats
     = length (filter (fun e => named (truthy (Email.sender e))) email_data)
  /\ Stats.total_emails_received stats
     = list_sum (map (fun e => length (Email.recipients e)) email_data).
Proof.
  unfold process_all_employee_data. intro Hrun.
  apply bind_Ok in Hrun. destruct Hrun as (out & Hout & Hrun).
  inversion Hrun; subst report; clear Hrun. simpl.
  pose proof (employee_names _ _ _ Hout) as Hperm.
  pose proof (employee_cluster_shape _ _ _ _ Hout) as Hshape.
  set (people := py_set (encounters jira_data git_data email_data)) in *.
  assert (Hnd : NoDup people) by apply py_set_from_NoDup.
  assert (Hmet : forall q, In q (encounters jira_data git_data email_data) ->
                           In q people).
  { intros q Hq. now apply (proj2 (py_set_In _ q)). }
  split; [| split; [| split; [| split; [| split]]]].
  - rewrite <- (length_map Final.employee). now apply Permutation_length.
  - rewrite (@total_by_employee Summary.jira_tickets_assigned
               (fun p => length (filter (assigned_to p) jira_data))
               out people Hperm).
    + apply (count_by_person (fun t => truthy (Ticket.assignee t))); auto.
      intros t q Ht E. apply Hmet. unfold encounters.
      apply in_app_iff. left. apply in_flat_map. exists t. split; auto.
      unfold ticket_people. rewrite E. now left.
    + intros oc Hoc.
      destruct (Hshape oc Hoc) as (cl & (Ha & _) & _ & E).
      rewrite E at 1. simpl. now rewrite Ha.
  - rewrite (@total_by_employee Summary.jira_tickets_resolved
               (fun p => length (filter (resolved_by p) jira_data))
               out people Hperm).
    + apply (count_by_person resolver_of); auto.
      intros t q Ht E. apply Hmet. unfold encounters.
      apply in_app_iff. left. apply in_flat_map. exists t. split; auto.
      unfold ticket_people. apply in_app_iff. right.
      unfold resolver_of in E.
      destruct (truthy (Ticket.resolution t)); [| discriminate].
      rewrite E. now left.
    + intros oc Hoc.
      destruct (Hshape oc Hoc) as (cl & (_ & Hr & _) & _ & E).
      rewrite E at 1. simpl. now rewrite Hr.
  - rewrite (@total_by_employee Summary.git_commits
               (fun p => length (filter (authored_by p) git_data))
               out people Hperm).
    + apply (count_by_person (fun c => truthy (Commit.author c))); auto.
      intros c q Hc E. apply Hmet. unfold encounters.
      apply in_app_iff. right. apply in_app_iff. left.
      apply in_flat_map. exists c. split; auto.
      unfold commit_people. rewrite E. now left.
    + intros oc Hoc.
      destruct (Hshape oc Hoc) as (cl & (_ & _ & Hc & _) & _ & E).
      rewrite E at 1. simpl. now rewrite Hc.
  - rewrite (@total_by_employee Summary.emails_sent
               (fun p => length (filter (sent_by p) email_data))
               out people Hperm).
    + apply (count_by_person (fun e => truthy (Email.sender e))); auto.
      intros e q He E. apply Hmet. unfold encounters.
      apply in_app_iff. right. apply in_app_iff. right.
      apply in_flat_map. exists e. split; auto.
      unfold email_people. rewrite E. now left.
    + intros oc Hoc.
      destruct (Hshape oc Hoc) as (cl & (_ & _ & _ & Hs & _) & _ & E).
      rewrite E at 1. simpl. now rewrite Hs.
  - rewrite (@total_by_employee Summary.emails_received
               (fun p => length (flat_map (received_by p) email_data))
               out people Hperm).
    + assert (Hin : forall e r, In e email_data ->
                                In r (Email.recipients e) -> In r people).
      { intros e r He Hr. apply Hmet. unfold encounters.
        apply in_app_iff. right. apply in_app_iff. right.
        apply in_flat_map. exists e. split; auto.
        unfold email_people. apply in_app_iff. now right. }
      now apply count_received.
    + intros oc Hoc.
      destruct (Hshape oc Hoc) as (cl & (_ & _ & _ & _ & Hv & _) & _ & E).
      rewrite E at 1. simpl. now rewrite Hv.
Qed.

End Report.

(** ** The analysis: the top contributors *)

Lemma sorted_split {A : Type} (key : A -> Z) (l1 l2 : list A) :
  Sorted (key_le key) (l1 ++ l2) ->
  forall a b, In a l1 -> In b l2 -> (key a <= key b)%Z.
Proof.
  intro Hs. apply Sorted_StronglySorted in Hs.
  - induction l1 as [| x r IH]; intros a b Ha Hb; [destruct Ha |].
    simpl in Hs. inversion Hs as [| ? ? Hr Hall]; subst.
    destruct Ha as [-> | Ha]; [| now apply IH].
    rewrite Forall_forall in Hall. apply Hall.
    apply in_app_iff. now right.
  - intros x y z Hxy Hyz. unfold key_le in *. lia.
Qed.

Section TopContributors.

Import ClusterEmployee.

Lemma first_three_lead (count : Final.cluster -> nat)
  (clusters : list Final.cluster) :
  leaders count clusters
    (map Final.employee
         (firstn 3 (sort_by_desc (fun e => Z.of_nat (count e)) clusters))).
Proof.
  set (sorted := sort_by_desc (fun e => Z.of_nat (count e)) clusters).
  exists (firstn 3 sorted), (skipn 3 sorted).
  split; [| split; [| split; [| split]]].
  - rewrite firstn_skipn. symmetry. apply sort_by_desc_perm.
  - reflexivity.
  - rewrite length_firstn. f_equal.
    apply Permutation_length, sort_by_desc_perm.
  - intros a b Ha Hb.
    pose proof (sort_by_sorted (fun e => (- Z.of_nat (count e))%Z) clusters)
      as Hs.
    fold (sort_by_desc (fun e => Z.of_nat (count e)) clusters) in Hs.
    fold sorted in Hs. rewrite <- (firstn_skipn 3 sorted) in Hs.
    pose proof (sorted_split _ _ Hs a b Ha Hb) as H. simpl in H. lia.
  - intros i a b Ha Hb. rewrite nth_error_firstn in Ha, Hb.
    destruct (i <? 3)%nat; [| discriminate].
    destruct (S i <? 3)%nat; [| discriminate].
    pose proof (sort_by_desc_adjacent _ _ _ Ha Hb) as H. simpl in H. lia.
Qed.

(** X17. [top_code_contributors] names the three clusters with the most
    commits, or all of them when there are fewer, largest count first;
    no cluster left out has more commits than a cluster named.
    [top_issue_resolvers] does the same with the resolved tickets. *)
Theorem top_lists_name_the_three_largest :
  forall employee_clusters,
    let stats := analyze_employee_clusters employee_clusters in
    leaders (fun e => Summary.git_commits (Final.activity_summary e))
            employee_clusters (Stats.top_code_contributors stats)
    /\ leaders (fun e => Summary.jira_tickets_resolved
                           (Final.activity_summary e))
               employee_clusters (Stats.top_issue_resolvers stats).
Proof.
  intro employee_clusters. simpl. split; apply first_three_lead.
Qed.

End TopContributors.

(** ** The collaboration graph: what a weight counts *)

Lemma mem_set_add (x a : string) (l : list string) :
  mem x (set_add a l) = (x =? a) || mem x l.
Proof.
  unfold set_add. destruct (mem a l) eqn:E.
  - destruct (x =? a) eqn:Ex; auto.
    apply String.eqb_eq in Ex. subst. now rewrite E.
  - rewrite mem_app. simpl. rewrite orb_false_r. apply orb_comm.
Qed.

Lemma count_in_NoDup (z : string) (l : list string) :
  NoDup l ->
  length (filter (fun y => y =? z) l) = if mem z l then 1 else 0.
Proof.
  induction 1 as [| x l Hnin Hnd IH]; auto.
  simpl. rewrite (String.eqb_sym z x). destruct (x =? z) eqn:E; simpl; auto.
  apply String.eqb_eq in E. subst. rewrite IH.
  destruct (mem z l) eqn:Em; auto. apply mem_In in Em. contradiction.
Qed.

Lemma filter_by_key {V : Type} (p : string * V -> bool) (q : string -> bool)
  (d : dict V) :
  (forall k v, In (k, v) d -> p (k, v) = q k) ->
  length (filter p d) = length (filter q (map fst d)).
Proof.
  induction d as [| [k v] r IH]; intro H; auto.
  simpl. rewrite (H k v) by now left.
  destruct (q k); simpl; rewrite IH; auto; intros; apply H; now right.
Qed.

Section CollaborationWeights.

Import ClusterEmployee.
Import CollaborationView.

Lemma weight_add_recipient (sender : option string) (r : string) (g : graph)
  (a b : string) :
  weight (add_recipient sender r g) a b
  = weight g a b
    + match truthy sender with
      | Some s =>
          if named (truthy (Some r)) && negb (s =? r)
             && (((s =? a) && (r =? b)) || ((s =? b) && (r =? a)))
          then 1 else 0
      | None => 0
      end.
Proof.
  unfold add_recipient. destruct (truthy sender) as [s |]; [| lia].
  destruct (truthy (Some r)) as [r' |] eqn:Er; simpl; [| lia].
  apply truthy_Some in Er. destruct Er as [Er _]. inversion Er; subst r'.
  destruct (s =? r) eqn:Esr; simpl; [lia |].
  rewrite weight_link.
  rewrite (String.eqb_sym a s), (String.eqb_sym b r),
    (String.eqb_sym a r), (String.eqb_sym b s).
  destruct (s =? a) eqn:E1, (r =? b) eqn:E2, (r =? a) eqn:E3,
    (s =? b) eqn:E4; simpl; try lia;
    apply String.eqb_eq in E1, E3; subst;
    now rewrite String.eqb_refl in Esr.
Qed.

Lemma weight_add_exchange (e : email) (g : graph) (a b : string) :
  weight (add_exchange e g) a b = weight g a b + exchanges a b e.
Proof.
  unfold add_exchange, exchanges.
  destruct (truthy (Email.sender e)) as [s |] eqn:Es.
  - set (p := fun recipient =>
                named (truthy (Some recipient)) && negb (s =? recipient)
                && (((s =? a) && (recipient =? b))
                    || ((s =? b) && (recipient =? a)))).
    revert g. induction (Email.recipients e) as [| r rs IH]; intro g.
    + simpl. lia.
    + cbn [fold_left filter]. rewrite IH, weight_add_recipient, Es.
      change (named (truthy (Some r)) && negb (s =? r)
              && ((s =? a) && (r =? b) || (s =? b) && (r =? a)))
        with (p r).
      destruct (p r); simpl; lia.
  - revert g. induction (Email.recipients e) as [| r rs IH]; intro g.
    + simpl. lia.
    + cbn [fold_left]. rewrite IH, weight_add_recipient, Es. lia.
Qed.

Lemma weight_exchanges (email_data : list email) (g : graph) (a b : string) :
  weight (fold_left (fun g e => add_exchange e g) email_data g) a b
  = weight g a b + list_sum (map (exchanges a b) email_data).
Proof.
  revert g. induction email_data as [| e r IH]; intro g; simpl; [lia |].
  rewrite IH, weight_add_exchange. lia.
Qed.

(** One contributor linked with each of the later ones. *)
Lemma weight_link_all (x : string) (r : list string) (g : graph)
  (a b : string) :
  weight (fold_left (fun g y => link x y g) r g) a b
  = weight g a b
    + (if a =? x then length (filter (fun y => y =? b) r) else 0)
    + (if b =? x then length (filter (fun y => y =? a) r) else 0).
Proof.
  revert g. induction r as [| y r IH]; intro g; simpl.
  - destruct (a =? x), (b =? x); lia.
  - rewrite IH, weight_link.
    rewrite (String.eqb_sym b y), (String.eqb_sym a y).
    destruct (a =? x), (b =? x), (y =? b), (y =? a); simpl; lia.
Qed.

(** Step 3 on the contributors of one ticket: every two of them are
    linked once. *)
Lemma weight_link_pairs (l : list string) (g : graph) (a b : string) :
  NoDup l ->
  weight (link_pairs l g) a b
  = weight g a b + (if negb (a =? b) && mem a l && mem b l then 1 else 0).
Proof.
  intro Hnd. revert g. induction Hnd as [| x r Hnin Hnd IH]; intro g.
  - simpl. rewrite andb_false_r. lia.
  - simpl. rewrite IH, weight_link_all, !count_in_NoDup by auto.
    assert (Hx : mem x r = false).
    { destruct (mem x r) eqn:E; auto. apply mem_In in E. contradiction. }
    destruct (a =? x) eqn:Ea, (b =? x) eqn:Eb;
      try (apply String.eqb_eq in Ea; subst a);
      try (apply String.eqb_eq in Eb; subst b);
      rewrite ?String.eqb_refl, ?Hx, ?Ea, ?Eb; simpl.
    + lia.
    + rewrite (String.eqb_sym x b), Eb. simpl.
      destruct (mem b r); simpl; lia.
    + destruct (mem a r); simpl; lia.
    + lia.
Qed.

Lemma weight_add_ticket_pairs (l : list string) (g : graph) (a b : string) :
  NoDup l ->
  weight (add_ticket_pairs l g) a b
  = weight g a b + (if negb (a =? b) && mem a l && mem b l then 1 else 0).
Proof.
  intro Hnd. unfold add_ticket_pairs.
  destruct (1 <? length l)%nat eqn:E; [now apply weight_link_pairs |].
  destruct l as [| x [| y r]]; simpl in *; try discriminate.
  - rewrite andb_false_r. lia.
  - rewrite !orb_false_r.
    destruct (a =? x) eqn:Ea; [destruct (b =? x) eqn:Eb |].
    + apply String.eqb_eq in Ea, Eb. subst.
      rewrite String.eqb_refl. simpl. lia.
    + rewrite andb_false_r. lia.
    + rewrite andb_false_r. simpl. lia.
Qed.

Lemma weight_tickets (tc : dict (list string)) (g : graph) (a b : string) :
  dict_all (fun _ l => NoDup l) tc ->
  weight (fold_left (fun g entry => add_ticket_pairs (snd entry) g) tc g) a b
  = weight g a b
    + length (filter (fun entry => negb (a =? b) && mem a (snd entry)
                                   && mem b (snd entry)) tc).
Proof.
  revert g. induction tc as [| [k l] r IH]; intros g Hall; simpl; [lia |].
  rewrite IH by (intros k' l' H; apply (Hall k' l'); now right).
  rewrite weight_add_ticket_pairs by (apply (Hall k l); now left).
  destruct (negb (a =? b) && mem a l && mem b l); simpl; lia.
Qed.

Lemma contributed_worked (a k : string) (git_data : list commit) :
  contributed a k git_data = true -> In k (worked_tickets git_data).
Proof.
  unfold contributed, worked_tickets. intro H.
  apply existsb_exists in H. destruct H as (c & Hc & H).
  apply (proj2 (py_set_In _ k)). apply in_flat_map. exists c. split; auto.
  destruct (truthy (Commit.ticket c)) as [t |]; [| discriminate].
  destruct (truthy (Commit.author c)); [| discriminate].
  apply andb_true_iff in H. destruct H as [H _].
  apply String.eqb_eq in H. subst. now left.
Qed.

(** The [ticket_contributors] dictionary read off the commits. *)
Lemma ticket_contributors_shape (git_data : list commit) :
  map fst (ticket_contributors git_data) = worked_tickets git_data
  /\ dict_all (fun k l => NoDup l
                          /\ forall a, mem a l = contributed a k git_data)
              (ticket_contributors git_data).
Proof.
  unfold ticket_contributors.
  induction git_data as [| c git IH] using rev_ind.
  - split; [reflexivity | apply dict_all_nil].
  - rewrite fold_left_app. simpl. destruct IH as [Hkeys Hall].
    set (tc := fold_left (fun tc c => add_contributor c tc) git []) in *.
    assert (Hnd : NoDup (map fst tc))
      by (rewrite Hkeys; apply py_set_from_NoDup).
    assert (Hc : forall a k,
               contributed a k (git ++ [c])
               = contributed a k git
                 || match truthy (Commit.ticket c),
                          truthy (Commit.author c) with
                    | Some t, Some author => (t =? k) && (author =? a)
                    | _, _ => false
                    end).
    { intros a k. unfold contributed. rewrite existsb_app. simpl.
      now rewrite orb_false_r. }
    unfold worked_tickets, add_contributor. rewrite flat_map_app. simpl.
    destruct (truthy (Commit.ticket c)) as [t |] eqn:Et;
      [destruct (truthy (Commit.author c)) as [x |] eqn:Ex |].
    + split.
      * rewrite dict_update_keys, Hkeys. unfold worked_tickets.
        cbn [app]. now rewrite py_set_snoc.
      * intros k l Hin.
        apply dict_update_In_NoDup in Hin; auto.
        destruct Hin as [[Hne Hin] | [-> (v & -> & Hv)]].
        -- destruct (Hall k l Hin) as [Hl Hm]. split; auto.
           intro a. rewrite Hc, Hm.
           apply String.eqb_neq in Hne. rewrite String.eqb_sym in Hne.
           rewrite Hne. simpl. now rewrite orb_false_r.
        -- destruct Hv as [Hin | [-> Hnone]].
           ++ destruct (Hall t v Hin) as [Hl Hm]. split.
              ** now apply set_add_NoDup.
              ** intro a. rewrite Hc, mem_set_add, Hm.
                 rewrite String.eqb_refl. simpl.
                 rewrite (String.eqb_sym x a). apply orb_comm.
           ++ split; [apply set_add_NoDup; constructor |].
              intro a. rewrite Hc, mem_set_add. simpl.
              rewrite String.eqb_refl, orb_false_r. simpl.
              rewrite (String.eqb_sym x a).
              destruct (contributed a t git) eqn:E; auto.
              apply contributed_worked in E. exfalso.
              apply dict_get_None in Hnone. apply Hnone.
              now rewrite Hkeys.
    + rewrite app_nil_r. split; auto.
      intros k l Hin. destruct (Hall k l Hin) as [Hl Hm]. split; auto.
      intro a. now rewrite Hc, Hm, orb_false_r.
    + rewrite app_nil_r. split; auto.
      intros k l Hin. destruct (Hall k l Hin) as [Hl Hm]. split; auto.
      intro a. now rewrite Hc, Hm, orb_false_r.
Qed.

(** X18. The strength the returned networks give to a pair of persons is
    the number of recipient entries that make the two sender and
    recipient of an email, in either order, plus the number of tickets
    that both have a commit for; a person has no edge to oneself. *)
Theorem collaboration_strength_counts_emails_and_shared_tickets :
  forall employee_clusters jira_data git_data email_data a b,
    edge_weight (identify_collaboration_networks employee_clusters jira_data
                   git_data email_data) a b
    = list_sum (map (exchanges a b) email_data)
      + shared_tickets a b git_data.
Proof.
  intros. rewrite edge_weight_graph. unfold collaboration_graph.
  destruct (ticket_contributors_shape git_data) as [Hkeys Hall].
  rewrite weight_tickets, weight_exchanges.
  - f_equal. unfold shared_tickets. destruct (a =? b); simpl.
    + clear. induction (ticket_contributors git_data) as [| x r IH]; auto.
    + rewrite <- Hkeys. apply filter_by_key.
      intros k l Hin. destruct (Hall k l Hin) as [_ Hm]. simpl.
      now rewrite !Hm.
  - intros k l Hin. now destruct (Hall k l Hin).
Qed.

End CollaborationWeights.

(** ** The collaboration networks: their form *)

Lemma dict_update_nonempty {V : Type} (dflt : V) (k : string) (f : V -> V)
  (d : dict V) :
  dict_update dflt k f d <> [].
Proof.
  destruct d as [| [k' v] r]; simpl; [discriminate |].
  destruct (k =? k'); discriminate.
Qed.

Lemma fold_right_sum {V : Type} (d : dict V) (f : V -> nat) :
  fold_right (fun cs acc => f (snd cs) + acc) 0 d
  = list_sum (map (fun cs => f (snd cs)) d).
Proof. induction d as [| kv r IH]; simpl; auto. Qed.

Section CollaborationForm.

Import ClusterEmployee.

(** Every step of the construction links two different persons. *)
Lemma collaboration_graph_links_distinct (P : graph -> Prop)
  (git_data : list commit) (email_data : list email) :
  P [] ->
  (forall a b g, a <> b -> P g -> P (link a b g)) ->
  P (collaboration_graph git_data email_data).
Proof.
  intros Hnil Hlink. unfold collaboration_graph.
  destruct (ticket_contributors_shape git_data) as [_ Hall].
  assert (Hg2 : P (fold_left (fun g e => add_exchange e g) email_data [])).
  { apply fold_left_invariant; auto.
    intros e g Hg. unfold add_exchange.
    apply fold_left_invariant; auto.
    intros r g' Hg'. unfold add_recipient.
    destruct (truthy (Email.sender e)) as [s |]; auto.
    destruct (truthy (Some r)) as [r' |]; auto.
    destruct (s =? r') eqn:E; auto.
    apply Hlink; auto. now apply String.eqb_neq. }
  revert Hg2. generalize (fold_left (fun g e => add_exchange e g)
                                    email_data []).
  induction (ticket_contributors git_data) as [| [k l] tc IH];
    intros g Hg; simpl; auto.
  apply IH.
  - intros k' l' H. apply (Hall k' l'). now right.
  - unfold add_ticket_pairs.
    destruct (1 <? length l)%nat; auto.
    destruct (Hall k l) as [Hnd _]; [now left |].
    clear - Hnd Hg Hlink. revert g Hg.
    induction Hnd as [| x r Hnin Hnd IH']; intros g Hg; simpl; auto.
    apply IH'. clear IH' Hnd. revert g Hg.
    induction r as [| y r IH'']; intros g Hg; simpl; auto.
    apply IH''.
    + intro H. apply Hnin. now right.
    + apply Hlink; auto. intros ->. apply Hnin. now left.
Qed.

Lemma bump_rows (a b : string) (g : graph) :
  a <> b ->
  dict_all (fun x row =>
              row <> [] /\ dict_all (fun y w => y <> x /\ 1 <= w) row) g ->
  dict_all (fun x row =>
              row <> [] /\ dict_all (fun y w => y <> x /\ 1 <= w) row)
           (bump a b g).
Proof.
  intros Hab Hg x row Hin. unfold bump in Hin.
  apply dict_update_In in Hin.
  destruct Hin as [Hin | [-> (v & -> & Hv)]]; [now apply Hg |].
  split; [apply dict_update_nonempty |].
  intros y w Hy. apply dict_update_In in Hy.
  destruct Hy as [Hy | [-> (w0 & -> & _)]].
  - destruct Hv as [Hv | [-> _]]; [| destruct Hy].
    destruct (Hg a v Hv) as [_ Hrow]. now apply Hrow.
  - split; [congruence | lia].
Qed.

Lemma collaboration_graph_rows (git_data : list commit)
  (email_data : list email) :
  dict_all (fun x row =>
              row <> [] /\ dict_all (fun y w => y <> x /\ 1 <= w) row)
           (collaboration_graph git_data email_data).
Proof.
  apply collaboration_graph_links_distinct.
  - apply dict_all_nil.
  - intros a b g Hab Hg. unfold link.
    apply bump_rows; [congruence |]. now apply bump_rows.
Qed.

(** X19. The list [identify_collaboration_networks] returns names each
    employee once and runs from the largest total to the smallest. In
    each network the total is the sum of the strengths, the collaborators
    are listed once each from the strongest to the weakest, there is at
    least one, none is the employee, and every strength is at least 1. *)
Theorem collaboration_networks_are_well_formed :
  forall employee_clusters jira_data git_data email_data,
    let nets := identify_collaboration_networks employee_clusters jira_data
                  git_data email_data in
    NoDup (map Network.employee nets)
    /\ (forall i m n, nth_error nets i = Some m ->
                      nth_error nets (S i) = Some n ->
                      Network.total_collaborations n
                      <= Network.total_collaborations m)
    /\ forall n, In n nets ->
         Network.total_collaborations n
         = list_sum (map Network.strength (Network.collaborators n))
         /\ Network.collaborators n <> []
         /\ NoDup (map Network.colleague (Network.collaborators n))
         /\ (forall c, In c (Network.collaborators n) ->
                       Network.colleague c <> Network.employee n
                       /\ 1 <= Network.strength c)
         /\ (forall i c c', nth_error (Network.collaborators n) i = Some c ->
                            nth_error (Network.collaborators n) (S i)
                            = Some c' ->
                            Network.strength c' <= Network.strength c).
Proof.
  intros employee_clusters jira_data git_data email_data nets.
  unfold identify_collaboration_networks in nets.
  destruct (collaboration_graph_well_keyed git_data email_data)
    as [Hkeys Hrows].
  pose proof (collaboration_graph_rows git_data email_data) as Hform.
  set (g := collaboration_graph git_data email_data) in *.
  split; [| split].
  - apply (Permutation_NoDup (l := map fst g)); auto.
    subst nets. rewrite (Permutation_map _ (sort_by_desc_perm _ _)).
    rewrite map_map. simpl. apply Permutation_refl.
  - intros i m n Hm Hn.
    pose proof (sort_by_desc_adjacent _ _ _ Hm Hn) as H. simpl in H. lia.
  - intros n Hn. subst nets.
    apply (Permutation_in _ (sort_by_desc_perm _ _)) in Hn.
    apply in_map_iff in Hn. destruct Hn as ([a row] & <- & Hin).
    destruct (Hform a row Hin) as [Hne Hrow].
    pose proof (Hrows a row Hin) as Hnd. simpl in Hnd.
    unfold network_of. simpl.
    set (items := map (fun cs => {| Network.colleague := fst cs;
                                    Network.strength := snd cs |}) row).
    pose proof (sort_by_desc_perm
                  (fun c => Z.of_nat (Network.strength c)) items) as Hperm.
    split; [| split; [| split; [| split]]].
    + rewrite (list_sum_perm (Permutation_map Network.strength Hperm)).
      subst items. rewrite map_map. simpl.
      apply (fold_right_sum row (fun w => w)).
    + intro E. rewrite E in Hperm. apply Permutation_nil in Hperm.
      subst items. destruct row; [now apply Hne | discriminate].
    + apply (Permutation_NoDup (l := map fst row)); auto.
      rewrite (Permutation_map Network.colleague Hperm).
      subst items. rewrite map_map. simpl. apply Permutation_refl.
    + intros c Hc. apply (Permutation_in _ Hperm) in Hc.
      subst items. apply in_map_iff in Hc.
      destruct Hc as ([y w] & <- & Hy). simpl. now apply Hrow.
    + intros i c c' Hc Hc'.
      pose proof (sort_by_desc_adjacent _ _ _ Hc Hc') as H. simpl in H. lia.
Qed.

End CollaborationForm.

(** ** Skill extraction: the form of the lists *)

Lemma dict_set_keys {V : Type} (k : string) (v : V) (d : dict V) :
  map fst (dict_set k v d) = set_add k (map fst d).
Proof.
  unfold set_add. induction d as [| [k0 v0] r IH]; simpl; auto.
  destruct (k =? k0) eqn:E; simpl; auto.
  rewrite IH. now destruct (mem k (map fst r)).
Qed.

Lemma dict_set_In {V : Type} (k : string) (v : V) (d : dict V) (k' : string)
  (v' : V) :
  In (k', v') (dict_set k v d) -> (k' = k /\ v' = v) \/ In (k', v') d.
Proof.
  induction d as [| [k0 v0] r IH]; simpl.
  - intros [H | []]. inversion H; auto.
  - destruct (k =? k0) eqn:E; simpl.
    + apply String.eqb_eq in E. subst k0.
      intros [H | H]; [inversion H |]; auto.
    + intros [H | H]; auto. destruct (IH H); auto.
Qed.

Section SkillForm.

Import ClusterEmployee.

Local Abbreviation counted :=
  (dict_all (fun term (n : nat) =>
               In term (technologies ++ actions) /\ 1 <= n)).

Lemma scan_counted (vocabulary : list string) (text : string)
  (skills : dict nat) :
  (forall term, In term vocabulary -> In term (technologies ++ actions)) ->
  counted skills -> counted (scan vocabulary text skills).
Proof.
  unfold scan. intros Hv Hs. revert skills Hs.
  induction vocabulary as [| v r IH]; intros skills Hs; simpl; auto.
  apply IH; [intros; apply Hv; now right |].
  destruct (contains v text); auto.
  intros term n Hin. apply dict_update_In in Hin.
  destruct Hin as [Hin | [-> (n0 & -> & _)]]; [now apply Hs |].
  split; [apply Hv; now left | lia].
Qed.

Lemma skill_counts_counted (e : Final.cluster) : counted (skill_counts e).
Proof.
  unfold skill_counts.
  apply (fold_left_invariant (fun s => counted s)).
  - intros t s Hs. unfold scan_ticket. apply scan_counted; auto.
    intros term H. apply in_app_iff. now left.
  - apply (fold_left_invariant (fun s => counted s)).
    + intros c s Hs. unfold scan_commit.
      apply scan_counted; [intros term H; apply in_app_iff; now right |].
      apply scan_counted; auto.
      intros term H. apply in_app_iff. now left.
    + apply dict_all_nil.
Qed.

(** X20. [extract_skills_from_activity] returns one entry for each
    employee name of its input, in order of first occurrence. The list
    under a name is computed from one cluster of that name; it lists each
    skill once, the most mentioned first; every skill is a word of the
    two vocabularies and every count is at least 1. *)
Theorem skill_lists_are_well_formed :
  forall employee_clusters,
    map fst (extract_skills_from_activity employee_clusters)
    = py_set (map Final.employee employee_clusters)
    /\ forall employee skills,
         In (employee, skills)
            (extract_skills_from_activity employee_clusters) ->
         (exists e, In e employee_clusters
                    /\ Final.employee e = employee
                    /\ skills = skills_of e)
         /\ NoDup (map Skill.skill skills)
         /\ (forall x, In x skills ->
                       In (Skill.skill x) (technologies ++ actions)
                       /\ 1 <= Skill.mentions x)
         /\ (forall i x y, nth_error skills i = Some x ->
                           nth_error skills (S i) = Some y ->
                           Skill.mentions y <= Skill.mentions x).
Proof.
  intro employee_clusters.
  assert (Hshape :
            map fst (extract_skills_from_activity employee_clusters)
            = py_set (map Final.employee employee_clusters)
            /\ forall employee skills,
                 In (employee, skills)
                    (extract_skills_from_activity employee_clusters) ->
                 exists e, In e employee_clusters
                           /\ Final.employee e = employee
                           /\ skills = skills_of e).
  { unfold extract_skills_from_activity.
    induction employee_clusters as [| e r IH] using rev_ind.
    - split; [reflexivity | intros ? ? []].
    - rewrite fold_left_app. simpl. destruct IH as [Hkeys Hin]. split.
      + rewrite dict_set_keys, Hkeys, map_app. cbn [map].
        now rewrite py_set_snoc.
      + intros employee skills H. apply dict_set_In in H.
        destruct H as [[-> ->] | H].
        * exists e. split; auto. apply in_app_iff. right. now left.
        * destruct (Hin _ _ H) as (e' & He' & Hn & Hs).
          exists e'. split; auto. apply in_app_iff. now left. }
  destruct Hshape as [Hkeys Hin]. split; auto.
  intros employee skills H. destruct (Hin _ _ H) as (e & He & Hn & ->).
  split; [eauto |].
  unfold skills_of.
  set (items := map (fun sc => {| Skill.skill := fst sc;
                                  Skill.mentions := snd sc |})
                    (skill_counts e)).
  pose proof (sort_by_desc_perm
                (fun x => Z.of_nat (Skill.mentions x)) items) as Hperm.
  split; [| split].
  - apply (Permutation_NoDup (l := map fst (skill_counts e)));
      [| apply skill_counts_keys].
    rewrite (Permutation_map Skill.skill Hperm).
    subst items. rewrite map_map. simpl. apply Permutation_refl.
  - intros x Hx. apply (Permutation_in _ Hperm) in Hx.
    subst items. apply in_map_iff in Hx. destruct Hx as ([term n] & <- & Ht).
    simpl. now apply (skill_counts_counted e).
  - intros i x y Hx Hy.
    pose proof (sort_by_desc_adjacent _ _ _ Hx Hy) as Hle. simpl in Hle. lia.
Qed.

End SkillForm.

(** ** The bots: what [cluster_data] does with an exception *)

Section Bots.

Variable fromisoformat : string -> option datetime.


(** X22. [cluster_data] of either bot hands on what the call returns and
    prints nothing; but a ticket whose creation time does not parse (for
    the employee bot: a ticket with an assignee) makes it print the
    [ValueError] and end in [UnboundLocalError], the name [clusters]
    never having been bound. *)
Theorem bot_cluster_data_ends_unbound_on_bad_ticket
  (jira_data : list ticket) (git_data : list commit)
  (email_data : list email) (t : ticket) :
  In t jira_data -> fromisoformat (Ticket.created_at t) = None ->
  Bot.AnonymousDBBot.cluster_data fromisoformat jira_data git_data email_data
  = ([ValueError], Bot.UnboundLocalError)
  /\ (truthy (Ticket.assignee t) <> None ->
      Bot.EmployeeDBBot.cluster_data fromisoformat
        jira_data git_data email_data
      = ([ValueError], Bot.UnboundLocalError)).
Proof.
  intros Ht Hts. split.
  - unfold Bot.AnonymousDBBot.cluster_data.
    now rewrite (@unparsable_ticket_raises fromisoformat jira_data git_data
                   email_data t Ht Hts).
  - intro Ha. unfold Bot.EmployeeDBBot.cluster_data,
      process_all_employee_data.
    rewrite (@employee_bad_ticket_raises fromisoformat jira_data git_data
               email_data t Ht); auto.
Qed.

End Bots.

(** ** rag_system: the chunks of a file *)

Lemma string_app_nil_r (s : string) : (s ++ EmptyString)%string = s.
Proof. induction s as [| c r IH]; simpl; congruence. Qed.

Lemma string_app_assoc (a b c : string) :
  ((a ++ b) ++ c)%string = (a ++ b ++ c)%string.
Proof. induction a as [| x r IH]; simpl; congruence. Qed.

Lemma string_app_length (a b : string) :
  String.length (a ++ b)%string = String.length a + String.length b.
Proof. induction a as [| x r IH]; simpl; auto. Qed.

Section Chunks.

Import RagSystem.

Lemma split_newline_nonempty (content : string) : split_newline content <> [].
Proof.
  destruct content as [| c r]; simpl; [discriminate |].
  destruct (Ascii.eqb c "010"); [discriminate |].
  destruct (split_newline r); discriminate.
Qed.

Lemma rstrip_length (s : string) :
  String.length (rstrip s) <= String.length s.
Proof.
  induction s as [| c r IH]; simpl; auto.
  destruct (rstrip r) as [| c' r']; simpl in *.
  - destruct (is_space c); simpl; lia.
  - lia.
Qed.

Lemma lstrip_length (s : string) :
  String.length (lstrip s) <= String.length s.
Proof.
  induction s as [| c r IH]; simpl; auto.
  destruct (is_space c); simpl; lia.
Qed.

Lemma strip_length (s : string) : String.length (strip s) <= String.length s.
Proof.
  unfold strip. pose proof (rstrip_length (lstrip s)).
  pose proof (lstrip_length s). lia.
Qed.

Lemma rstrip_space (s : string) (c : ascii) :
  is_space c = true -> rstrip (s ++ String c EmptyString) = rstrip s.
Proof.
  intro Hc. induction s as [| a r IH]; simpl.
  - now rewrite Hc.
  - now rewrite IH.
Qed.

(** A trailing white space does not change what [strip] gives. *)
Lemma strip_space (s : string) (c : ascii) :
  is_space c = true -> strip (s ++ String c EmptyString) = strip s.
Proof.
  intro Hc. unfold strip. induction s as [| a r IH]; simpl.
  - now rewrite Hc.
  - destruct (is_space a); auto.
    change (String a (r ++ String c EmptyString))%string
      with (String a r ++ String c EmptyString)%string.
    now apply rstrip_space.
Qed.

Lemma strip_newline (s : string) : strip (s ++ newline) = strip s.
Proof. apply strip_space. reflexivity. Qed.

Lemma solid_app (a b : string) :
  solid (a ++ b) = (solid a ++ solid b)%string.
Proof.
  induction a as [| c r IH]; simpl; auto.
  destruct (is_space c); simpl; congruence.
Qed.

Lemma solid_lstrip (s : string) : solid (lstrip s) = solid s.
Proof.
  induction s as [| c r IH]; simpl; auto.
  destruct (is_space c) eqn:E; simpl; auto. now rewrite E.
Qed.

Lemma solid_rstrip (s : string) : solid (rstrip s) = solid s.
Proof.
  assert (Hstep : forall c t, solid (String c t)
                              = if is_space c then solid t
                                else String c (solid t)) by reflexivity.
  induction s as [| c r IH]; [reflexivity |].
  cbn [rstrip]. destruct (rstrip r) as [| c' r'] eqn:E.
  - rewrite (Hstep c r), <- IH.
    destruct (is_space c) eqn:Ec; [reflexivity |].
    now rewrite Hstep, Ec.
  - now rewrite (Hstep c (String c' r')), IH, (Hstep c r).
Qed.

Lemma solid_strip (s : string) : solid (strip s) = solid s.
Proof. unfold strip. now rewrite solid_rstrip, solid_lstrip. Qed.

Lemma solid_all_app (l l' : list string) :
  solid_all (l ++ l') = (solid_all l ++ solid_all l')%string.
Proof.
  induction l as [| s r IH]; simpl; auto.
  now rewrite IH, string_app_assoc.
Qed.

(** Splitting at the line ends drops nothing but the line ends. *)
Lemma solid_split (content : string) :
  solid_all (split_newline content) = solid content.
Proof.
  induction content as [| c r IH]; simpl; auto.
  destruct (Ascii.eqb c "010") eqn:E.
  - apply Ascii.eqb_eq in E. subst c. simpl. exact IH.
  - pose proof (split_newline_nonempty r) as Hne.
    destruct (split_newline r) as [| line lines]; [contradiction |].
    simpl in *. destruct (is_space c); simpl; congruence.
Qed.

(** The state of the loop after the lines [seen]. *)
Lemma chunk_loop (chunk_size : Z) (seen : list string) :
  let st := fold_left (add_line chunk_size) seen
              {| chunks := []; current_chunk := EmptyString |} in
  (seen = [] /\ current_chunk st = EmptyString /\ chunks st = []
   \/ exists body,
        current_chunk st = (body ++ newline)%string
        /\ ((len body + 1 <= chunk_size)%Z \/ In body seen))
  /\ (forall chunk, In chunk (chunks st) ->
        chunk = EmptyString
        \/ (len chunk < chunk_size)%Z
        \/ exists line, In line seen /\ chunk = strip line)
  /\ (solid_all (chunks st) ++ solid (current_chunk st))%string
     = solid_all seen.
Proof.
  induction seen as [| line seen IH] using rev_ind.
  - simpl. split; [left; auto | split; [intros ? [] | reflexivity]].
  - rewrite fold_left_app. cbn [fold_left].
    set (st := fold_left (add_line chunk_size) seen _) in *.
    cbv zeta in IH. destruct IH as (Hcur & Hchunks & Hsolid).
    unfold add_line.
    destruct (len (current_chunk st) + len line <? chunk_size)%Z eqn:E;
      cbn [chunks current_chunk].
    + apply Z.ltb_lt in E. split; [| split].
      * right. exists (current_chunk st ++ line)%string. split.
        -- now rewrite string_app_assoc.
        -- left. unfold len in *. rewrite string_app_length. lia.
      * intros chunk Hin. destruct (Hchunks chunk Hin) as [H | [H | H]]; auto.
        destruct H as (l & Hl & ->). right. right. exists l. split; auto.
        apply in_app_iff. now left.
      * rewrite solid_all_app, <- Hsolid. simpl.
        rewrite !solid_app, !string_app_assoc. simpl.
        now rewrite !string_app_nil_r.
    + split; [| split].
      * right. exists line. split; auto. right.
        apply in_app_iff. right. now left.
      * intros chunk Hin. apply in_app_iff in Hin.
        destruct Hin as [Hin | [<- | []]].
        -- destruct (Hchunks chunk Hin) as [H | [H | H]]; auto.
           destruct H as (l & Hl & ->). right. right. exists l. split; auto.
           apply in_app_iff. now left.
        -- destruct Hcur as [(_ & -> & _) | (body & -> & Hbody)];
             [left; reflexivity |].
           rewrite strip_newline. destruct Hbody as [Hb | Hb].
           ++ right. left. pose proof (strip_length body). unfold len in *.
              lia.
           ++ right. right. exists body. split; auto.
              apply in_app_iff. now left.
      * rewrite !solid_all_app, <- Hsolid. simpl.
        rewrite solid_strip, solid_app, !string_app_assoc. simpl.
        now rewrite !string_app_nil_r.
Qed.

(** X23. [chunk_python_file] returns the empty list only for a file it
    could not read: a content that was read, were it empty, gives at least
    one chunk. *)
Theorem chunk_list_is_empty_only_on_read_error :
  forall file chunk_size,
    chunk_python_file file chunk_size = [] <-> file = None.
Proof.
  intros [content |] chunk_size; simpl; [| tauto].
  split; [| discriminate]. intro H. exfalso.
  unfold chunk_content in H.
  destruct (chunk_loop chunk_size (split_newline content))
    as (Hcur & _ & _).
  destruct Hcur as [(Hnil & _) | (body & Hbody & _)].
  - now apply split_newline_nonempty in Hnil.
  - rewrite Hbody in H.
    destruct (body ++ newline)%string eqn:E.
    + destruct body; discriminate.
    + now destruct (chunks _).
Qed.

(** X24. Every chunk is empty, or shorter than [chunk_size], or one line
    of the content, stripped: only a line that is too long by itself
    makes a chunk of [chunk_size] characters or more. *)
Theorem chunk_is_short_or_a_single_line :
  forall content chunk_size chunk,
    In chunk (chunk_python_file (Some content) chunk_size) ->
    chunk = EmptyString
    \/ (len chunk < chunk_size)%Z
    \/ exists line, In line (split_newline content) /\ chunk = strip line.
Proof.
  intros content chunk_size chunk. simpl. unfold chunk_content.
  destruct (chunk_loop chunk_size (split_newline content))
    as (Hcur & Hchunks & _).
  set (st := fold_left (add_line chunk_size) (split_newline content) _) in *.
  assert (Hlast : strip (current_chunk st) = EmptyString
                  \/ (len (strip (current_chunk st)) < chunk_size)%Z
                  \/ exists line, In line (split_newline content)
                                  /\ strip (current_chunk st) = strip line).
  { destruct Hcur as [(_ & -> & _) | (body & -> & Hbody)];
      [left; reflexivity |].
    rewrite strip_newline. destruct Hbody as [Hb | Hb].
    - right. left. pose proof (strip_length body). unfold len in *. lia.
    - right. right. eauto. }
  destruct (current_chunk st) eqn:E; [apply Hchunks |].
  intro Hin. apply in_app_iff in Hin.
  destruct Hin as [Hin | [<- | []]]; auto.
Qed.

(** X25. Chunking loses nothing but white space: the characters of the
    chunks that are no white space are, in order, those of the content. *)
Theorem chunks_keep_the_text :
  forall content chunk_size,
    solid_all (chunk_python_file (Some content) chunk_size) = solid content.
Proof.
  intros content chunk_size. simpl. unfold chunk_content.
  destruct (chunk_loop chunk_size (split_newline content))
    as (_ & _ & Hsolid).
  set (st := fold_left (add_line chunk_size) (split_newline content) _) in *.
  rewrite <- solid_split, <- Hsolid.
  destruct (current_chunk st) eqn:E.
  - simpl. now rewrite string_app_nil_r.
  - rewrite solid_all_app. simpl.
    now rewrite solid_strip, string_app_nil_r.
Qed.

End Chunks.

(** ** The order of a set of contributors *)

Lemma mem_perm (x : string) (l l' : list string) :
  Permutation l l' -> mem x l = mem x l'.
Proof.
  intro H. destruct (mem x l) eqn:E; symmetry.
  - apply mem_In. apply mem_In in E. eapply Permutation_in; eauto.
  - destruct (mem x l') eqn:E'; auto.
    apply mem_In in E'. apply Permutation_sym in H.
    apply (Permutation_in _ H) in E'. apply mem_In in E'. congruence.
Qed.

(** X27. Step 3 turns each set of contributors into a list in an order
    Python does not fix: whatever the order, a ticket adds the same to
    every weight of the graph. *)
Theorem contributors_order_does_not_change_weights
  (contributors contributors_list : list string)
  (g : ClusterEmployee.graph) (a b : string) :
  NoDup contributors -> Permutation contributors contributors_list ->
  ClusterEmployee.weight
    (ClusterEmployee.add_ticket_pairs contributors_list g) a b
  = ClusterEmployee.weight
      (ClusterEmployee.add_ticket_pairs contributors g) a b.
Proof.
  intros Hnd Hperm.
  rewrite !weight_add_ticket_pairs;
    [| exact Hnd | eapply Permutation_NoDup; eauto].
  now rewrite (mem_perm a Hperm), (mem_perm b Hperm).
Qed.

(** ** The theorems at the small snapshot *)

Lemma task_clusters_in_first_ticket_order_witness :
  ClusterKnowledge.cluster_task_data iso_basic
    Sample.jira_data Sample.git_data Sample.email_data
  = Ok Sample.task_clusters
  /\ map ClusterKnowledge.Final.task_id Sample.task_clusters
     = ["PROJ-1"; "PROJ-2"].
Proof.
  split; [vm_compute; reflexivity |].
  apply (@task_clusters_in_first_ticket_order iso_basic
           Sample.jira_data Sample.git_data Sample.email_data
           Sample.task_clusters).
  vm_compute; reflexivity.
Defined.

Lemma task_cluster_fields_from_last_ticket_witness :
  ClusterKnowledge.cluster_task_data iso_basic
    Fixture.refiled_jira_data Sample.git_data Sample.email_data
  = Ok Fixture.refiled_clusters
  /\ map ClusterKnowledge.Final.summary Fixture.refiled_clusters
     = ["Fix API timeout (again)"; "Deploy database migration"]
  /\ forall oc,
       In oc Fixture.refiled_clusters ->
       exists before t after,
         Fixture.refiled_jira_data = before ++ t :: after
         /\ Ticket.id t = ClusterKnowledge.Final.task_id oc
         /\ (forall t', In t' after ->
                        Ticket.id t' <> ClusterKnowledge.Final.task_id oc)
         /\ ClusterKnowledge.Final.summary oc = Ticket.summary t
         /\ ClusterKnowledge.Final.status oc = Ticket.status t
         /\ ClusterKnowledge.Final.assignee oc = Ticket.assignee t
         /\ ClusterKnowledge.Final.created_at oc = Ticket.created_at t.
Proof.
  split; [vm_compute; reflexivity |].
  split; [vm_compute; reflexivity |].
  apply (@task_cluster_fields_from_last_ticket iso_basic
           Fixture.refiled_jira_data Sample.git_data Sample.email_data
           Fixture.refiled_clusters).
  vm_compute; reflexivity.
Defined.

Lemma task_cluster_commits_are_input_sublist_witness :
  ClusterKnowledge.cluster_task_data iso_basic
    Sample.jira_data Sample.git_data Sample.email_data
  = Ok Sample.task_clusters
  /\ map ClusterKnowledge.Final.git_commits Sample.task_clusters
     = [[Sample.fix_commit]; []]
  /\ forall oc,
       In oc Sample.task_clusters ->
       ClusterKnowledge.Final.git_commits oc
       = filter (fun c => match truthy (Commit.ticket c) with
                          | Some k => k =? ClusterKnowledge.Final.task_id oc
                          | None => false
                          end) Sample.git_data.
Proof.
  split; [vm_compute; reflexivity |].
  split; [vm_compute; reflexivity |].
  apply (@task_cluster_commits_are_input_sublist iso_basic
           Sample.jira_data Sample.git_data Sample.email_data
           Sample.task_clusters).
  vm_compute; reflexivity.
Defined.

Lemma task_cluster_emails_follow_email_data_witness :
  ClusterKnowledge.cluster_task_data iso_basic
    Sample.jira_data Sample.git_data Sample.email_data
  = Ok Sample.task_clusters
  /\ map ClusterKnowledge.Final.emails Sample.task_clusters
     = [[Sample.direct_email; Sample.uuid_email]; []]
  /\ forall oc,
       In oc Sample.task_clusters ->
       ClusterKnowledge.Final.emails oc
       = fold_left
           (fun listed e =>
              if match findall_task_id
                         (Email.subject e ++ Email.body e)%string with
                 | [] => TaskView.shows_commit_of
                           (ClusterKnowledge.Final.git_commits oc) e
                         && negb (email_in e listed)
                 | ids => mem (ClusterKnowledge.Final.task_id oc) ids
                 end
              then listed ++ [e] else listed)
           Sample.email_data [].
Proof.
  split; [vm_compute; reflexivity |].
  split; [vm_compute; reflexivity |].
  apply (@task_cluster_emails_follow_email_data iso_basic
           Sample.jira_data Sample.git_data Sample.email_data
           Sample.task_clusters).
  vm_compute; reflexivity.
Defined.

Lemma task_cluster_timeline_is_sorted_record_events_witness :
  ClusterKnowledge.cluster_task_data iso_basic
    Sample.jira_data Sample.git_data Sample.email_data
  = Ok Sample.task_clusters
  /\ map (fun oc => map Event.type (ClusterKnowledge.Final.timeline oc))
         Sample.task_clusters
     = [["jira"; "git"; "email"; "email"]; ["jira"]]
  /\ forall oc,
       In oc Sample.task_clusters ->
       exists events,
         map Some events
         = map (TaskView.stamped iso_basic)
               (map OfTicket
                    (ClusterKnowledge.tickets_of (ClusterKnowledge.Final.task_id oc)
                                         Sample.jira_data)
                ++ map OfCommit (ClusterKnowledge.Final.git_commits oc)
                ++ map OfEmail (ClusterKnowledge.Final.emails oc))
         /\ ClusterKnowledge.Final.timeline oc
            = sort_by (fun ev => instant (Event.timestamp ev)) events.
Proof.
  split; [vm_compute; reflexivity |].
  split; [vm_compute; reflexivity |].
  apply (@task_cluster_timeline_is_sorted_record_events iso_basic
           Sample.jira_data Sample.git_data Sample.email_data
           Sample.task_clusters).
  vm_compute; reflexivity.
Defined.

Lemma email_naming_a_cluster_is_listed_witness :
  ClusterKnowledge.cluster_task_data iso_basic
    Sample.jira_data Sample.git_data Sample.email_data
  = Ok Sample.task_clusters
  /\ forall oc,
       In oc Sample.task_clusters ->
       (forall e, In e (ClusterKnowledge.Final.emails oc) ->
                  In e Sample.email_data)
       /\ (forall e,
             In (ClusterKnowledge.Final.task_id oc)
                (findall_task_id (Email.subject e ++ Email.body e)%string) ->
             occurrences e (ClusterKnowledge.Final.emails oc)
             = occurrences e Sample.email_data).
Proof.
  split; [vm_compute; reflexivity |].
  apply (@email_naming_a_cluster_is_listed iso_basic
           Sample.jira_data Sample.git_data Sample.email_data
           Sample.task_clusters).
  vm_compute; reflexivity.
Defined.

Lemma email_showing_a_commit_is_listed_once_witness :
  ClusterKnowledge.cluster_task_data iso_basic
    Sample.jira_data Sample.git_data Sample.email_data
  = Ok Sample.task_clusters
  /\ findall_task_id (Email.subject Sample.uuid_email
                      ++ Email.body Sample.uuid_email)%string = []
  /\ forall oc,
       In oc Sample.task_clusters ->
       In Sample.fix_commit (ClusterKnowledge.Final.git_commits oc) ->
       occurrences Sample.uuid_email (ClusterKnowledge.Final.emails oc) = 1.
Proof.
  split; [vm_compute; reflexivity |].
  split; [vm_compute; reflexivity |].
  intros oc Hoc Hc.
  apply (@email_showing_a_commit_is_listed_once iso_basic
           Sample.jira_data Sample.git_data Sample.email_data
           Sample.task_clusters)
    with (c := Sample.fix_commit)
         (uuid := "0a1b2c3d-4e5f-6071-8293-a4b5c6d7e8f9").
  - vm_compute; reflexivity.
  - exact Hoc.
  - right. left. reflexivity.
  - vm_compute; reflexivity.
  - vm_compute. left. reflexivity.
  - exact Hc.
  - reflexivity.
Defined.

Lemma commit_without_ticket_is_ignored_witness :
  truthy (Commit.ticket Sample.loose_commit) = None
  /\ ClusterKnowledge.cluster_task_data iso_basic Sample.jira_data
       ([Sample.fix_commit; Sample.stray_commit]
        ++ Sample.loose_commit :: []) Sample.email_data
     = ClusterKnowledge.cluster_task_data iso_basic Sample.jira_data
         ([Sample.fix_commit; Sample.stray_commit] ++ []) Sample.email_data.
Proof.
  split; [reflexivity |].
  apply (@commit_without_ticket_is_ignored iso_basic). reflexivity.
Defined.

Lemma email_without_reference_is_ignored_witness :
  findall_task_id (Email.subject Fixture.plain_email
                   ++ Email.body Fixture.plain_email)%string = []
  /\ findall_uuid (Email.body Fixture.plain_email) = []
  /\ ClusterKnowledge.cluster_task_data iso_basic Sample.jira_data
       Sample.git_data (Sample.email_data ++ Fixture.plain_email :: [])
     = ClusterKnowledge.cluster_task_data iso_basic Sample.jira_data
         Sample.git_data (Sample.email_data ++ []).
Proof.
  split; [vm_compute; reflexivity |].
  split; [vm_compute; reflexivity |].
  apply (@email_without_reference_is_ignored iso_basic);
    vm_compute; reflexivity.
Defined.

Lemma unparsable_timestamp_raises_value_error_witness :
  iso_basic (Ticket.created_at Fixture.broken_ticket) = None
  /\ iso_basic (Commit.timestamp Fixture.broken_commit) = None
  /\ ClusterKnowledge.cluster_task_data iso_basic
       [Sample.proj1; Fixture.broken_ticket] Sample.git_data
       Sample.email_data
     = Raise ValueError
  /\ ClusterKnowledge.cluster_task_data iso_basic
       Sample.jira_data [Sample.fix_commit; Fixture.broken_commit]
       Sample.email_data
     = Raise ValueError.
Proof.
  split; [vm_compute; reflexivity |].
  split; [vm_compute; reflexivity |].
  split.
  - apply (proj1 (@unparsable_timestamp_raises_value_error iso_basic
                    [Sample.proj1; Fixture.broken_ticket] Sample.git_data
                    Sample.email_data) Fixture.broken_ticket).
    + right. left. reflexivity.
    + vm_compute; reflexivity.
  - apply (proj2 (@unparsable_timestamp_raises_value_error iso_basic
                    Sample.jira_data
                    [Sample.fix_commit; Fixture.broken_commit]
                    Sample.email_data) Fixture.broken_commit).
    + intros t [<- | [<- | []]]; vm_compute; discriminate.
    + right. left. reflexivity.
    + vm_compute; discriminate.
    + vm_compute; reflexivity.
Defined.

Lemma mixed_timestamps_raise_type_error_witness :
  iso_utc (Ticket.created_at Sample.proj1)
  = Some {| aware := false;
            instant := match iso_basic "2024-03-01T09:00:00" with
                       | Some d => instant d
                       | None => 0
                       end |}
  /\ iso_utc (Commit.timestamp Fixture.aware_commit)
     = Some {| aware := true;
               instant := match iso_basic "2024-03-02T10:15:00" with
                          | Some d => instant d
                          | None => 0
                          end |}
  /\ ClusterKnowledge.cluster_task_data iso_utc
       [Sample.proj1] [Fixture.aware_commit] []
     = Raise TypeError.
Proof.
  split; [vm_compute; reflexivity |].
  split; [vm_compute; reflexivity |].
  apply (@mixed_timestamps_raise_type_error iso_utc
           [Sample.proj1] [Fixture.aware_commit] []
           Sample.proj1 Fixture.aware_commit
           {| aware := false;
              instant := match iso_basic "2024-03-01T09:00:00" with
                         | Some d => instant d
                         | None => 0
                         end |}
           {| aware := true;
              instant := match iso_basic "2024-03-02T10:15:00" with
                         | Some d => instant d
                         | None => 0
                         end |}).
  - intros t [<- | []]. vm_compute; discriminate.
  - intros c [<- | []]. vm_compute; discriminate.
  - intros e [].
  - left. reflexivity.
  - left. reflexivity.
  - reflexivity.
  - vm_compute; discriminate.
  - vm_compute; reflexivity.
  - vm_compute; reflexivity.
  - vm_compute; discriminate.
Defined.

Lemma employee_cluster_lists_are_input_sublists_witness :
  ClusterEmployee.cluster_employee_data iso_basic
    Sample.jira_data Sample.git_data Sample.email_data
  = Ok Sample.employee_clusters
  /\ map (fun oc => (ClusterEmployee.Final.employee oc,
                     length (ClusterEmployee.Final.emails_received oc)))
         Sample.employee_clusters
     = [("alice", 1); ("bob", 1); ("carol", 1); ("dave", 0)]
  /\ forall oc,
       In oc Sample.employee_clusters ->
       ClusterEmployee.Final.jira_assigned oc
       = filter (fun t => match truthy (Ticket.assignee t) with
                          | Some assignee =>
                              assignee =? ClusterEmployee.Final.employee oc
                          | None => false
                          end) Sample.jira_data
       /\ ClusterEmployee.Final.emails_received oc
          = flat_map (fun e =>
                        map (fun _ => e)
                            (filter (fun r =>
                                       r =? ClusterEmployee.Final.employee oc)
                                    (Email.recipients e)))
                     Sample.email_data.
Proof.
  split; [vm_compute; reflexivity |].
  split; [vm_compute; reflexivity |].
  intros oc Hoc.
  assert (Hrun : ClusterEmployee.cluster_employee_data iso_basic
                   Sample.jira_data Sample.git_data Sample.email_data
                 = Ok Sample.employee_clusters)
    by (vm_compute; reflexivity).
  destruct (@employee_cluster_lists_are_input_sublists iso_basic
              Sample.jira_data Sample.git_data Sample.email_data
              Sample.employee_clusters Hrun oc Hoc)
    as (Ha & _ & _ & _ & Hv).
  split; assumption.
Defined.

Lemma employee_timeline_is_sorted_record_events_witness :
  ClusterEmployee.cluster_employee_data iso_basic
    Sample.jira_data Sample.git_data Sample.email_data
  = Ok Sample.employee_clusters
  /\ map (fun oc => map Event.type (ClusterEmployee.Final.timeline oc))
         Sample.employee_clusters
     = [["jira_assigned"; "git_commit"; "email_received"; "email_sent"];
        ["git_commit"; "email_sent"; "email_received"; "jira_resolved"];
        ["jira_assigned"; "email_received"];
        ["git_commit"]]
  /\ forall oc,
       In oc Sample.employee_clusters ->
       length (ClusterEmployee.Final.timeline oc)
       = ClusterEmployee.Summary.total_activity_count
           (ClusterEmployee.Final.activity_summary oc).
Proof.
  split; [vm_compute; reflexivity |].
  split; [vm_compute; reflexivity |].
  intros oc Hoc.
  assert (Hrun : ClusterEmployee.cluster_employee_data iso_basic
                   Sample.jira_data Sample.git_data Sample.email_data
                 = Ok Sample.employee_clusters)
    by (vm_compute; reflexivity).
  exact (proj2 (@employee_timeline_is_sorted_record_events iso_basic
                  Sample.jira_data Sample.git_data Sample.email_data
                  Sample.employee_clusters Hrun oc Hoc)).
Defined.

Lemma record_naming_no_one_is_ignored_witness :
  ClusterEmployee.cluster_employee_data iso_basic
    (Sample.jira_data ++ Sample.unnamed_ticket :: [])
    Sample.git_data Sample.email_data
  = ClusterEmployee.cluster_employee_data iso_basic
      (Sample.jira_data ++ []) Sample.git_data Sample.email_data
  /\ ClusterEmployee.cluster_employee_data iso_basic Sample.jira_data
       (Sample.git_data ++ Fixture.unsigned_commit :: []) Sample.email_data
     = ClusterEmployee.cluster_employee_data iso_basic Sample.jira_data
         (Sample.git_data ++ []) Sample.email_data
  /\ ClusterEmployee.cluster_employee_data iso_basic Sample.jira_data
       Sample.git_data (Sample.email_data ++ Fixture.orphan_email :: [])
     = ClusterEmployee.cluster_employee_data iso_basic Sample.jira_data
         Sample.git_data (Sample.email_data ++ []).
Proof.
  destruct (record_naming_no_one_is_ignored iso_basic) as (Ht & Hc & He).
  split; [| split].
  - apply Ht; reflexivity.
  - apply Hc; reflexivity.
  - apply He; reflexivity.
Defined.

Lemma employee_unparsable_ticket_time_raises_value_error_witness :
  ClusterEmployee.cluster_employee_data iso_basic
    [Sample.proj1; Fixture.broken_ticket] Sample.git_data Sample.email_data
  = Raise ValueError.
Proof.
  apply (@employee_unparsable_ticket_time_raises_value_error iso_basic
           [Sample.proj1; Fixture.broken_ticket] Sample.git_data
           Sample.email_data Fixture.broken_ticket).
  - right. left. reflexivity.
  - left. split; [vm_compute; discriminate | vm_compute; reflexivity].
Defined.

Lemma analysis_totals_count_the_input_witness :
  process_all_employee_data iso_basic
    Sample.jira_data Sample.git_data Sample.email_data
  = Ok Fixture.report
  /\ ClusterEmployee.Stats.total_employees (Report.analysis Fixture.report)
     = 4
  /\ ClusterEmployee.Stats.total_git_commits
       (Report.analysis Fixture.report)
     = length (filter (fun c => named (truthy (Commit.author c)))
                      Sample.git_data)
  /\ ClusterEmployee.Stats.total_emails_received
       (Report.analysis Fixture.report)
     = list_sum (map (fun e => length (Email.recipients e))
                     Sample.email_data).
Proof.
  split; [vm_compute; reflexivity |].
  split; [vm_compute; reflexivity |].
  assert (Hrun : process_all_employee_data iso_basic
                   Sample.jira_data Sample.git_data Sample.email_data
                 = Ok Fixture.report)
    by (vm_compute; reflexivity).
  destruct (@analysis_totals_count_the_input iso_basic
              Sample.jira_data Sample.git_data Sample.email_data
              Fixture.report Hrun) as (_ & _ & _ & Hc & _ & Hr).
  split; [exact Hc | exact Hr].
Defined.

Lemma collaboration_networks_are_well_formed_witness :
  map ClusterEmployee.Network.employee
      (ClusterEmployee.identify_collaboration_networks
         Sample.employee_clusters Sample.jira_data Sample.git_data
         Sample.email_data)
  = ["bob"; "alice"; "carol"]
  /\ forall n,
       In n (ClusterEmployee.identify_collaboration_networks
               Sample.employee_clusters Sample.jira_data Sample.git_data
               Sample.email_data) ->
       ClusterEmployee.Network.total_collaborations n
       = list_sum (map ClusterEmployee.Network.strength
                       (ClusterEmployee.Network.collaborators n))
       /\ ClusterEmployee.Network.collaborators n <> [].
Proof.
  split; [vm_compute; reflexivity |].
  intros n Hn.
  destruct (collaboration_networks_are_well_formed
              Sample.employee_clusters Sample.jira_data Sample.git_data
              Sample.email_data) as (_ & _ & H).
  destruct (H n Hn) as (Ht & Hne & _). split; assumption.
Defined.

Lemma skill_lists_are_well_formed_witness :
  map fst (ClusterEmployee.extract_skills_from_activity
             Sample.employee_clusters)
  = ["alice"; "bob"; "carol"; "dave"]
  /\ forall employee skills,
       In (employee, skills)
          (ClusterEmployee.extract_skills_from_activity
             Sample.employee_clusters) ->
       NoDup (map ClusterEmployee.Skill.skill skills)
       /\ forall x, In x skills ->
                    In (ClusterEmployee.Skill.skill x)
                       (ClusterEmployee.technologies
                        ++ ClusterEmployee.actions)
                    /\ 1 <= ClusterEmployee.Skill.mentions x.
Proof.
  split; [vm_compute; reflexivity |].
  intros employee skills Hin.
  destruct (skill_lists_are_well_formed Sample.employee_clusters)
    as (_ & H).
  destruct (H employee skills Hin) as (_ & Hnd & Hx & _).
  split; assumption.
Defined.


Lemma bot_cluster_data_ends_unbound_on_bad_ticket_witness :
  Bot.AnonymousDBBot.cluster_data iso_basic
    [Sample.proj1; Fixture.broken_ticket] Sample.git_data Sample.email_data
  = ([ValueError], Bot.UnboundLocalError)
  /\ Bot.EmployeeDBBot.cluster_data iso_basic
       [Sample.proj1; Fixture.broken_ticket] Sample.git_data
       Sample.email_data
     = ([ValueError], Bot.UnboundLocalError).
Proof.
  destruct (@bot_cluster_data_ends_unbound_on_bad_ticket iso_basic
              [Sample.proj1; Fixture.broken_ticket] Sample.git_data
              Sample.email_data Fixture.broken_ticket) as (Ha & He).
  - right. left. reflexivity.
  - vm_compute; reflexivity.
  - split; [exact Ha |]. apply He. vm_compute; discriminate.
Defined.

Lemma chunk_is_short_or_a_single_line_witness :
  RagSystem.chunk_python_file
    (Some ("x = 1" ++ RagSystem.newline ++ "y = 2")%string) 500
  = [("x = 1" ++ RagSystem.newline ++ "y = 2")%string]
  /\ (("x = 1" ++ RagSystem.newline ++ "y = 2")%string = EmptyString
      \/ (RagSystem.len ("x = 1" ++ RagSystem.newline ++ "y = 2")%string
          < 500)%Z
      \/ exists line,
           In line (RagSystem.split_newline
                      ("x = 1" ++ RagSystem.newline ++ "y = 2")%string)
           /\ ("x = 1" ++ RagSystem.newline ++ "y = 2")%string
              = RagSystem.strip line).
Proof.
  split; [vm_compute; reflexivity |].
  apply (chunk_is_short_or_a_single_line
           ("x = 1" ++ RagSystem.newline ++ "y = 2")%string 500).
  vm_compute. left. reflexivity.
Defined.

Lemma direct_loop_any_order_witness :
  py_set (findall_task_id (Email.subject Fixture.two_task_email
                           ++ Email.body Fixture.two_task_email)%string)
  = ["PROJ-1"; "PROJ-2"]
  /\ foldM (ClusterKnowledge.direct_attach iso_basic Fixture.two_task_email)
           ["PROJ-2"; "PROJ-1"] Fixture.seeded
     = foldM (ClusterKnowledge.direct_attach iso_basic Fixture.two_task_email)
             (py_set (findall_task_id
                        (Email.subject Fixture.two_task_email
                         ++ Email.body Fixture.two_task_email)%string))
             Fixture.seeded.
Proof.
  split; [vm_compute; reflexivity |].
  apply (@direct_loop_any_order iso_basic Fixture.two_task_email
           ["PROJ-2"; "PROJ-1"] Fixture.seeded).
  replace (py_set (findall_task_id
                     (Email.subject Fixture.two_task_email
                      ++ Email.body Fixture.two_task_email)%string))
    with ["PROJ-1"; "PROJ-2"] by (vm_compute; reflexivity).
  apply perm_swap.
Defined.

Lemma contributors_order_does_not_change_weights_witness :
  ClusterEmployee.weight
    (ClusterEmployee.add_ticket_pairs ["bob"; "alice"; "carol"] [])
    "alice" "bob"
  = ClusterEmployee.weight
      (ClusterEmployee.add_ticket_pairs ["alice"; "bob"; "carol"] [])
      "alice" "bob".
Proof.
  apply (@contributors_order_does_not_change_weights
           ["alice"; "bob"; "carol"] ["bob"; "alice"; "carol"]).
  - repeat constructor; simpl; intuition discriminate.
  - apply perm_swap.
Defined.
